(** * Authress login SDK: a shallow embedding of [src/index.js] and
      [src/jwtManager.js], and the properties of the session client.

    The JavaScript of [LoginClient] is embedded as functions over an explicit
    [World]: the page location, the single-slot pending-authentication record
    of [localStorage], the cookie jar, the identity-token store, the module
    level session promise and sequence promise, the fields of [this], a clock
    and a scripted transport.  A computation is a function from a [World] to
    an [Outcome] and a new [World]; a thrown exception keeps the mutations
    made before it, as in JavaScript. *)

From Stdlib Require Import String Ascii List ZArith Bool Lia PeanoNat.
Import ListNotations.
Open Scope string_scope.
Open Scope list_scope.

(** ** JavaScript values *)

Module Js.

(** The values the client handles: the results of [JSON.parse], the fields of
    responses and records, cookies and query parameters.  Numbers are the
    integers (timestamps and lifetimes); arrays do not occur in the modelled
    fields. *)
#[warnings="-register-all"]
Inductive JsVal : Type :=
| JUndefined
| JNull
| JBool (b : bool)
| JNum (n : Z)
| JStr (s : string)
| JObj (fields : list (string * JsVal)).

(** [typeof Date]: a time value in milliseconds, or [Invalid Date]. *)
Inductive JsDate : Type :=
| ValidDate (ms : Z)
| InvalidDate.

Inductive JsError : Type :=
| CodedError (code : JsVal) (message : JsVal)  (* Error(message) with e.code = code *)
| PlainError (message : string)                (* Error(message) *)
| TypeError
| ReferenceError
| SyntaxError
| ForeignError                                 (* thrown inside a module outside src/ *)
| Rejection (reason : JsVal).                  (* a rejected promise, its reason passed on *)

Inductive Outcome (A : Type) : Type :=
| Ok (a : A)
| Throw (e : JsError).
Arguments Ok {A} a.
Arguments Throw {A} e.

(** ToBoolean *)
Definition truthy (v : JsVal) : bool :=
  match v with
  | JUndefined | JNull => false
  | JBool b => b
  | JNum n => negb (n =? 0)%Z
  | JStr s => negb (s =? "")
  | JObj _ => true
  end.

(** [a || b] and [a && b] on values, both operands already evaluated. *)
Definition js_or (a b : JsVal) : JsVal := if truthy a then a else b.
Definition js_and (a b : JsVal) : JsVal := if truthy a then b else a.

Fixpoint lookup {A : Type} (k : string) (l : list (string * A)) : option A :=
  match l with
  | [] => None
  | (k', v) :: rest => if k' =? k then Some v else lookup k rest
  end.

Fixpoint remove_key {A : Type} (k : string) (l : list (string * A)) : list (string * A) :=
  match l with
  | [] => []
  | (k', v) :: rest => if k' =? k then remove_key k rest else (k', v) :: remove_key k rest
  end.

(** Assignment [o.k = v] on the field list of an object: an existing key keeps
    its position, a new key goes last. *)
Fixpoint assign {A : Type} (k : string) (v : A) (l : list (string * A)) : list (string * A) :=
  match l with
  | [] => [(k, v)]
  | (k', v') :: rest => if k' =? k then (k, v) :: rest else (k', v') :: assign k v rest
  end.

(** [v.k]: a TypeError on [undefined] and [null], [undefined] for a missing
    property and for the primitives (none of the names read here is a
    property of a string, number or boolean). *)
Definition getProp (v : JsVal) (k : string) : Outcome JsVal :=
  match v with
  | JUndefined | JNull => Throw TypeError
  | JObj fields => Ok (match lookup k fields with Some x => x | None => JUndefined end)
  | _ => Ok JUndefined
  end.

(** [v.k = x] in strict mode (class bodies are strict): a TypeError on
    anything that is not an object. *)
Definition setProp (v : JsVal) (k : string) (x : JsVal) : Outcome JsVal :=
  match v with
  | JObj fields => Ok (JObj (assign k x fields))
  | _ => Throw TypeError
  end.

(** [urlSearchParams.get(k)]: a string, or [null]. *)
Definition of_param (o : option string) : JsVal :=
  match o with
  | Some s => JStr s
  | None => JNull
  end.

(** [v === s] against a query parameter (a string or [null]). *)
Definition strict_eq_param (v : JsVal) (o : option string) : bool :=
  match v, o with
  | JStr s, Some t => s =? t
  | JNull, None => true
  | _, _ => false
  end.

Definition is_false (v : JsVal) : bool :=
  match v with
  | JBool false => true
  | _ => false
  end.

End Js.
Export Js.

(** ** Strings: [split('.')], [join('.')], [toLowerCase()], [take] *)

Module Text.

(** [s.split('.')]: never empty; [''.split('.')] is [['']]. *)
Fixpoint split_dot (s : string) : list string :=
  match s with
  | EmptyString => [EmptyString]
  | String c rest =>
    if Ascii.eqb c "."%char then EmptyString :: split_dot rest
    else match split_dot rest with
         | [] => [String c EmptyString]
         | hd :: tl => String c hd :: tl
         end
  end.

(** [l.join('.')] *)
Definition join_dot (l : list string) : string := String.concat "." l.

Definition lower_ascii (c : ascii) : ascii :=
  let n := nat_of_ascii c in
  if andb (65 <=? n)%nat (n <=? 90)%nat then ascii_of_nat (n + 32) else c.

(** [s.toLowerCase()] on the ASCII letters (a host is ASCII). *)
Fixpoint toLowerCase (s : string) : string :=
  match s with
  | EmptyString => EmptyString
  | String c rest => String (lower_ascii c) (toLowerCase rest)
  end.

(** [s.startsWith(p)] *)
Fixpoint starts_with (p s : string) : bool :=
  match p, s with
  | EmptyString, _ => true
  | String a p', String b s' => andb (Ascii.eqb a b) (starts_with p' s')
  | String _ _, EmptyString => false
  end.

(** lodash [take(array, n)] *)
Definition take {A : Type} (l : list A) (n : nat) : list A := firstn n l.

End Text.
Export Text.

(** [window.location], with the query already split into its pairs, as
    [URLSearchParams] reads it. *)
Record Location : Type := {
  protocol : string;
  host : string;
  hostname : string;
  pathname : string;
  search : list (string * string)
}.

(** ** The platform

    Functions of the host platform and of modules outside [src/] that the
    client calls and that are taken as given. *)
Record Platform : Type := {
  (** [new URL(u).host]; [None] when the constructor throws. *)
  URL_host : string -> option string;
  (** [new URL(u).toString()]; [None] when the constructor throws. *)
  URL_normalize : string -> option string;
  (** [base64url.decode(segment)], the segment being a string or
      [undefined]; [None] when it throws. *)
  base64url_decode : option string -> option string;
  (** [JSON.parse(text)]; [None] when it throws. *)
  JSON_parse : string -> option JsVal;
  (** ToNumber on a string; [None] is NaN. *)
  StringToNumber : string -> option Z;
  (** ToString on a number. *)
  NumberToString : Z -> string;
  (** [window.location.href] *)
  Location_href : Location -> string
}.

(** ** The world *)

(** A cookie of [document.cookie]: [cookieManager.parse] maps a name to the
    value of its first occurrence. *)
Record Cookie : Type := {
  cookieName : string;
  cookieValue : string;
  cookieExpires : JsDate
}.

(** What [localStorage.getItem(AuthenticationRequestNonceKey)] holds: nothing
    (or the empty text, which [|| '{}'] treats alike), a text [JSON.parse]
    reads as a value, or a text it throws on. *)
Inductive SlotItem : Type :=
| NoItem
| JsonItem (v : JsVal)
| GarbageItem.

(** [localStorage] itself may throw on every access (storage disabled). *)
Inductive Storage : Type :=
| StorageBroken
| StorageSlot (item : SlotItem).

(** The entry of [userIdentityTokenStorageManager]. *)
Record TokenEntry : Type := {
  entryToken : JsVal;
  entryExpiry : JsDate
}.

Record Request : Type := {
  reqMethod : string;
  reqPath : string;
  reqCredentials : bool;
  reqBody : JsVal;
  reqHeaders : list (string * JsVal)
}.

(** A transport call resolves with [{ data }] or rejects with an error
    object ([{ status, data }] for a provider answer). *)
Inductive HttpResult : Type :=
| HttpOk (data : JsVal)
| HttpFail (error : JsVal).

(** One invocation of [userSessionContinuation] registered on the sequence
    promise: its argument, and its outcome once its promise has settled. *)
Record SessionRun : Type := {
  runBackground : bool;
  runOutcome : option (Outcome bool)
}.

Record World : Type := {
  (** [window]: [None] when [typeof window === 'undefined']; the client is a
      browser client, and the window of a browser always has its location. *)
  window : option Location;
  localStorage : Storage;
  cookies : list Cookie;
  (** [window.location.assign(url)], and [window.open(url, '_blank')] with [true] *)
  navigations : list (JsVal * bool);
  (** [window.onload] has been set to run [userSessionExists(true)] *)
  onloadHook : bool;
  (** the entry of [userIdentityTokenStorageManager] *)
  tokenStore : option TokenEntry;
  (** [userSessionPromise] has been resolved *)
  userSessionResolved : bool;
  (** the promises made by [userSessionExists], in the order they settle *)
  sessionRuns : list SessionRun;
  (** [userSessionSequencePromise]: [null], or an index into [sessionRuns] *)
  userSessionSequencePromise : option nat;
  (** [this.hostUrl], [this.settings.applicationId], [this.enableCredentials],
      [this.lastSessionCheck] *)
  hostUrl : string;
  applicationId : JsVal;
  enableCredentials : bool;
  lastSessionCheck : Z;
  (** [Date.now()], and how far the clock moves after each reading *)
  now : Z;
  ticks : list Z;
  (** transport: the requests issued, and the answers still to come *)
  requests : list Request;
  responses : list HttpResult;
  (** the [codeVerifier] and [codeChallenge] that [jwtManager.getAuthCodes()] will produce *)
  authCodes : string * string
}.

Definition M (A : Type) : Type := World -> Outcome A * World.

Definition ret {A : Type} (a : A) : M A := fun w => (Ok a, w).
Definition throw {A : Type} (e : JsError) : M A := fun w => (Throw e, w).
Definition bind {A B : Type} (m : M A) (f : A -> M B) : M B :=
  fun w => match m w with
           | (Ok a, w') => f a w'
           | (Throw e, w') => (Throw e, w')
           end.
(** [try { m } catch (error) { h error }] *)
Definition try_catch {A : Type} (m : M A) (h : JsError -> M A) : M A :=
  fun w => match m w with
           | (Ok a, w') => (Ok a, w')
           | (Throw e, w') => h e w'
           end.
Definition lift {A : Type} (o : Outcome A) : M A := fun w => (o, w).
Definition gets {A : Type} (f : World -> A) : M A := fun w => (Ok (f w), w).
Definition modify (f : World -> World) : M unit := fun w => (Ok tt, f w).

Declare Scope js_scope.
Delimit Scope js_scope with js.
Notation "x <- m ;; k" := (bind m (fun x => k))
  (at level 61, m at next level, right associativity) : js_scope.
Notation "m ;; k" := (bind m (fun _ => k))
  (at level 61, right associativity) : js_scope.
Open Scope js_scope.

(** Field updates of the world. *)
Definition set_window (x : option Location) (w : World) : World :=
  {| window := x; localStorage := localStorage w; cookies := cookies w;
     navigations := navigations w; onloadHook := onloadHook w;
     tokenStore := tokenStore w; userSessionResolved := userSessionResolved w;
     sessionRuns := sessionRuns w;
     userSessionSequencePromise := userSessionSequencePromise w; hostUrl := hostUrl w;
     applicationId := applicationId w; enableCredentials := enableCredentials w;
     lastSessionCheck := lastSessionCheck w; now := now w; ticks := ticks w;
     requests := requests w; responses := responses w; authCodes := authCodes w |}.
Definition set_localStorage (x : Storage) (w : World) : World :=
  {| window := window w; localStorage := x; cookies := cookies w;
     navigations := navigations w; onloadHook := onloadHook w;
     tokenStore := tokenStore w; userSessionResolved := userSessionResolved w;
     sessionRuns := sessionRuns w;
     userSessionSequencePromise := userSessionSequencePromise w; hostUrl := hostUrl w;
     applicationId := applicationId w; enableCredentials := enableCredentials w;
     lastSessionCheck := lastSessionCheck w; now := now w; ticks := ticks w;
     requests := requests w; responses := responses w; authCodes := authCodes w |}.
Definition set_cookies (x : list Cookie) (w : World) : World :=
  {| window := window w; localStorage := localStorage w; cookies := x;
     navigations := navigations w; onloadHook := onloadHook w;
     tokenStore := tokenStore w; userSessionResolved := userSessionResolved w;
     sessionRuns := sessionRuns w;
     userSessionSequencePromise := userSessionSequencePromise w; hostUrl := hostUrl w;
     applicationId := applicationId w; enableCredentials := enableCredentials w;
     lastSessionCheck := lastSessionCheck w; now := now w; ticks := ticks w;
     requests := requests w; responses := responses w; authCodes := authCodes w |}.
Definition set_navigations (x : list (JsVal * bool)) (w : World) : World :=
  {| window := window w; localStorage := localStorage w; cookies := cookies w;
     navigations := x; onloadHook := onloadHook w; tokenStore := tokenStore w;
     userSessionResolved := userSessionResolved w; sessionRuns := sessionRuns w;
     userSessionSequencePromise := userSessionSequencePromise w; hostUrl := hostUrl w;
     applicationId := applicationId w; enableCredentials := enableCredentials w;
     lastSessionCheck := lastSessionCheck w; now := now w; ticks := ticks w;
     requests := requests w; responses := responses w; authCodes := authCodes w |}.
Definition set_onloadHook (x : bool) (w : World) : World :=
  {| window := window w; localStorage := localStorage w; cookies := cookies w;
     navigations := navigations w; onloadHook := x; tokenStore := tokenStore w;
     userSessionResolved := userSessionResolved w; sessionRuns := sessionRuns w;
     userSessionSequencePromise := userSessionSequencePromise w; hostUrl := hostUrl w;
     applicationId := applicationId w; enableCredentials := enableCredentials w;
     lastSessionCheck := lastSessionCheck w; now := now w; ticks := ticks w;
     requests := requests w; responses := responses w; authCodes := authCodes w |}.
Definition set_tokenStore (x : option TokenEntry) (w : World) : World :=
  {| window := window w; localStorage := localStorage w; cookies := cookies w;
     navigations := navigations w; onloadHook := onloadHook w; tokenStore := x;
     userSessionResolved := userSessionResolved w; sessionRuns := sessionRuns w;
     userSessionSequencePromise := userSessionSequencePromise w; hostUrl := hostUrl w;
     applicationId := applicationId w; enableCredentials := enableCredentials w;
     lastSessionCheck := lastSessionCheck w; now := now w; ticks := ticks w;
     requests := requests w; responses := responses w; authCodes := authCodes w |}.
Definition set_userSessionResolved (x : bool) (w : World) : World :=
  {| window := window w; localStorage := localStorage w; cookies := cookies w;
     navigations := navigations w; onloadHook := onloadHook w;
     tokenStore := tokenStore w; userSessionResolved := x; sessionRuns := sessionRuns w;
     userSessionSequencePromise := userSessionSequencePromise w; hostUrl := hostUrl w;
     applicationId := applicationId w; enableCredentials := enableCredentials w;
     lastSessionCheck := lastSessionCheck w; now := now w; ticks := ticks w;
     requests := requests w; responses := responses w; authCodes := authCodes w |}.
Definition set_sessionRuns (x : list SessionRun) (w : World) : World :=
  {| window := window w; localStorage := localStorage w; cookies := cookies w;
     navigations := navigations w; onloadHook := onloadHook w;
     tokenStore := tokenStore w; userSessionResolved := userSessionResolved w;
     sessionRuns := x; userSessionSequencePromise := userSessionSequencePromise w;
     hostUrl := hostUrl w; applicationId := applicationId w;
     enableCredentials := enableCredentials w; lastSessionCheck := lastSessionCheck w;
     now := now w; ticks := ticks w; requests := requests w; responses := responses w;
     authCodes := authCodes w |}.
Definition set_userSessionSequencePromise (x : option nat) (w : World) : World :=
  {| window := window w; localStorage := localStorage w; cookies := cookies w;
     navigations := navigations w; onloadHook := onloadHook w;
     tokenStore := tokenStore w; userSessionResolved := userSessionResolved w;
     sessionRuns := sessionRuns w; userSessionSequencePromise := x;
     hostUrl := hostUrl w; applicationId := applicationId w;
     enableCredentials := enableCredentials w; lastSessionCheck := lastSessionCheck w;
     now := now w; ticks := ticks w; requests := requests w; responses := responses w;
     authCodes := authCodes w |}.
Definition set_enableCredentials (x : bool) (w : World) : World :=
  {| window := window w; localStorage := localStorage w; cookies := cookies w;
     navigations := navigations w; onloadHook := onloadHook w;
     tokenStore := tokenStore w; userSessionResolved := userSessionResolved w;
     sessionRuns := sessionRuns w;
     userSessionSequencePromise := userSessionSequencePromise w; hostUrl := hostUrl w;
     applicationId := applicationId w; enableCredentials := x;
     lastSessionCheck := lastSessionCheck w; now := now w; ticks := ticks w;
     requests := requests w; responses := responses w; authCodes := authCodes w |}.
Definition set_lastSessionCheck (x : Z) (w : World) : World :=
  {| window := window w; localStorage := localStorage w; cookies := cookies w;
     navigations := navigations w; onloadHook := onloadHook w;
     tokenStore := tokenStore w; userSessionResolved := userSessionResolved w;
     sessionRuns := sessionRuns w;
     userSessionSequencePromise := userSessionSequencePromise w; hostUrl := hostUrl w;
     applicationId := applicationId w; enableCredentials := enableCredentials w;
     lastSessionCheck := x; now := now w; ticks := ticks w; requests := requests w;
     responses := responses w; authCodes := authCodes w |}.
Definition set_clock (t : Z) (x : list Z) (w : World) : World :=
  {| window := window w; localStorage := localStorage w; cookies := cookies w;
     navigations := navigations w; onloadHook := onloadHook w;
     tokenStore := tokenStore w; userSessionResolved := userSessionResolved w;
     sessionRuns := sessionRuns w;
     userSessionSequencePromise := userSessionSequencePromise w; hostUrl := hostUrl w;
     applicationId := applicationId w; enableCredentials := enableCredentials w;
     lastSessionCheck := lastSessionCheck w; now := t; ticks := x;
     requests := requests w; responses := responses w; authCodes := authCodes w |}.
Definition set_transport (rq : list Request) (rs : list HttpResult) (w : World) : World :=
  {| window := window w; localStorage := localStorage w; cookies := cookies w;
     navigations := navigations w; onloadHook := onloadHook w;
     tokenStore := tokenStore w; userSessionResolved := userSessionResolved w;
     sessionRuns := sessionRuns w;
     userSessionSequencePromise := userSessionSequencePromise w; hostUrl := hostUrl w;
     applicationId := applicationId w; enableCredentials := enableCredentials w;
     lastSessionCheck := lastSessionCheck w; now := now w; ticks := ticks w;
     requests := rq; responses := rs; authCodes := authCodes w |}.
Definition set_hostUrl (x : string) (w : World) : World :=
  {| window := window w; localStorage := localStorage w; cookies := cookies w;
     navigations := navigations w; onloadHook := onloadHook w;
     tokenStore := tokenStore w; userSessionResolved := userSessionResolved w;
     sessionRuns := sessionRuns w;
     userSessionSequencePromise := userSessionSequencePromise w; hostUrl := x;
     applicationId := applicationId w; enableCredentials := enableCredentials w;
     lastSessionCheck := lastSessionCheck w; now := now w; ticks := ticks w;
     requests := requests w; responses := responses w; authCodes := authCodes w |}.
Definition set_applicationId (x : JsVal) (w : World) : World :=
  {| window := window w; localStorage := localStorage w; cookies := cookies w;
     navigations := navigations w; onloadHook := onloadHook w;
     tokenStore := tokenStore w; userSessionResolved := userSessionResolved w;
     sessionRuns := sessionRuns w;
     userSessionSequencePromise := userSessionSequencePromise w; hostUrl := hostUrl w;
     applicationId := x; enableCredentials := enableCredentials w;
     lastSessionCheck := lastSessionCheck w; now := now w; ticks := ticks w;
     requests := requests w; responses := responses w; authCodes := authCodes w |}.

(** ** DomainPolicy: [isLocalHost] and [getMatchingDomainInfo] *)

(** [isLocalHost()]: [typeof window !== 'undefined' && window.location &&
    (hostname === 'localhost' || hostname === '127.0.0.1')], read as a
    condition. *)
Definition isLocalHost (w : World) : bool :=
  match window w with
  | None => false
  | Some loc => orb (hostname loc =? "localhost") (hostname loc =? "127.0.0.1")
  end.

(** The [for (let segment of tokenUrlList)] loop with its [break]:
    [reversedMatchSegments] is the accumulator. *)
Fixpoint matchSegments (appUrlList tokenUrlList reversedMatchSegments : list string)
  : list string :=
  match tokenUrlList with
  | [] => reversedMatchSegments
  | segment :: rest =>
    let urlToTest := join_dot (take appUrlList (length reversedMatchSegments + 1)) in
    let urlToMatch := join_dot (reversedMatchSegments ++ [segment]) in
    if negb (urlToMatch =? urlToTest) then reversedMatchSegments
    else matchSegments appUrlList rest (reversedMatchSegments ++ [segment])
  end.

Definition reversedLabels (h : string) : list string :=
  rev (split_dot (toLowerCase h)).

Section DomainPolicy.
Variable P : Platform.

Definition getMatchingDomainInfo (hostUrlArg : string) (w : World) : Outcome bool :=
  match URL_host P hostUrlArg with
  | None => Throw TypeError
  | Some providerHost =>
    if isLocalHost w then Ok false
    else match window w with
    | None => Ok false
    | Some loc =>
      if negb (protocol loc =? "https:") then Ok false
      else
        let tokenUrlList := reversedLabels providerHost in
        let appUrlList := reversedLabels (host loc) in
        let reversedMatchSegments := matchSegments appUrlList tokenUrlList [] in
        if andb (length reversedMatchSegments =? length tokenUrlList)%nat
                (length reversedMatchSegments =? length appUrlList)%nat
        then Ok true
        else if (1 <? length reversedMatchSegments)%nat then Ok true
        else Ok false
    end
  end.
End DomainPolicy.

(** The rule in the words of the specification: the number of labels that
    agree, walking both hosts from the TLD inward and stopping at the first
    mismatch. *)
Fixpoint matchedLabels (provider page : list string) : nat :=
  match provider, page with
  | x :: provider', y :: page' =>
    if x =? y then S (matchedLabels provider' page') else 0
  | _, _ => 0
  end.

Definition domainsMatch (providerHost pageHost : string) : bool :=
  let tokenUrlList := reversedLabels providerHost in
  let appUrlList := reversedLabels pageHost in
  let m := matchedLabels tokenUrlList appUrlList in
  orb (andb (m =? length tokenUrlList)%nat (m =? length appUrlList)%nat)
      (2 <=? m)%nat.


(** ** The client *)

Definition is_str (v : JsVal) (s : string) : bool :=
  match v with
  | JStr t => t =? s
  | _ => false
  end.

(** The largest time value of a Date, in ms from the epoch. *)
Definition maxDate : Z := 8640000000000000.

(** A time value a Date can hold. *)
Definition inDateRange (t : Z) : Prop := (- maxDate <= t <= maxDate)%Z.

(** [new Date(ms)]: an Invalid Date for NaN and for a time value beyond
    [maxDate] on either side. *)
Definition new_Date (ms : option Z) : JsDate :=
  match ms with
  | Some t => if andb (- maxDate <=? t)%Z (t <=? maxDate)%Z then ValidDate t else InvalidDate
  | None => InvalidDate
  end.

(** [Date.now()]: reads the clock, which then moves by the next tick. *)
Definition Date_now : M Z :=
  fun w => (Ok (now w), set_clock (now w + hd 0%Z (ticks w))%Z (tl (ticks w)) w).

(** [window.location]; [window] itself is a ReferenceError where it is not
    defined. *)
Definition getLocation : M Location :=
  fun w => match window w with
           | Some loc => (Ok loc, w)
           | None => (Throw ReferenceError, w)
           end.

Definition with_search (q : list (string * string)) (loc : Location) : Location :=
  {| protocol := protocol loc; host := host loc; hostname := hostname loc;
     pathname := pathname loc; search := q |}.

(** [history.replaceState({}, undefined, newUrl.toString())] *)
Definition history_replaceState (q : list (string * string)) : M unit :=
  modify (fun w => set_window (option_map (with_search q) (window w)) w).

(** [cookieManager.parse(document.cookie)[name]] *)
Fixpoint cookie_parse (jar : list Cookie) (name : string) : JsVal :=
  match jar with
  | [] => JUndefined
  | c :: rest => if cookieName c =? name then JStr (cookieValue c) else cookie_parse rest name
  end.

Fixpoint store_cookie (c : Cookie) (jar : list Cookie) : list Cookie :=
  match jar with
  | [] => [c]
  | c' :: rest => if cookieName c' =? cookieName c then c :: rest else c' :: store_cookie c rest
  end.

Definition remove_cookie (name : string) (jar : list Cookie) : list Cookie :=
  filter (fun c => negb (cookieName c =? name)) jar.

(** [expires.toUTCString()] names a whole second: the one the date lies
    in. *)
Definition wholeSecond (ms : Z) : Z := (1000 * (ms / 1000))%Z.

(** [document.cookie = cookieManager.serialize(name, value, { expires, path: '/' })];
    the jar keeps one cookie per name.  [serialize] writes
    [expires.toUTCString()] as the [Expires] attribute: the date cut to the
    whole second, and a cookie set with an [Expires] that is not in the
    future is removed by the browser and not kept; for an Invalid Date the
    text is one the browser cannot read, so that the cookie is kept without
    a date (its [cookieExpires] is the Invalid Date).  The [cookie] module is
    not under [src/]: this is [serialize] as its releases before 0.5 have it;
    later ones refuse an Invalid Date with a TypeError.  The value is
    URI-encoded by [serialize] and decoded again by [parse].  A cookie that
    comes of age between a writing and a reading of the jar is outside the
    model. *)
Definition document_cookie_set (name value : string) (expires : JsDate) : M unit :=
  modify (fun w => set_cookies
    (match expires with
     | ValidDate ms =>
       if (wholeSecond ms <=? now w)%Z then remove_cookie name (cookies w)
       else store_cookie {| cookieName := name; cookieValue := value;
                            cookieExpires := ValidDate (wholeSecond ms) |} (cookies w)
     | InvalidDate =>
       store_cookie {| cookieName := name; cookieValue := value;
                       cookieExpires := InvalidDate |} (cookies w)
     end) w).

(** *** TokenStore

    [userIdentityTokenStorageManager] is required by [index.js] and its file
    is not among the sources: the four definitions below follow the contract
    of the specification. *)

(** Modelled from the spec: the expiry test of [userIdentityTokenStorageManager.get],
    whose file is missing.  Section 4.2: [get] must return null for an entry
    whose expiry has passed. *)
Definition expiryPassed (e : JsDate) (t : Z) : bool :=
  match e with
  | ValidDate ms => (ms <=? t)%Z
  | InvalidDate => false
  end.

(** Modelled from the spec: what [userIdentityTokenStorageManager.get()]
    returns, its file being missing.  Section 4.2: [get() -> token|null],
    never an expired token. *)
Definition heldToken (w : World) : JsVal :=
  match tokenStore w with
  | Some e => if expiryPassed (entryExpiry e) (now w) then JNull else entryToken e
  | None => JNull
  end.

(** Modelled from the spec: [userIdentityTokenStorageManager.get], whose
    file is missing; it reads and does not write. *)
Definition TokenStore_get : M JsVal := fun w => (Ok (heldToken w), w).

(** Modelled from the spec: [userIdentityTokenStorageManager.set], whose
    file is missing.  Section 4.2: [set(token, expiry)] overwrites any
    existing entry. *)
Definition TokenStore_set (token : JsVal) (expiry : JsDate) : M unit :=
  modify (set_tokenStore (Some {| entryToken := token; entryExpiry := expiry |})).

(** Modelled from the spec: [userIdentityTokenStorageManager.clear], whose
    file is missing. *)
Definition TokenStore_clear : M unit := modify (set_tokenStore None).

(** [userSessionResolver()] *)
Definition userSessionResolver : M unit := modify (set_userSessionResolved true).

(** [error.k] on a caught exception. *)
Definition error_prop (e : JsError) (k : string) : Outcome JsVal :=
  match e with
  | Rejection reason => getProp reason k
  | CodedError code message =>
    Ok (if k =? "code" then code else if k =? "message" then message else JUndefined)
  | PlainError message => Ok (if k =? "message" then JStr message else JUndefined)
  | _ => Ok JUndefined
  end.

(** [JSON.stringify] drops the fields of an object that are [undefined]. *)
Definition stringify_fields (fields : list (string * JsVal)) : list (string * JsVal) :=
  filter (fun kv => match snd kv with JUndefined => false | _ => true end) fields.

Record AuthenticateArgs : Type := {
  connectionId : JsVal;
  tenantLookupIdentifier : JsVal;
  redirectUrl : JsVal;
  force : JsVal;
  responseLocation : JsVal;
  flowType : JsVal;
  connectionProperties : JsVal;
  openType : JsVal;
  multiAccount : JsVal
}.

Record Settings : Type := {
  authressLoginHostUrl : JsVal;
  authenticationServiceUrl : JsVal;
  settingsApplicationId : JsVal;
  skipBackgroundCredentialsCheck : JsVal
}.

(** [hostUrl.replace(/^(https?:\/+)/, '')]: [http], an optional [s], a colon
    and all the slashes that follow (at least one). *)
Fixpoint drop_slashes (s : string) : string :=
  match s with
  | String "/" rest => drop_slashes rest
  | _ => s
  end.

(** A run of [n] slashes. *)
Fixpoint slashes (n : nat) : string :=
  match n with
  | O => EmptyString
  | S m => String "/" (slashes m)
  end.

(** The text starts with a slash. *)
Definition leadingSlash (s : string) : bool :=
  match s with
  | String "/" _ => true
  | _ => false
  end.

Definition strip_scheme (s : string) : string :=
  match s with
  | String "h" (String "t" (String "t" (String "p" rest))) =>
    let rest' := match rest with String "s" r => r | _ => rest end in
    match rest' with
    | String ":" (String "/" r) => drop_slashes r
    | _ => s
    end
  | _ => s
  end.

(** The [sub] claim among the claims of a token. *)
Definition subClaim (claims : list (string * JsVal)) : JsVal :=
  match lookup "sub" claims with
  | Some v => v
  | None => JUndefined
  end.

(** [settings.authressLoginHostUrl || settings.authenticationServiceUrl || ''] *)
Definition configuredHost (settings : Settings) : JsVal :=
  js_or (js_or (authressLoginHostUrl settings) (authenticationServiceUrl settings)) (JStr "").

(** The host the settings configure as [s]: [authressLoginHostUrl] is [s], or
    it is falsy and [authenticationServiceUrl] is [s]. *)
Definition configures (settings : Settings) (s : string) : Prop :=
  authressLoginHostUrl settings = JStr s \/
  (truthy (authressLoginHostUrl settings) = false /\
   authenticationServiceUrl settings = JStr s).

Definition dquote : string := String (ascii_of_nat 34) EmptyString.

Definition missingHostUrl : string :=
  ("Missing required property " ++ dquote ++ "authressLoginHostUrl" ++ dquote
   ++ " in LoginClient constructor. Custom Authress Domain Host is required.")%string.

Definition invalidNonce : JsError :=
  CodedError (JStr "InvalidNonce")
             (JStr "Prevented a reply attack reusing the authentication request").

Definition invalidConnection : JsError :=
  CodedError (JStr "InvalidConnection")
             (JStr "connectionId or tenantLookupIdentifier must be specified").

Definition tokenTimeout : JsError :=
  CodedError (JStr "TokenTimeout") (JStr "No token retrieved after timeout").

Section Client.
Variable P : Platform.

(** ToNumber; [None] is NaN. *)
Definition ToNumber (v : JsVal) : option Z :=
  match v with
  | JUndefined => None
  | JNull => Some 0%Z
  | JBool b => Some (if b then 1 else 0)%Z
  | JNum n => Some n
  | JStr s => StringToNumber P s
  | JObj _ => None
  end.

Definition ToString (v : JsVal) : string :=
  match v with
  | JUndefined => "undefined"
  | JNull => "null"
  | JBool true => "true"
  | JBool false => "false"
  | JNum n => NumberToString P n
  | JStr s => s
  | JObj _ => "[object Object]"
  end.

(** [a >= lo && a < hi] on numbers; a comparison with NaN is false. *)
Definition in_range (a : JsVal) (lo hi : Z) : bool :=
  match ToNumber a with
  | Some n => andb (lo <=? n)%Z (n <? hi)%Z
  | None => false
  end.

(** *** jwtManager *)

(** [JSON.parse(base64url.decode(token.split('.')[i]))] *)
Definition parseSegment (token : JsVal) (i : nat) : Outcome JsVal :=
  match token with
  | JStr s =>
    match base64url_decode P (nth_error (split_dot s) i) with
    | None => Throw ForeignError
    | Some text =>
      match JSON_parse P text with
      | None => Throw SyntaxError
      | Some v => Ok v
      end
    end
  | _ => Throw TypeError
  end.

Definition decode (token : JsVal) : Outcome JsVal :=
  match (if truthy token then parseSegment token 1 else Ok token) with
  | Ok v => Ok v
  | Throw _ => Ok JNull
  end.

Definition decodeFull (token : JsVal) : Outcome JsVal :=
  match (if truthy token
         then match parseSegment token 0 with
              | Ok header =>
                match parseSegment token 1 with
                | Ok payload => Ok (JObj [("header", header); ("payload", payload)])
                | Throw e => Throw e
                end
              | Throw e => Throw e
              end
         else Ok token) with
  | Ok v => Ok v
  | Throw _ => Ok JNull
  end.

(** *** LoginClient *)

Definition getUserIdentity : M JsVal :=
  userIdToken <- TokenStore_get ;;
  userData <- (if truthy userIdToken then lift (decode userIdToken) else ret userIdToken) ;;
  if negb (truthy userData) then ret JNull
  else
    sub <- lift (getProp userData "sub") ;;
    lift (setProp userData "userId" sub).

(** A call of [httpClient]: the request is recorded and the next scripted
    answer comes back, [result.data] on success; a transport with no answer
    left fails with a plain error object. *)
Definition httpClient (method path : string) (credentials : bool) (body : JsVal)
           (headers : list (string * JsVal)) : M JsVal :=
  fun w =>
    let rq := requests w ++ [{| reqMethod := method; reqPath := path;
                                reqCredentials := credentials; reqBody := body;
                                reqHeaders := headers |}] in
    match responses w with
    | [] => (Throw (Rejection (JObj [])), set_transport rq [] w)
    | HttpOk data :: rest => (Ok data, set_transport rq rest w)
    | HttpFail error :: rest => (Throw (Rejection error), set_transport rq rest w)
    end.

(** [new Date(Date.now() + expires_in * 1000)] *)
Definition lifetimeExpiry (expires_in : JsVal) : M JsDate :=
  t <- Date_now ;;
  ret (new_Date (option_map (fun n => t + n * 1000)%Z (ToNumber expires_in))).

(** [new Date(idToken.exp * 1000)] *)
Definition claimExpiry (idToken : JsVal) : M JsDate :=
  exp <- lift (getProp idToken "exp") ;;
  ret (new_Date (option_map (fun n => n * 1000)%Z (ToNumber exp))).

(** Lines 186-189, and again 231-234: decode the identity token, compute
    the expiry, write the [authorization] cookie, fill the token store. *)
Definition storeSessionTokens (data : JsVal) : M unit :=
  id_token <- lift (getProp data "id_token") ;;
  idToken <- lift (decode id_token) ;;
  expires_in <- lift (getProp data "expires_in") ;;
  expiry <- (if truthy expires_in then lifetimeExpiry expires_in else claimExpiry idToken) ;;
  access_token <- lift (getProp data "access_token") ;;
  document_cookie_set "authorization" (ToString (js_or access_token (JStr ""))) expiry ;;
  TokenStore_set id_token expiry.

(** Lines 157-164: read and delete the pending-authentication record and
    set the credentialed-access flag; every exception is swallowed. *)
Definition readPendingRecord : M JsVal :=
  fun w =>
    match localStorage w with
    | StorageBroken => (Ok (JObj []), w)
    | StorageSlot GarbageItem => (Ok (JObj []), w)
    | StorageSlot item =>
      let authRequest := match item with JsonItem v => v | _ => JObj [] end in
      let w1 := set_localStorage (StorageSlot NoItem) w in
      match getProp authRequest "enableCredentials" with
      | Ok v => (Ok authRequest, set_enableCredentials (negb (is_false v)) w1)
      | Throw _ => (Ok authRequest, w1)
      end
    end.

(** Lines 172-191: the authorization-code exchange. *)
Definition codeExchange (urlSearchParams : list (string * string))
           (authRequest nonce : JsVal) : M bool :=
  if negb (strict_eq_param nonce (lookup "nonce" urlSearchParams))
  then throw invalidNonce
  else
    history_replaceState
      (remove_key "code" (remove_key "iss" (remove_key "nonce" urlSearchParams))) ;;
    jar <- gets cookies ;;
    let code := if is_str (of_param (lookup "code" urlSearchParams)) "cookie"
                then cookie_parse jar "auth-code"
                else of_param (lookup "code" urlSearchParams) in
    redirect_uri <- lift (getProp authRequest "redirectUrl") ;;
    client_id <- gets applicationId ;;
    code_verifier <- lift (getProp authRequest "codeVerifier") ;;
    let request := JObj [("grant_type", JStr "authorization_code");
                         ("redirect_uri", redirect_uri); ("client_id", client_id);
                         ("code", code); ("code_verifier", code_verifier)] in
    credentials <- gets enableCredentials ;;
    data <- httpClient "POST" ("/authentication/" ++ ToString nonce ++ "/tokens")
                       credentials request [] ;;
    storeSessionTokens data ;;
    userSessionResolver ;;
    ret true.

(** Lines 195-215: the implicit flow on a loopback host; [None] when the
    URL does not carry [nonce] and [access_token]. *)
Definition implicitFlow (urlSearchParams : list (string * string))
           (nonce : JsVal) : M (option bool) :=
  if andb (truthy (of_param (lookup "nonce" urlSearchParams)))
          (truthy (of_param (lookup "access_token" urlSearchParams)))
  then
    if andb (truthy nonce) (negb (strict_eq_param nonce (lookup "nonce" urlSearchParams)))
    then throw invalidNonce
    else
      history_replaceState
        (remove_key "id_token" (remove_key "access_token" (remove_key "expires_in"
           (remove_key "nonce" (remove_key "iss" urlSearchParams))))) ;;
      idToken <- lift (decode (of_param (lookup "id_token" urlSearchParams))) ;;
      let expires_in := of_param (lookup "expires_in" urlSearchParams) in
      expiry <- (match ToNumber expires_in with
                 | Some n => if (n =? 0)%Z then claimExpiry idToken
                             else lifetimeExpiry expires_in
                 | None => claimExpiry idToken
                 end) ;;
      document_cookie_set "authorization"
        (ToString (js_or (of_param (lookup "access_token" urlSearchParams)) (JStr ""))) expiry ;;
      TokenStore_set (of_param (lookup "id_token" urlSearchParams)) expiry ;;
      userSessionResolver ;;
      ret (Some true)
  else ret None.

(** Lines 228-240: the body of the [try] of the silent refresh. *)
Definition silentRefresh : M unit :=
  credentials <- gets enableCredentials ;;
  data <- httpClient "PATCH" "/session" credentials (JObj []) [] ;;
  access_token <- lift (getProp data "access_token") ;;
  if truthy access_token then storeSessionTokens data
  else
    jar <- gets cookies ;;
    let idToken := cookie_parse jar "user" in
    expires_in <- lift (getProp data "expires_in") ;;
    expiry <- (if truthy expires_in then lifetimeExpiry expires_in
               else if truthy idToken then claimExpiry idToken
               else t <- Date_now ;; ret (new_Date (Some (t + 86400000)%Z))) ;;
    id_token <- lift (getProp data "id_token") ;;
    TokenStore_set id_token expiry.

(** Lines 219-249: the stored identity, then the silent refresh. *)
Definition existingSession (backgroundTrigger : bool) : M bool :=
  userData <- getUserIdentity ;;
  if truthy userData then userSessionResolver ;; ret true
  else
    localHost <- gets isLocalHost ;;
    if andb (negb localHost) (negb backgroundTrigger) then
      try_catch silentRefresh (fun _ => ret tt) ;;
      newUserData <- getUserIdentity ;;
      if truthy newUserData then userSessionResolver ;; ret true
      else ret false
    else ret false.

Definition userSessionContinuation (backgroundTrigger : bool) : M bool :=
  loc <- getLocation ;;
  let urlSearchParams := search loc in
  authRequest <- readPendingRecord ;;
  if andb (truthy (of_param (lookup "state" urlSearchParams)))
          (is_str (of_param (lookup "flow" urlSearchParams)) "oauthLogin")
  then ret false
  else
    nonce <- lift (getProp authRequest "nonce") ;;
    if andb (truthy nonce) (truthy (of_param (lookup "code" urlSearchParams)))
    then codeExchange urlSearchParams authRequest nonce
    else
      localHost <- gets isLocalHost ;;
      landed <- (if localHost then implicitFlow urlSearchParams nonce else ret None) ;;
      match landed with
      | Some established => ret established
      | None => existingSession backgroundTrigger
      end.

(** *** The sequence promise

    A promise returned by [userSessionExists] is the index of its run in
    [sessionRuns].  Line 150 starts the continuation at once, lines 146-148
    start it when the promise before it has settled; as
    [userSessionSequencePromise] is never set back to [null], line 150 is
    reached only while no promise exists, so a continuation always starts
    after the ones registered before it have settled.  The model runs a
    continuation in one piece, at the moment its promise settles: a call
    of [userSessionExists] made while it is in flight writes only
    [lastSessionCheck] and the sequence, which no continuation reads. *)

Definition set_runOutcome (o : Outcome bool) (r : SessionRun) : SessionRun :=
  {| runBackground := runBackground r; runOutcome := Some o |}.

Fixpoint update_nth {A : Type} (i : nat) (f : A -> A) (l : list A) : list A :=
  match l, i with
  | [], _ => []
  | x :: rest, O => f x :: rest
  | x :: rest, S j => x :: update_nth j f rest
  end.

(** Registers [userSessionContinuation(backgroundTrigger)] as the next
    promise of the sequence and makes it [userSessionSequencePromise]. *)
Definition registerRun (backgroundTrigger : bool) : M nat :=
  fun w =>
    let p := length (sessionRuns w) in
    (Ok p, set_userSessionSequencePromise (Some p)
             (set_sessionRuns (sessionRuns w ++ [{| runBackground := backgroundTrigger;
                                                    runOutcome := None |}]) w)).

(** [userSessionExists(backgroundTrigger)]: the promise it returns. *)
Definition userSessionExists (backgroundTrigger : bool) : M nat :=
  t <- Date_now ;;
  modify (set_lastSessionCheck t) ;;
  sequence <- gets userSessionSequencePromise ;;
  match sequence with
  | Some p =>
    t' <- Date_now ;;
    last <- gets lastSessionCheck ;;
    if (t' - last <? 5)%Z then ret p
    else registerRun backgroundTrigger
  | None => registerRun backgroundTrigger
  end.

(** A promise of the sequence settles: a pending run executes its
    continuation and its outcome is recorded; a settled one stays. *)
Definition settleOne (i : nat) (r : SessionRun) (w : World) : World :=
  match runOutcome r with
  | Some _ => w
  | None =>
    let (o, w1) := userSessionContinuation (runBackground r) w in
    set_sessionRuns (update_nth i (set_runOutcome o) (sessionRuns w1)) w1
  end.

(** The promises settle in the order of the sequence: each pending run up
    to [p] executes on the world its predecessor left. *)
Fixpoint settleRuns (runs : list SessionRun) (i p : nat) (w : World) : World :=
  match runs with
  | [] => w
  | r :: rest =>
    if (i <=? p)%nat then settleRuns rest (S i) p (settleOne i r w)
    else w
  end.

(** [await p] for a promise of the sequence ([p] is the index of a run; any
    other number is not a promise and is rejected). *)
Definition awaitRun (p : nat) : M bool :=
  fun w =>
    let w' := settleRuns (sessionRuns w) 0 p w in
    match nth_error (sessionRuns w') p with
    | Some {| runOutcome := Some o |} => (o, w')
    | _ => (Throw ReferenceError, w')
    end.

(** *** authenticate *)

(** Lines 430-449: the body of the [try]. *)
Definition requestAuthentication (a : AuthenticateArgs) (codeVerifier codeChallenge : string)
  : M unit :=
  normalizedRedirectUrl <-
    (if truthy (redirectUrl a)
     then match URL_normalize P (ToString (redirectUrl a)) with
          | Some u => ret (JStr u)
          | None => throw TypeError
          end
     else ret (redirectUrl a)) ;;
  selectedRedirectUrl <-
    (if truthy normalizedRedirectUrl then ret normalizedRedirectUrl
     else loc <- getLocation ;; ret (JStr (Location_href P loc))) ;;
  TokenStore_clear ;;
  client_id <- gets applicationId ;;
  data <- httpClient "POST" "/authentication" false
            (JObj [("redirectUrl", selectedRedirectUrl); ("codeChallengeMethod", JStr "S256");
                   ("codeChallenge", JStr codeChallenge);
                   ("connectionId", connectionId a);
                   ("tenantLookupIdentifier", tenantLookupIdentifier a);
                   ("connectionProperties", connectionProperties a);
                   ("applicationId", client_id);
                   ("responseLocation", responseLocation a); ("flowType", flowType a);
                   ("multiAccount", multiAccount a)]) [] ;;
  authenticationRequestId <- lift (getProp data "authenticationRequestId") ;;
  serverCredentials <- lift (getProp data "enableCredentials") ;;
  storage <- gets localStorage ;;
  match storage with
  | StorageBroken => throw ForeignError
  | StorageSlot _ =>
    modify (set_localStorage (StorageSlot (JsonItem (JObj (stringify_fields
      [("nonce", authenticationRequestId); ("codeVerifier", JStr codeVerifier);
       ("lastConnectionId", connectionId a);
       ("tenantLookupIdentifier", tenantLookupIdentifier a);
       ("redirectUrl", selectedRedirectUrl); ("enableCredentials", serverCredentials);
       ("multiAccount", multiAccount a)])))))
  end ;;
  authenticationUrl <- lift (getProp data "authenticationUrl") ;;
  _ <- getLocation ;;
  modify (fun w => set_navigations
                     (navigations w ++ [(authenticationUrl, is_str (openType a) "tab")]) w).

(** Lines 450-457: a provider answer in the 4xx range is signalled again
    with the provider's code, everything else is thrown on. *)
Definition translateError (error : JsError) : M unit :=
  status <- lift (error_prop error "status") ;;
  if in_range status 400 500 then
    data <- lift (error_prop error "data") ;;
    title <- lift (getProp data "title") ;;
    errorCode <- lift (getProp data "errorCode") ;;
    throw (CodedError errorCode (js_or title errorCode))
  else throw error.

Definition authenticate (a : AuthenticateArgs) : M bool :=
  if andb (truthy (responseLocation a))
          (andb (negb (is_str (responseLocation a) "cookie"))
                (andb (negb (is_str (responseLocation a) "query"))
                      (negb (is_str (responseLocation a) "none"))))
  then throw (CodedError (JStr "InvalidResponseLocation")
                (JStr "Authentication response location is not valid"))
  else
    established <-
      (if andb (negb (truthy (force a))) (negb (truthy (multiAccount a)))
       then p <- userSessionExists false ;; awaitRun p
       else ret false) ;;
    if established then ret true
    else if andb (negb (truthy (connectionId a))) (negb (truthy (tenantLookupIdentifier a)))
    then throw invalidConnection
    else
      codes <- gets authCodes ;;
      try_catch (requestAuthentication a (fst codes) (snd codes)) translateError ;;
      ret false.

(** *** ensureToken *)

(** [Object.assign({ timeoutInMillis: 5000 }, options || {}).timeoutInMillis || 0],
    as the delay [setTimeout] receives. *)
Definition timeoutDelay (options : JsVal) : Z :=
  let timeoutInMillis :=
    match options with
    | JObj fields =>
      match lookup "timeoutInMillis" fields with
      | Some v => v
      | None => JNum 5000
      end
    | _ => JNum 5000
    end in
  match ToNumber (js_or timeoutInMillis (JNum 0)) with
  | Some n => n
  | None => 0%Z
  end.

(** [Promise.race([sessionWaiterAsync, timeoutAsync])].  A session promise
    that is already resolved wins at once.  Otherwise [elsewhere delay] is
    what the rest of the page has made of the world when the race settles:
    the session promise resolved in it, or the timer fired. *)
Definition raceSessionAgainstTimeout (elsewhere : Z -> World -> World) (delay : Z)
  : M unit :=
  fun w =>
    if userSessionResolved w then (Ok tt, w)
    else
      let w' := elsewhere delay w in
      if userSessionResolved w' then (Ok tt, w')
      else (Throw (Rejection JUndefined), w').

Definition ensureToken (elsewhere : Z -> World -> World) (options : JsVal) : M JsVal :=
  p <- userSessionExists false ;;
  _ <- awaitRun p ;;
  try_catch (raceSessionAgainstTimeout elsewhere (timeoutDelay options))
            (fun _ => throw tokenTimeout) ;;
  jar <- gets cookies ;;
  let authorization := cookie_parse jar "authorization" in
  ret (if negb (is_str authorization "undefined") then authorization else JBool false).

(** *** constructor *)

Definition constructor (settings : Settings) : M unit :=
  modify (set_applicationId (settingsApplicationId settings)) ;;
  let configured := configuredHost settings in
  if negb (truthy configured)
  then throw (PlainError missingHostUrl)
  else
    match configured with
    | JStr s =>
      let url := ("https://" ++ strip_scheme s)%string in
      modify (set_hostUrl url) ;;
      modify (set_lastSessionCheck 0%Z) ;;
      credentials <- (fun w => (getMatchingDomainInfo P url w, w)) ;;
      modify (set_enableCredentials credentials) ;;
      if negb (truthy (skipBackgroundCredentialsCheck settings))
      then _ <- getLocation ;; modify (set_onloadHook true)
      else ret tt
    | _ => throw TypeError
    end.

End Client.

(** ** Sample platform and worlds

    A small platform for running the client on concrete pages: URLs of the
    form [https://host], an identity [base64url], and a [JSON.parse] that
    knows a few texts.  It stands for the functions of a browser on the
    texts the sample pages give it only: an https URL that is in normal form
    already, with a bare lower-case host where the host is asked for, or a
    text that is no URL at all, which it refuses as [new URL] does.  The
    theorems hold for every platform and do not rest on it. *)

Definition sampleURL_host (u : string) : option string :=
  if starts_with "https://" u
  then Some (String.substring 8 (String.length u - 8) u)
  else None.

Definition samplePlatform : Platform :=
  {| URL_host := sampleURL_host;
     URL_normalize := fun u => if starts_with "https://" u then Some u else None;
     base64url_decode := fun o => o;
     JSON_parse := fun text =>
       if text =? "claims-u1" then Some (JObj [("sub", JStr "u1"); ("exp", JNum 2000)])
       else if text =? "header" then Some (JObj [("alg", JStr "EdDSA")])
       else if text =? "five" then Some (JNum 5)
       else None;
     StringToNumber := fun _ => None;
     NumberToString := fun _ => "0";
     Location_href := fun loc => (protocol loc ++ "//" ++ host loc ++ pathname loc)%string |}.

Definition appPage (q : list (string * string)) : Location :=
  {| protocol := "https:"; host := "app.example.com"; hostname := "app.example.com";
     pathname := "/"; search := q |}.

Definition sampleSettings (configured : JsVal) : Settings :=
  {| authressLoginHostUrl := configured; authenticationServiceUrl := JUndefined;
     settingsApplicationId := JStr "app_1"; skipBackgroundCredentialsCheck := JUndefined |}.

(** Settings that name the host by [authenticationServiceUrl] only. *)
Definition serviceUrlSettings (configured : JsVal) : Settings :=
  {| authressLoginHostUrl := JUndefined; authenticationServiceUrl := configured;
     settingsApplicationId := JStr "app_1"; skipBackgroundCredentialsCheck := JUndefined |}.

Definition sampleWorld (q : list (string * string)) (item : SlotItem)
           (answers : list HttpResult) : World :=
  {| window := Some (appPage q); localStorage := StorageSlot item; cookies := [];
     navigations := []; onloadHook := false; tokenStore := None;
     userSessionResolved := false; sessionRuns := []; userSessionSequencePromise := None;
     hostUrl := "https://login.example.com"; applicationId := JStr "app_1";
     enableCredentials := true;
     lastSessionCheck := 0%Z; now := 1000%Z; ticks := []; requests := [];
     responses := answers; authCodes := ("verifier", "challenge") |}.


(** The sample world once an identity token is stored. *)
Definition signedInWorld (jar : list Cookie) : World :=
  set_cookies jar
    (set_tokenStore (Some {| entryToken := JStr "header.claims-u1.sig";
                             entryExpiry := ValidDate 5000 |})
                    (sampleWorld [] NoItem [])).

(** The sample world with a stored token whose payload is the JSON text
    [5]. *)
Definition numberPayloadWorld : World :=
  set_tokenStore (Some {| entryToken := JStr "header.five.sig";
                          entryExpiry := ValidDate 5000 |})
                 (sampleWorld [] NoItem []).

(** ** Vocabulary of the properties *)

(** A computation that leaves a component [f] of the world as it found it,
    whatever its outcome. *)
Definition keeps {A B : Type} (f : World -> B) (m : M A) : Prop :=
  forall w, f (snd (m w)) = f w.

(** The promise of a run has settled. *)
Definition settled (r : SessionRun) : bool :=
  match runOutcome r with
  | Some _ => true
  | None => false
  end.

(** The URL is the landing of a provider redirect that asks the application
    for its own login screen: [state] is present and [flow] is [oauthLogin]
    (line 167). *)
Definition oauthLoginLanding (q : list (string * string)) : bool :=
  andb (truthy (of_param (lookup "state" q)))
       (is_str (of_param (lookup "flow" q)) "oauthLogin").

(** The pending record as lines 157-164 leave it in [authRequest]. *)
Definition pendingRecord (w : World) : JsVal :=
  match localStorage w with
  | StorageSlot (JsonItem v) => v
  | _ => JObj []
  end.

Definition sessionRequest (credentials : bool) : Request :=
  {| reqMethod := "PATCH"; reqPath := "/session"; reqCredentials := credentials;
     reqBody := JObj []; reqHeaders := [] |}.

(** The sample page with a [user] cookie set by the provider and a refresh
    answer that carries a lifetime and no token. *)
Definition cookieSessionWorld : World :=
  set_cookies [{| cookieName := "user"; cookieValue := "header.claims-u1.sig";
                  cookieExpires := ValidDate 9000 |}]
              (sampleWorld [] NoItem [HttpOk (JObj [("expires_in", JNum 3600)])]).

(** [responseLocation] passes the test of line 412. *)
Definition validResponseLocation (v : JsVal) : bool :=
  orb (negb (truthy v))
      (orb (is_str v "cookie") (orb (is_str v "query") (is_str v "none"))).

(** [await this.userSessionExists()] *)
Definition checkSession (P : Platform) : M bool :=
  p <- userSessionExists false ;; awaitRun P p.

Definition sampleArgs (connection tenant forced : JsVal) : AuthenticateArgs :=
  {| connectionId := connection; tenantLookupIdentifier := tenant;
     redirectUrl := JUndefined; force := forced; responseLocation := JUndefined;
     flowType := JUndefined; connectionProperties := JUndefined;
     openType := JUndefined; multiAccount := JUndefined |}.

(** The provider's answer to [POST /authentication]. *)
Definition authenticationAnswer : HttpResult :=
  HttpOk (JObj [("authenticationRequestId", JStr "N1");
                ("authenticationUrl", JStr "https://login.example.com/go");
                ("enableCredentials", JBool true)]).

(** Two overlapping session checks: the clock moves by 5 ms between the two
    readings of the second call; the first refresh is refused, the second
    one brings tokens. *)
Definition racingWorld : World :=
  set_clock 1000%Z [0; 5]%Z
    (sampleWorld [] NoItem
       [HttpFail (JObj [("status", JNum 401)]);
        HttpOk (JObj [("access_token", JStr "AT");
                      ("id_token", JStr "header.claims-u1.sig");
                      ("expires_in", JNum 3600)])]).

Definition afterFirstCall : World := snd (userSessionExists false racingWorld).
Definition afterSecondCall : World := snd (userSessionExists false afterFirstCall).

(** The sample page landing with a [code] whose nonce is not the one of the
    pending record. *)
Definition replayWorld : World :=
  sampleWorld [("code", "abc"); ("nonce", "BAD")] (JsonItem (JObj [("nonce", JStr "N1")])) [].

(** The moment the race of [ensureToken] settles, as lines 473-476 see it:
    the world as it is if the session promise is resolved already, else
    what the rest of the page has made of it. *)
Definition raceSettled (elsewhere : Z -> World -> World) (delay : Z) (w : World) : World :=
  if userSessionResolved w then w else elsewhere delay w.

(** The rest of the page does nothing while [ensureToken] waits. *)
Definition idlePage (delay : Z) (w : World) : World := w.

(** ** The rest of [LoginClient]

    [waitForUserSession], [getConnectionCredentials],
    [updateExtensionAuthenticationRequest], [unlinkIdentity], [linkIdentity]
    and [logout]. *)

Definition notLoggedIn (message : string) : JsError :=
  CodedError (JStr "NotLoggedIn") (JStr message).

Definition loginBeforeLinking : string :=
  "User must be logged into an existing account before linking a second account.".

Definition loginBeforeUnlinking : string :=
  "User must be logged into to unlink an account.".

Definition invalidConnectionId : JsError :=
  CodedError (JStr "InvalidConnection") (JStr "connectionId must be specified").

Definition invalidAuthenticationRequest : JsError :=
  CodedError (JStr "InvalidAuthenticationRequest")
    (JStr "The `state` parameters must be specified to update this authentication request").

(** [window.location.assign(url)] *)
Definition location_assign (url : JsVal) : M unit :=
  _ <- getLocation ;;
  modify (fun w => set_navigations (navigations w ++ [(url, false)]) w).

(** [waitForUserSession()]: [await userSessionPromise; return true].  The
    promise is only ever resolved, so the [catch] is never entered.  [later w]
    is the world at the moment the rest of the page resolves the promise,
    [None] if it never does; the result is [None] while the wait goes on. *)
Definition waitForUserSession (later : World -> option World) (w : World)
  : option (Outcome bool * World) :=
  if userSessionResolved w then Some (Ok true, w)
  else match later w with
       | Some w' => if userSessionResolved w' then Some (Ok true, w') else None
       | None => None
       end.

Section Rest.
Variable P : Platform.
(** [encodeURIComponent] *)
Variable encodeURIComponent : string -> string.
(** [document.referrer || document.referer] *)
Variable documentReferrer : JsVal.
(** The text of [new URL('/logout', hostUrl)] once [redirect_uri] and
    [client_id] are set on it; [None] when the constructor throws. *)
Variable logoutHref : string -> string -> string -> option string.

(** Lines 113-119 after the wait of line 111. *)
Definition fetchCredentials (elsewhere : Z -> World -> World) : M JsVal :=
  try_catch
    (token <- ensureToken P elsewhere JUndefined ;;
     credentials <- gets enableCredentials ;;
     httpClient "GET" "/session/credentials" credentials JUndefined
                [("Authorization", js_and token (JStr ("Bearer " ++ ToString P token)))])
    (fun _ => ret JNull).

Definition getConnectionCredentials (later : World -> option World)
           (elsewhere : Z -> World -> World) (w : World)
  : option (Outcome JsVal * World) :=
  match waitForUserSession later w with
  | Some (_, w1) => Some (fetchCredentials elsewhere w1)
  | None => None
  end.

(** Lines 311-320, and again 359-368: the token for the request, a timeout
    of [ensureToken] becoming [NotLoggedIn] and any other failure being
    dropped. *)
Definition linkingToken (elsewhere : Z -> World -> World) : M JsVal :=
  try_catch (ensureToken P elsewhere (JObj [("timeoutInMillis", JNum 100)]))
            (fun error =>
               code <- lift (error_prop error "code") ;;
               if is_str code "TokenTimeout" then throw (notLoggedIn loginBeforeLinking)
               else ret JUndefined).

(** Lines 322-324, and again 375-377. *)
Definition identityHeaders (accessToken : JsVal) : M (list (string * JsVal)) :=
  credentials <- gets enableCredentials ;;
  localHost <- gets isLocalHost ;;
  ret (if andb credentials (negb localHost) then []
       else [("Authorization", JStr ("Bearer " ++ ToString P accessToken))]).

(** [unlinkIdentity(connectionId)] *)
Definition unlinkIdentity (elsewhere : Z -> World -> World) (connection : JsVal) : M unit :=
  if negb (truthy connection) then throw invalidConnectionId
  else
    identity <- getUserIdentity P ;;
    if negb (truthy identity) then throw (notLoggedIn loginBeforeUnlinking)
    else
      accessToken <- linkingToken elsewhere ;;
      headers <- identityHeaders accessToken ;;
      try_catch
        (credentials <- gets enableCredentials ;;
         _ <- httpClient "DELETE"
                ("/identities/" ++ encodeURIComponent (ToString P connection))
                credentials JUndefined headers ;;
         ret tt)
        (translateError P).

(** Lines 373-385: the body of the [try] of [linkIdentity]. *)
Definition requestLink (a : AuthenticateArgs) (accessToken : JsVal) (codeChallenge : string)
  : M unit :=
  normalizedRedirectUrl <-
    (if truthy (redirectUrl a)
     then match URL_normalize P (ToString P (redirectUrl a)) with
          | Some u => ret (JStr u)
          | None => throw TypeError
          end
     else ret (redirectUrl a)) ;;
  selectedRedirectUrl <-
    (if truthy normalizedRedirectUrl then ret normalizedRedirectUrl
     else loc <- getLocation ;; ret (JStr (Location_href P loc))) ;;
  headers <- identityHeaders accessToken ;;
  credentials <- gets enableCredentials ;;
  client_id <- gets applicationId ;;
  data <- httpClient "POST" "/authentication" credentials
            (JObj [("linkIdentity", JBool true);
                   ("redirectUrl", selectedRedirectUrl); ("codeChallengeMethod", JStr "S256");
                   ("codeChallenge", JStr codeChallenge);
                   ("connectionId", connectionId a);
                   ("tenantLookupIdentifier", tenantLookupIdentifier a);
                   ("connectionProperties", connectionProperties a);
                   ("applicationId", client_id)]) headers ;;
  authenticationUrl <- lift (getProp data "authenticationUrl") ;;
  location_assign authenticationUrl.

(** [linkIdentity]; the pause of line 396, a timer of 5 s that nothing reads,
    is left out, as it is for [authenticate]. *)
Definition linkIdentity (elsewhere : Z -> World -> World) (a : AuthenticateArgs) : M unit :=
  if andb (negb (truthy (connectionId a))) (negb (truthy (tenantLookupIdentifier a)))
  then throw invalidConnection
  else
    identity <- getUserIdentity P ;;
    if negb (truthy identity) then throw (notLoggedIn loginBeforeLinking)
    else
      accessToken <- linkingToken elsewhere ;;
      codes <- gets authCodes ;;
      try_catch (requestLink a accessToken (snd codes)) (translateError P).

(** [updateExtensionAuthenticationRequest]; the pause of line 290 is left
    out likewise. *)
Definition updateExtensionAuthenticationRequest (state : JsVal) (a : AuthenticateArgs)
  : M unit :=
  if andb (negb (truthy (connectionId a))) (negb (truthy (tenantLookupIdentifier a)))
  then throw invalidConnection
  else
    loc <- getLocation ;;
    let authenticationRequestId := js_or state (of_param (lookup "state" (search loc))) in
    if negb (truthy authenticationRequestId) then throw invalidAuthenticationRequest
    else
      try_catch
        (data <- httpClient "PATCH"
                   ("/authentication/" ++ ToString P authenticationRequestId) true
                   (JObj [("connectionId", connectionId a);
                          ("tenantLookupIdentifier", tenantLookupIdentifier a);
                          ("connectionProperties", connectionProperties a)]) [] ;;
         authenticationUrl <- lift (getProp data "authenticationUrl") ;;
         location_assign authenticationUrl)
        (translateError P).

(** [logout(redirectUrl)].  Both [URL] constructors of lines 495-496 throw a
    TypeError on a text they do not accept. *)
Definition logout (redirect : JsVal) : M unit :=
  TokenStore_clear ;;
  credentials <- gets enableCredentials ;;
  if negb credentials then
    base <- gets hostUrl ;;
    referrer <-
      (if truthy documentReferrer
       then match URL_normalize P (ToString P documentReferrer) with
            | Some u => ret (JStr u)
            | None => throw TypeError
            end
       else ret JUndefined) ;;
    client_id <- gets applicationId ;;
    match logoutHref base (ToString P (js_or redirect referrer)) (ToString P client_id) with
    | Some href => location_assign (JStr href)
    | None => throw TypeError
    end
  else
    modify (set_userSessionResolved false) ;;
    try_catch
      (credentials' <- gets enableCredentials ;;
       _ <- httpClient "DELETE" "/session" credentials' JUndefined [] ;;
       ret tt)
      (fun _ => ret tt).

End Rest.

(** ** Vocabulary of the further properties *)

(** The identity the client reports in a world: what [getUserIdentity]
    returns there. *)
Definition identityOf (P : Platform) (w : World) : Outcome JsVal :=
  fst (getUserIdentity P w).

(** A pass of the continuation that is neither an [oauthLogin] landing nor a
    code exchange (lines 167 and 171 both fall through). *)
Definition plainPass (w : World) (loc : Location) : Prop :=
  window w = Some loc /\
  oauthLoginLanding (search loc) = false /\
  exists nonce, getProp (pendingRecord w) "nonce" = Ok nonce /\
    andb (truthy nonce) (truthy (of_param (lookup "code" (search loc)))) = false.

(** The world a session check sees when it starts its continuation: the
    clock has been read once and [lastSessionCheck] written. *)
Definition checkStarted (w : World) : World :=
  set_lastSessionCheck (now w)
    (set_clock (now w + hd 0%Z (ticks w))%Z (tl (ticks w)) w).

(** A sample page for the rest of the client. *)
Definition sampleEncode (s : string) : string := s.

Definition sampleLogoutHref (base redirect client : string) : option string :=
  Some (base ++ "/logout?redirect_uri=" ++ redirect ++ "&client_id=" ++ client)%string.

(** A label: a text without a dot. *)
Fixpoint dotfree (s : string) : bool :=
  match s with
  | EmptyString => true
  | String c rest => andb (negb (Ascii.eqb c "."%char)) (dotfree rest)
  end.

(** [host] ends with the domain [suffix]: it is the domain itself or a
    subdomain of it. *)
Definition underDomain (suffix host : string) : Prop :=
  host = suffix \/ exists sub, host = (sub ++ "." ++ suffix)%string.

(** A secure page that is not loopback. *)
Definition securePage (w : World) (loc : Location) : Prop :=
  window w = Some loc /\ isLocalHost w = false /\ protocol loc = "https:".

(** The sample world moved to a secure page of another host. *)
Definition pageAt (h : string) : Location :=
  {| protocol := "https:"; host := h; hostname := h; pathname := "/"; search := [] |}.

Definition pageWorld (h : string) : World :=
  set_window (Some (pageAt h)) (sampleWorld [] NoItem []).

(** What [decode] makes of a payload segment: the parsed text, [null] when
    the segment does not decode or does not parse. *)
Definition claimsOf (P : Platform) (payload : string) : JsVal :=
  match base64url_decode P (Some payload) with
  | Some text =>
    match JSON_parse P text with
    | Some v => v
    | None => JNull
    end
  | None => JNull
  end.

(** Every promise of the sequence up to [p] has settled. *)
Definition settledUpTo (p : nat) (runs : list SessionRun) : Prop :=
  forall j r, (j <= p)%nat -> nth_error runs j = Some r -> settled r = true.

(** The sample page after a first session check that found no session, an
    identity token having been stored since. *)
Definition checkedThenSignedIn : World :=
  set_tokenStore (Some {| entryToken := JStr "header.claims-u1.sig";
                          entryExpiry := ValidDate 5000 |})
                 (snd (checkSession samplePlatform (sampleWorld [] NoItem []))).

(** The sample world outside a browser. *)
Definition serverWorld : World := set_window None (sampleWorld [] NoItem []).

Definition settingsWith (configured skip : JsVal) : Settings :=
  {| authressLoginHostUrl := configured; authenticationServiceUrl := JUndefined;
     settingsApplicationId := JStr "app_1"; skipBackgroundCredentialsCheck := skip |}.

(** The URL carries the tokens of the implicit flow (line 195). *)
Definition implicitLanding (q : list (string * string)) : bool :=
  andb (truthy (of_param (lookup "nonce" q)))
       (truthy (of_param (lookup "access_token" q))).

(** A pass that goes on to lines 219-249: neither a landing, nor a code
    exchange, nor the implicit flow of a loopback host. *)
Definition reachesStoredIdentity (w : World) (loc : Location) : Prop :=
  plainPass w loc /\ andb (isLocalHost w) (implicitLanding (search loc)) = false.

(** The cookie of a name in the jar. *)
Fixpoint find_cookie (jar : list Cookie) (name : string) : option Cookie :=
  match jar with
  | [] => None
  | c :: rest => if cookieName c =? name then Some c else find_cookie rest name
  end.

(** The sample page with a stale query left over from a loopback flow. *)
Definition staleTokensWorld : World :=
  set_cookies []
    (set_tokenStore (Some {| entryToken := JStr "header.claims-u1.sig";
                             entryExpiry := ValidDate 5000 |})
       (sampleWorld [("nonce", "N9"); ("access_token", "URL-AT"); ("id_token", "URL-ID")]
                    NoItem [])).

(** The query once the one-time parameters of the code exchange are
    stripped (lines 178-180). *)
Definition strippedQuery (q : list (string * string)) : list (string * string) :=
  remove_key "code" (remove_key "iss" (remove_key "nonce" q)).

(** The field of a record, [undefined] when it is missing. *)
Definition fieldOf (fields : list (string * JsVal)) (k : string) : JsVal :=
  match lookup k fields with
  | Some v => v
  | None => JUndefined
  end.

(** The request of the code exchange (lines 183-185) for the record
    [fields], the nonce [n] and the [code] parameter [c] in the world [w]. *)
Definition tokenRequest (w : World) (fields : list (string * JsVal)) (n c : string)
  : Request :=
  {| reqMethod := "POST";
     reqPath := ("/authentication/" ++ n ++ "/tokens")%string;
     reqCredentials := negb (is_false (fieldOf fields "enableCredentials"));
     reqBody := JObj [("grant_type", JStr "authorization_code");
                      ("redirect_uri", fieldOf fields "redirectUrl");
                      ("client_id", applicationId w);
                      ("code", if c =? "cookie" then cookie_parse (cookies w) "auth-code"
                               else JStr c);
                      ("code_verifier", fieldOf fields "codeVerifier")];
     reqHeaders := [] |}.

(** The page lands from the provider with a code for the pending record
    [fields], whose nonce [n] is the one of the URL. *)
Definition codeLanding (w : World) (loc : Location) (fields : list (string * JsVal))
           (n c : string) : Prop :=
  window w = Some loc /\
  oauthLoginLanding (search loc) = false /\
  localStorage w = StorageSlot (JsonItem (JObj fields)) /\
  lookup "nonce" fields = Some (JStr n) /\ n <> "" /\
  lookup "nonce" (search loc) = Some n /\
  lookup "code" (search loc) = Some c /\ c <> "".

(** The sample page landing with the code [abc] for the record of nonce
    [N1]. *)
Definition sampleRecord : list (string * JsVal) :=
  [("nonce", JStr "N1"); ("codeVerifier", JStr "verifier");
   ("redirectUrl", JStr "https://app.example.com/")].

Definition landingWorld (answers : list HttpResult) : World :=
  sampleWorld [("code", "abc"); ("nonce", "N1"); ("iss", "https://login.example.com")]
              (JsonItem (JObj sampleRecord)) answers.

Definition sampleTokens : JsVal :=
  JObj [("access_token", JStr "AT"); ("id_token", JStr "header.claims-u1.sig");
        ("expires_in", JNum 3600)].


(** A session check has been made and its promise has settled with [o];
    the clock moves by less than 5 ms between two readings. *)
Definition checkSettled (w : World) (o : Outcome bool) : Prop :=
  exists p r,
    userSessionSequencePromise w = Some p /\
    nth_error (sessionRuns w) p = Some r /\ runOutcome r = Some o /\
    settledUpTo p (sessionRuns w) /\ (hd 0 (ticks w) < 5)%Z.

(** The world after a session check that the sequence promise answers: the
    clock has been read twice and [lastSessionCheck] written. *)
Definition afterCheck (w : World) : World :=
  let w1 := checkStarted w in
  set_clock (now w1 + hd 0%Z (ticks w1))%Z (tl (ticks w1)) w1.

(** Lines 482-483: [cookies.authorization !== 'undefined' && cookies.authorization]. *)
Definition sessionToken (w : World) : JsVal :=
  let authorization := cookie_parse (cookies w) "authorization" in
  if negb (is_str authorization "undefined") then authorization else JBool false.

(** Lines 322-324: [{}] with credentials off loopback, the bearer header
    otherwise. *)
Definition bearerHeaders (P : Platform) (w : World) (accessToken : JsVal)
  : list (string * JsVal) :=
  if andb (enableCredentials w) (negb (isLocalHost w)) then []
  else [("Authorization", JStr ("Bearer " ++ ToString P accessToken))].

(** The sample page with a session: an identity token, the [authorization]
    cookie [AT], the session signal resolved and a settled check. *)
Definition sessionWorld (answers : list HttpResult) : World :=
  set_transport [] answers
    (set_userSessionResolved true
       (set_userSessionSequencePromise (Some 0%nat)
          (set_sessionRuns [{| runBackground := false; runOutcome := Some (Ok true) |}]
             (signedInWorld [{| cookieName := "authorization"; cookieValue := "AT";
                                cookieExpires := ValidDate 5000 |}])))).

(** The request of [logout] on a credentialed session. *)
Definition logoutRequest : Request :=
  {| reqMethod := "DELETE"; reqPath := "/session"; reqCredentials := true;
     reqBody := JUndefined; reqHeaders := [] |}.

(** Lines 431-432: the redirect URL the request carries, the normalised
    [redirectUrl] argument or, without one, the address of the page. *)
Definition redirectsTo (P : Platform) (a : AuthenticateArgs) (loc : Location)
           (target : JsVal) : Prop :=
  (truthy (redirectUrl a) = false /\ target = JStr (Location_href P loc)) \/
  (truthy (redirectUrl a) = true /\
   exists u, URL_normalize P (ToString P (redirectUrl a)) = Some u /\ u <> "" /\
             target = JStr u).

(** The request of [unlinkIdentity] in the world [w]. *)
Definition unlinkRequest (P : Platform) (encodeURIComponent : string -> string)
           (w : World) (connection : JsVal) : Request :=
  {| reqMethod := "DELETE";
     reqPath := ("/identities/" ++ encodeURIComponent (ToString P connection))%string;
     reqCredentials := enableCredentials w; reqBody := JUndefined;
     reqHeaders := bearerHeaders P w (sessionToken w) |}.

(** The request of [linkIdentity] in the world [w]. *)
Definition linkRequest (P : Platform) (w : World) (a : AuthenticateArgs) (target : JsVal)
  : Request :=
  {| reqMethod := "POST"; reqPath := "/authentication";
     reqCredentials := enableCredentials w;
     reqBody := JObj [("linkIdentity", JBool true);
                      ("redirectUrl", target); ("codeChallengeMethod", JStr "S256");
                      ("codeChallenge", JStr (snd (authCodes w)));
                      ("connectionId", connectionId a);
                      ("tenantLookupIdentifier", tenantLookupIdentifier a);
                      ("connectionProperties", connectionProperties a);
                      ("applicationId", applicationId w)];
     reqHeaders := bearerHeaders P w (sessionToken w) |}.

(** The request of [getConnectionCredentials] in the world [w]. *)
Definition credentialsRequest (P : Platform) (w : World) : Request :=
  {| reqMethod := "GET"; reqPath := "/session/credentials";
     reqCredentials := enableCredentials w; reqBody := JUndefined;
     reqHeaders := [("Authorization",
                     js_and (sessionToken w)
                            (JStr ("Bearer " ++ ToString P (sessionToken w))))] |}.

(** The authentication request [updateExtensionAuthenticationRequest]
    updates: the [state] argument, else the [state] of the URL. *)
Definition extensionRequestId (state : JsVal) (loc : Location) : JsVal :=
  js_or state (of_param (lookup "state" (search loc))).

(** The request of [updateExtensionAuthenticationRequest]. *)
Definition extensionRequest (P : Platform) (id : JsVal) (a : AuthenticateArgs) : Request :=
  {| reqMethod := "PATCH"; reqPath := ("/authentication/" ++ ToString P id)%string;
     reqCredentials := true;
     reqBody := JObj [("connectionId", connectionId a);
                      ("tenantLookupIdentifier", tenantLookupIdentifier a);
                      ("connectionProperties", connectionProperties a)];
     reqHeaders := [] |}.

(** The session signal is never resolved by the rest of the page. *)
Definition neverLater (w : World) : option World := None.

(** The sample settled check of [sessionWorld]. *)
Definition sampleRun : SessionRun :=
  {| runBackground := false; runOutcome := Some (Ok true) |}.

(** The error of line 413. *)
Definition invalidResponseLocation : JsError :=
  CodedError (JStr "InvalidResponseLocation")
             (JStr "Authentication response location is not valid").

(** The request of [authenticate] (lines 434-440) in the world [w]. *)
Definition authenticationRequest (w : World) (a : AuthenticateArgs) (target : JsVal)
  : Request :=
  {| reqMethod := "POST"; reqPath := "/authentication"; reqCredentials := false;
     reqBody := JObj [("redirectUrl", target); ("codeChallengeMethod", JStr "S256");
                      ("codeChallenge", JStr (snd (authCodes w)));
                      ("connectionId", connectionId a);
                      ("tenantLookupIdentifier", tenantLookupIdentifier a);
                      ("connectionProperties", connectionProperties a);
                      ("applicationId", applicationId w);
                      ("responseLocation", responseLocation a); ("flowType", flowType a);
                      ("multiAccount", multiAccount a)];
     reqHeaders := [] |}.

(** The pending record [authenticate] writes (lines 441-444) for the answer
    [fields] of the provider. *)
Definition writtenRecord (w : World) (a : AuthenticateArgs) (target : JsVal)
           (fields : list (string * JsVal)) : list (string * JsVal) :=
  stringify_fields
    [("nonce", fieldOf fields "authenticationRequestId");
     ("codeVerifier", JStr (fst (authCodes w)));
     ("lastConnectionId", connectionId a);
     ("tenantLookupIdentifier", tenantLookupIdentifier a);
     ("redirectUrl", target); ("enableCredentials", fieldOf fields "enableCredentials");
     ("multiAccount", multiAccount a)].

(** The call goes on to the authentication request: the response location
    is valid, [force] or [multiAccount] is set and a connection or a tenant
    is named. *)
Definition forcedLogin (a : AuthenticateArgs) : Prop :=
  validResponseLocation (responseLocation a) = true /\
  orb (truthy (force a)) (truthy (multiAccount a)) = true /\
  orb (truthy (connectionId a)) (truthy (tenantLookupIdentifier a)) = true.

(** The request of the code exchange that follows an [authenticate] made in
    the world [w], sent from the world [w2] of the landing page. *)
Definition exchangeRequest (w w2 : World) (target serverCredentials : JsVal)
           (n c : string) : Request :=
  {| reqMethod := "POST";
     reqPath := ("/authentication/" ++ n ++ "/tokens")%string;
     reqCredentials := negb (is_false serverCredentials);
     reqBody := JObj [("grant_type", JStr "authorization_code");
                      ("redirect_uri", target);
                      ("client_id", applicationId w2);
                      ("code", if c =? "cookie" then cookie_parse (cookies w2) "auth-code"
                               else JStr c);
                      ("code_verifier", JStr (fst (authCodes w)))];
     reqHeaders := [] |}.

(** A computation that never returns a [good] value without the session
    signal being resolved when it ends. *)
Definition resolvedWhen {A : Type} (good : A -> bool) (m : M A) : Prop :=
  forall w a, fst (m w) = Ok a -> good a = true -> userSessionResolved (snd (m w)) = true.

(** The implicit flow reports a session. *)
Definition landedTrue (landed : option bool) : bool :=
  match landed with
  | Some established => established
  | None => false
  end.

(** The query once the parameters of the implicit flow are stripped (lines
    202-207). *)
Definition tokensStripped (q : list (string * string)) : list (string * string) :=
  remove_key "id_token" (remove_key "access_token" (remove_key "expires_in"
    (remove_key "nonce" (remove_key "iss" q)))).

(** A loopback page whose URL carries the tokens of the implicit flow: the
    nonce [n], the access token [t] and a lifetime of [k] seconds, the
    pending record having no nonce or the nonce [n], and no code exchange
    being due. *)
Definition tokenLanding (P : Platform) (w : World) (loc : Location) (n t : string) (k : Z)
  : Prop :=
  window w = Some loc /\ isLocalHost w = true /\
  oauthLoginLanding (search loc) = false /\
  lookup "nonce" (search loc) = Some n /\ n <> "" /\
  lookup "access_token" (search loc) = Some t /\ t <> "" /\
  ToNumber P (of_param (lookup "expires_in" (search loc))) = Some k /\ k <> 0%Z /\
  exists nonce, getProp (pendingRecord w) "nonce" = Ok nonce /\
    andb (truthy nonce) (truthy (of_param (lookup "code" (search loc)))) = false /\
    andb (truthy nonce) (negb (strict_eq_param nonce (Some n))) = false.

(** The sample platform with numbers in query parameters: [3600]. *)
Definition numberPlatform : Platform :=
  {| URL_host := URL_host samplePlatform;
     URL_normalize := URL_normalize samplePlatform;
     base64url_decode := base64url_decode samplePlatform;
     JSON_parse := JSON_parse samplePlatform;
     StringToNumber := fun s => if s =? "3600" then Some 3600%Z else None;
     NumberToString := NumberToString samplePlatform;
     Location_href := Location_href samplePlatform |}.

(** A loopback page on which a URL with tokens is opened, no login having
    been started. *)
Definition loopbackWorld : World :=
  set_window
    (Some {| protocol := "http:"; host := "localhost:8080"; hostname := "localhost";
             pathname := "/";
             search := [("nonce", "anything"); ("access_token", "URL-AT");
                        ("id_token", "header.claims-u1.sig"); ("expires_in", "3600")] |})
    (sampleWorld [] NoItem []).

(** A lifetime of [k] seconds counted from the clock of [w] ends at a date a
    Date can hold, and the clock moves on by no more than the lifetime less
    a second between its reading and the writing of the cookie. *)
Definition lifetimeHolds (w : World) (k : Z) : Prop :=
  inDateRange (now w + k * 1000) /\ (hd 0 (ticks w) <= (k - 1) * 1000)%Z.

(** The [authorization] cookie of an access token. *)
Definition authorizationCookie (P : Platform) (access_token : JsVal) (expires : JsDate)
  : Cookie :=
  {| cookieName := "authorization";
     cookieValue := ToString P (js_or access_token (JStr ""));
     cookieExpires := expires |}.

(** The sample page at 1234 ms. *)
Definition oddClockWorld : World := set_clock 1234%Z [] (sampleWorld [] NoItem []).
(* ================================================================== *)
(** * Properties *)
(* ================================================================== *)

(** ** Strings *)

Lemma split_dot_nonempty (s : string) : split_dot s <> [].
Proof.
  induction s as [|c rest IH]; simpl; [discriminate|].
  destruct (Ascii.eqb c "."%char); [discriminate|].
  destruct (split_dot rest); [contradiction|discriminate].
Qed.

Lemma reversedLabels_nonempty (h : string) : reversedLabels h <> [].
Proof.
  unfold reversedLabels. intro H.
  apply (f_equal (@rev string)) in H. rewrite rev_involutive in H.
  simpl in H. exact (split_dot_nonempty _ H).
Qed.

Lemma string_app_assoc (a b c : string) : ((a ++ b) ++ c = a ++ (b ++ c))%string.
Proof. induction a as [|x a IH]; simpl; [reflexivity|]. now rewrite IH. Qed.

Lemma string_app_nil_r (a : string) : (a ++ "")%string = a.
Proof. induction a as [|x a IH]; simpl; [reflexivity|]. now rewrite IH. Qed.

Lemma concat_cons_cons (sep y z : string) (l : list string) :
  String.concat sep (y :: z :: l) = (y ++ sep ++ String.concat sep (z :: l))%string.
Proof. reflexivity. Qed.

Lemma join_dot_snoc (acc : list string) (x : string) :
  acc <> [] -> join_dot (acc ++ [x]) = (join_dot acc ++ "." ++ x)%string.
Proof.
  unfold join_dot. induction acc as [|a acc IH]; intros Hne; [contradiction|].
  destruct acc as [|b acc'].
  - reflexivity.
  - change ((a :: b :: acc') ++ [x]) with (a :: b :: (acc' ++ [x])).
    rewrite !concat_cons_cons.
    change (b :: acc' ++ [x]) with ((b :: acc') ++ [x]).
    rewrite IH by discriminate.
    rewrite !string_app_assoc. reflexivity.
Qed.

Lemma append_inj_l (p a b : string) : (p ++ a = p ++ b)%string -> a = b.
Proof.
  induction p as [|c p IH]; simpl; intros H; [exact H|].
  inversion H. auto.
Qed.

Lemma append_neq_self (p a : string) : a <> "" -> (p ++ a)%string <> p.
Proof.
  intros Ha H. apply Ha.
  apply (append_inj_l p). rewrite H. symmetry. apply string_app_nil_r.
Qed.

Lemma join_split_dot (s : string) : join_dot (split_dot s) = s.
Proof.
  unfold join_dot. induction s as [|c rest IH]; [reflexivity|].
  simpl. destruct (Ascii.eqb_spec c "."%char) as [->|Hc].
  - pose proof (split_dot_nonempty rest) as Hne.
    destruct (split_dot rest) as [|hd tl]; [contradiction|].
    rewrite concat_cons_cons, IH. reflexivity.
  - pose proof (split_dot_nonempty rest) as Hne.
    destruct (split_dot rest) as [|hd tl]; [contradiction|].
    destruct tl as [|hd' tl'].
    + simpl in *. now rewrite IH.
    + rewrite concat_cons_cons. rewrite concat_cons_cons in IH.
      rewrite <- IH. reflexivity.
Qed.

Lemma split_dot_inj (a b : string) : split_dot a = split_dot b -> a = b.
Proof.
  intros H. rewrite <- (join_split_dot a), <- (join_split_dot b). now rewrite H.
Qed.

(** ** DomainPolicy *)

Lemma join_dot_snoc_eq (acc : list string) (x y : string) :
  join_dot (acc ++ [x]) = join_dot (acc ++ [y]) <-> x = y.
Proof.
  split; [|now intros ->].
  destruct acc as [|a acc]; [exact (fun H => H)|].
  rewrite !join_dot_snoc by discriminate.
  intros H. apply append_inj_l in H. now inversion H.
Qed.

(** The loop extends the accumulator by exactly the labels that agree. *)
Lemma matchSegments_length (tokenUrlList acc appRest : list string) :
  acc ++ appRest <> [] ->
  length (matchSegments (acc ++ appRest) tokenUrlList acc)
  = (length acc + matchedLabels tokenUrlList appRest)%nat.
Proof.
  revert acc appRest.
  induction tokenUrlList as [|segment rest IH]; intros acc appRest Hne.
  - simpl. lia.
  - cbn [matchSegments]. unfold take.
    rewrite firstn_app, firstn_all2 by lia.
    replace (length acc + 1 - length acc)%nat with 1%nat by lia.
    destruct appRest as [|y appRest'].
    + simpl firstn. rewrite app_nil_r.
      assert (Hacc : acc <> []) by (intro E; apply Hne; now rewrite E).
      rewrite join_dot_snoc by exact Hacc.
      destruct (String.eqb_spec (join_dot acc ++ "." ++ segment) (join_dot acc)) as [E|E].
      * exfalso. revert E. apply append_neq_self. discriminate.
      * simpl. lia.
    + simpl firstn.
      destruct (String.eqb_spec (join_dot (acc ++ [segment])) (join_dot (acc ++ [y]))) as [E|E].
      * apply join_dot_snoc_eq in E. subst y. cbn [negb matchedLabels].
        rewrite String.eqb_refl.
        replace (acc ++ segment :: appRest') with ((acc ++ [segment]) ++ appRest')
          by (rewrite <- app_assoc; reflexivity).
        rewrite IH.
        -- rewrite length_app. simpl. lia.
        -- rewrite <- app_assoc. simpl. intro H. now destruct acc.
      * cbn [negb matchedLabels].
        destruct (String.eqb_spec segment y) as [->|_]; [now contradiction E|]. lia.
Qed.

Lemma matchSegments_matchedLabels (providerHost pageHost : string) :
  length (matchSegments (reversedLabels pageHost) (reversedLabels providerHost) [])
  = matchedLabels (reversedLabels providerHost) (reversedLabels pageHost).
Proof.
  apply (matchSegments_length (reversedLabels providerHost) [] (reversedLabels pageHost)).
  apply reversedLabels_nonempty.
Qed.

Lemma matchedLabels_full (p a : list string) :
  (matchedLabels p a = length p /\ matchedLabels p a = length a) <-> p = a.
Proof.
  revert a. induction p as [|x p IH]; intros [|y a]; simpl.
  - tauto.
  - split; [intros [_ H]; discriminate | discriminate].
  - split; [intros [H _]; discriminate | discriminate].
  - destruct (String.eqb_spec x y) as [->|Hxy].
    + split.
      * intros [H1 H2]. f_equal. apply IH. split; congruence.
      * intros H. inversion H; subst. assert (Ha : a = a) by reflexivity.
        apply IH in Ha. destruct Ha. split; congruence.
    + split; [intros [H _]; discriminate | intros H; inversion H; contradiction].
Qed.

Lemma reversedLabels_eq (a b : string) :
  reversedLabels a = reversedLabels b <-> toLowerCase a = toLowerCase b.
Proof.
  unfold reversedLabels. split.
  - intros H. apply split_dot_inj.
    rewrite <- (rev_involutive (split_dot (toLowerCase a))), H. apply rev_involutive.
  - now intros ->.
Qed.

(** C3. DomainPolicy: with a provider URL that parses, the decision is
    [false] when the page host is loopback, when there is no window (hence no
    location), and when the page is not served over https; otherwise it is
    [true] exactly when every reversed label of the provider host matches and
    both hosts have the same number of labels (the hosts are then identical
    up to case), or at least two labels match from the TLD inward, and
    [false] in every other case. *)
Theorem getMatchingDomainInfo_decision
  (P : Platform) (hostUrlArg providerHost : string) (w : World)
  (Hurl : URL_host P hostUrlArg = Some providerHost) :
  (isLocalHost w = true -> getMatchingDomainInfo P hostUrlArg w = Ok false) /\
  (window w = None -> getMatchingDomainInfo P hostUrlArg w = Ok false) /\
  (forall loc, window w = Some loc -> protocol loc <> "https:" ->
     getMatchingDomainInfo P hostUrlArg w = Ok false) /\
  (forall loc, window w = Some loc -> isLocalHost w = false ->
     protocol loc = "https:" ->
     let provider := reversedLabels providerHost in
     let page := reversedLabels (host loc) in
     let m := matchedLabels provider page in
     exists b : bool,
       getMatchingDomainInfo P hostUrlArg w = Ok b /\
       b = domainsMatch providerHost (host loc) /\
       (b = true <-> (m = length provider /\ length provider = length page) \/ 2 <= m) /\
       ((m = length provider /\ length provider = length page)
        <-> toLowerCase providerHost = toLowerCase (host loc))).
Proof.
  split; [|split; [|split]].
  - unfold getMatchingDomainInfo. rewrite Hurl. now intros ->.
  - unfold getMatchingDomainInfo. rewrite Hurl.
    intros Hw. unfold isLocalHost. now rewrite Hw.
  - unfold getMatchingDomainInfo. rewrite Hurl. intros loc Hw Hp. rewrite Hw.
    destruct (isLocalHost w); [reflexivity|].
    destruct (String.eqb_spec (protocol loc) "https:"); [contradiction|reflexivity].
  - intros loc Hw Hl Hp provider page m.
    unfold getMatchingDomainInfo. rewrite Hurl, Hl, Hw, Hp.
    rewrite String.eqb_refl. cbn [negb].
    rewrite matchSegments_matchedLabels. fold provider page m.
    exists (domainsMatch providerHost (host loc)).
    assert (Hdm : domainsMatch providerHost (host loc)
                  = orb (andb (m =? length provider)%nat (m =? length page)%nat) (2 <=? m)%nat)
      by reflexivity.
    split; [|split; [reflexivity|split; [split|split]]].
    + rewrite Hdm.
      destruct (andb (m =? length provider)%nat (m =? length page)%nat); [reflexivity|].
      cbn [orb]. change (1 <? m)%nat with (2 <=? m)%nat.
      now destruct (2 <=? m)%nat.
    + rewrite Hdm. intros H. apply orb_true_iff in H. destruct H as [H|H].
      * apply andb_true_iff in H. destruct H as [H1 H2].
        apply Nat.eqb_eq in H1, H2. left. split; congruence.
      * right. now apply Nat.leb_le.
    + rewrite Hdm. intros [[H1 H2]|H]; apply orb_true_iff.
      * left. apply andb_true_iff. split; apply Nat.eqb_eq; congruence.
      * right. now apply Nat.leb_le.
    + intros [H1 H2]. apply reversedLabels_eq. apply matchedLabels_full.
      fold provider page m. split; congruence.
    + intros H. apply reversedLabels_eq in H. apply matchedLabels_full in H.
      fold provider page m in H. destruct H. split; congruence.
Qed.

(** A page served from [app.example.com] over https and a provider at
    [login.example.com] share two labels: credentialed access is on. *)
Lemma getMatchingDomainInfo_decision_witness :
  getMatchingDomainInfo samplePlatform "https://login.example.com"
    (sampleWorld [] NoItem []) = Ok true.
Proof.
  destruct (getMatchingDomainInfo_decision samplePlatform "https://login.example.com"
              "login.example.com" (sampleWorld [] NoItem []) eq_refl)
    as (_ & _ & _ & H).
  destruct (H (appPage []) eq_refl eq_refl eq_refl) as (b & Hb & Hd & _).
  rewrite Hb, Hd. reflexivity.
Defined.

(** ** Codec *)

Lemma parseSegment_not_string (P : Platform) (token : JsVal) (i : nat) :
  (forall s, token <> JStr s) -> parseSegment P token i = Throw TypeError.
Proof.
  intros H. destruct token; try reflexivity. now contradiction (H s).
Qed.

Lemma decode_never_raises (P : Platform) (token : JsVal) :
  exists v, decode P token = Ok v.
Proof.
  unfold decode.
  destruct (if truthy token then parseSegment P token 1 else Ok token); eauto.
Qed.

Lemma decodeFull_never_raises (P : Platform) (token : JsVal) :
  exists v, decodeFull P token = Ok v.
Proof.
  unfold decodeFull.
  destruct (if truthy token then _ else Ok token); eauto.
Qed.

(** C8, counterexample.  The empty string is not a token, and [decode] and
    [decodeFull] return it as it is, not [null]. *)
Lemma decode_empty_string_is_not_null :
  decode samplePlatform (JStr "") = Ok (JStr "") /\
  decodeFull samplePlatform (JStr "") = Ok (JStr "") /\
  decode samplePlatform (JStr "") <> Ok JNull /\
  decode samplePlatform JUndefined <> Ok JNull.
Proof.
  repeat split; try reflexivity; discriminate.
Qed.

(** C8, amended.  [decode] and [decodeFull] never raise.  A falsy input (the
    empty string, [undefined], [null], [0], [false]) is returned as it is.
    A truthy input gives the parsed claims (header and payload for
    [decodeFull]) when it is a string whose segments decode and parse, and
    [null] in every other case: not a string, a missing segment the base64
    decoder rejects, invalid base64, invalid structured data. *)
Theorem decode_null_on_malformed (P : Platform) (token : JsVal) :
  (exists v, decode P token = Ok v) /\
  (exists v, decodeFull P token = Ok v) /\
  (truthy token = false -> decode P token = Ok token /\ decodeFull P token = Ok token) /\
  (truthy token = true ->
     (forall claims, parseSegment P token 1 = Ok claims -> decode P token = Ok claims) /\
     (forall header claims,
        parseSegment P token 0 = Ok header -> parseSegment P token 1 = Ok claims ->
        decodeFull P token = Ok (JObj [("header", header); ("payload", claims)])) /\
     (forall e, parseSegment P token 1 = Throw e ->
        decode P token = Ok JNull /\ decodeFull P token = Ok JNull) /\
     (forall e, parseSegment P token 0 = Throw e -> decodeFull P token = Ok JNull)) /\
  (forall i,
     ((forall s, token <> JStr s) -> exists e, parseSegment P token i = Throw e) /\
     (forall s, token = JStr s ->
        (nth_error (split_dot s) i = None -> base64url_decode P None = None ->
         exists e, parseSegment P token i = Throw e) /\
        (base64url_decode P (nth_error (split_dot s) i) = None ->
         exists e, parseSegment P token i = Throw e) /\
        (forall text, base64url_decode P (nth_error (split_dot s) i) = Some text ->
           JSON_parse P text = None -> exists e, parseSegment P token i = Throw e))).
Proof.
  split; [apply decode_never_raises|].
  split; [apply decodeFull_never_raises|].
  split; [|split].
  - intros Hf. unfold decode, decodeFull. now rewrite Hf.
  - intros Ht. unfold decode, decodeFull. rewrite Ht.
    split; [|split; [|split]].
    + now intros claims ->.
    + now intros header claims -> ->.
    + intros e ->. split; [reflexivity|]. now destruct (parseSegment P token 0).
    + now intros e ->.
  - intros i. split.
    + intros H. rewrite parseSegment_not_string by exact H. eauto.
    + intros s ->. cbn [parseSegment]. split; [|split].
      * intros -> ->. eauto.
      * intros ->. eauto.
      * intros text -> ->. eauto.
Qed.

(** A signed token of the sample platform decodes to its claims; a string
    with no second segment decodes to [null]. *)
Lemma decode_null_on_malformed_witness :
  decode samplePlatform (JStr "header.claims-u1.sig")
    = Ok (JObj [("sub", JStr "u1"); ("exp", JNum 2000)]) /\
  decode samplePlatform (JStr "not-a-token") = Ok JNull /\
  decodeFull samplePlatform (JStr "not-a-token") = Ok JNull.
Proof.
  pose proof (decode_null_on_malformed samplePlatform (JStr "header.claims-u1.sig"))
    as (_ & _ & _ & H1 & _).
  pose proof (decode_null_on_malformed samplePlatform (JStr "not-a-token"))
    as (_ & _ & _ & H2 & _).
  destruct (H1 eq_refl) as (Hd & _).
  destruct (H2 eq_refl) as (_ & _ & Hn & _).
  split; [apply Hd; reflexivity|].
  exact (Hn ForeignError eq_refl).
Defined.

(** ** getUserIdentity *)

Lemma lookup_assign {A : Type} (k : string) (v : A) (l : list (string * A)) :
  lookup k (assign k v l) = Some v.
Proof.
  induction l as [|[k' v'] l IH]; simpl.
  - now rewrite String.eqb_refl.
  - destruct (String.eqb_spec k' k) as [->|Hk]; simpl.
    + now rewrite String.eqb_refl.
    + destruct (String.eqb_spec k' k); [contradiction|exact IH].
Qed.

Lemma lookup_assign_other {A : Type} (k k0 : string) (v : A) (l : list (string * A)) :
  k0 <> k -> lookup k0 (assign k v l) = lookup k0 l.
Proof.
  intros Hk. induction l as [|[k' v'] l IH]; simpl.
  - destruct (String.eqb_spec k k0); [congruence|reflexivity].
  - destruct (String.eqb_spec k' k) as [->|Hk']; simpl.
    + destruct (String.eqb_spec k k0); [congruence|reflexivity].
    + destruct (String.eqb_spec k' k0); [reflexivity|exact IH].
Qed.

(** The cases of [getUserIdentity] in which it returns: [null] when the
    token store holds no identity token and when the stored token does not
    decode; when the token decodes to a claims object, that object with a
    field [userId] added, equal to the [sub] claim, the other claims being
    left as they are.  The world is not changed. *)
Lemma getUserIdentity_returns (P : Platform) (w : World) :
  (truthy (heldToken w) = false -> getUserIdentity P w = (Ok JNull, w)) /\
  (truthy (heldToken w) = true -> decode P (heldToken w) = Ok JNull ->
     getUserIdentity P w = (Ok JNull, w)) /\
  (forall claims,
     truthy (heldToken w) = true -> decode P (heldToken w) = Ok (JObj claims) ->
     getUserIdentity P w = (Ok (JObj (assign "userId" (subClaim claims) claims)), w) /\
     lookup "userId" (assign "userId" (subClaim claims) claims) = Some (subClaim claims) /\
     (forall k, k <> "userId" ->
        lookup k (assign "userId" (subClaim claims) claims) = lookup k claims)).
Proof.
  unfold getUserIdentity, bind, TokenStore_get.
  split; [|split].
  - intros Hf. rewrite Hf. unfold ret. now rewrite Hf.
  - intros Ht Hd. rewrite Ht. unfold lift. now rewrite Hd.
  - intros claims Ht Hd. rewrite Ht. unfold lift. rewrite Hd. cbn.
    split; [reflexivity|]. split.
    + apply lookup_assign.
    + intros k Hk. apply lookup_assign_other. exact Hk.
Qed.

(** C9, where the code fails the claim.  A stored token that decodes to a
    truthy value which is not an object (the JSON texts [5], [true] or a
    quoted text are payloads [JSON.parse] accepts) is neither answered with
    [null] nor with claims: line 102 assigns a property of a primitive, and
    [getUserIdentity] throws a TypeError. *)
Theorem getUserIdentity_throws_on_a_primitive_payload
  (P : Platform) (w : World) (payload : JsVal)
  (Htoken : truthy (heldToken w) = true)
  (Hdecoded : decode P (heldToken w) = Ok payload)
  (Htruthy : truthy payload = true)
  (Hprimitive : forall claims, payload <> JObj claims) :
  getUserIdentity P w = (Throw TypeError, w).
Proof.
  unfold getUserIdentity, bind, TokenStore_get. rewrite Htoken.
  unfold lift. rewrite Hdecoded, Htruthy. cbn [negb].
  destruct payload as [| |b|n|s|claims]; try discriminate; try reflexivity.
  now destruct (Hprimitive claims).
Qed.

(** The failing input: the stored token [header.five.sig], whose payload
    parses to the number 5. *)
Lemma getUserIdentity_throws_on_a_primitive_payload_witness :
  heldToken numberPayloadWorld = JStr "header.five.sig" /\
  decode samplePlatform (JStr "header.five.sig") = Ok (JNum 5) /\
  getUserIdentity samplePlatform numberPayloadWorld = (Throw TypeError, numberPayloadWorld).
Proof.
  split; [reflexivity|]. split; [reflexivity|].
  apply (getUserIdentity_throws_on_a_primitive_payload samplePlatform numberPayloadWorld
           (JNum 5)); try reflexivity.
  intros claims. discriminate.
Defined.

(** ** constructor *)

Lemma strip_scheme_http (rest : string) :
  strip_scheme ("http://" ++ rest) = drop_slashes rest.
Proof.
  cbn. destruct rest as [|c rest]; reflexivity.
Qed.

Lemma strip_scheme_https (rest : string) :
  strip_scheme ("https://" ++ rest) = drop_slashes rest.
Proof.
  cbn. destruct rest as [|c rest]; reflexivity.
Qed.

(** Nothing the constructor does after line 32 writes [this.hostUrl]. *)
Lemma constructor_sets_hostUrl (P : Platform) (settings : Settings) (w : World) (s : string) :
  configuredHost settings = JStr s -> s <> "" ->
  hostUrl (snd (constructor P settings w)) = ("https://" ++ strip_scheme s)%string.
Proof.
  intros Hc Hs. unfold constructor, bind, modify. rewrite Hc. cbn [truthy].
  destruct (String.eqb_spec s "") as [E|_]; [contradiction|]. cbn [negb].
  destruct (getMatchingDomainInfo P _ _); [|reflexivity].
  destruct (negb (truthy (skipBackgroundCredentialsCheck settings))); [|reflexivity].
  unfold getLocation. cbn. destruct (window w); reflexivity.
Qed.

Lemma strip_scheme_slashes (n : nat) (h : string) :
  leadingSlash h = false ->
  strip_scheme ("http:" ++ slashes (S n) ++ h) = h /\
  strip_scheme ("https:" ++ slashes (S n) ++ h) = h.
Proof.
  intros Hh.
  assert (Hdrop : forall m, drop_slashes (slashes m ++ h) = h).
  { induction m as [|m IH]; [|exact IH].
    cbn. destruct h as [|c h']; [reflexivity|].
    destruct c as [[] [] [] [] [] [] [] []]; try reflexivity. discriminate. }
  split; cbn; apply Hdrop.
Qed.

Lemma strip_scheme_no_scheme (s : string) :
  starts_with "http" s = false -> strip_scheme s = s.
Proof.
  intros H. unfold strip_scheme.
  destruct s as [|a s]; [reflexivity|].
  destruct a as [[] [] [] [] [] [] [] []]; try reflexivity.
  destruct s as [|a s]; [reflexivity|].
  destruct a as [[] [] [] [] [] [] [] []]; try reflexivity.
  destruct s as [|a s]; [reflexivity|].
  destruct a as [[] [] [] [] [] [] [] []]; try reflexivity.
  destruct s as [|a s]; [reflexivity|].
  destruct a as [[] [] [] [] [] [] [] []]; try reflexivity.
  cbn in H. discriminate.
Qed.

Lemma configures_configuredHost (settings : Settings) (s : string) :
  configures settings s -> s <> "" -> configuredHost settings = JStr s.
Proof.
  intros [Hlogin|[Hfalsy Hservice]] Hs; unfold configuredHost, js_or.
  - rewrite Hlogin. cbn [truthy].
    destruct (String.eqb_spec s ""); [contradiction|]. cbn [negb truthy].
    now destruct (String.eqb_spec s "").
  - rewrite Hfalsy, Hservice. cbn [truthy].
    now destruct (String.eqb_spec s "").
Qed.

(** C10.  The constructor throws when neither [authressLoginHostUrl] nor
    [authenticationServiceUrl] is supplied.  With a host [s] configured by
    [authressLoginHostUrl], or by [authenticationServiceUrl] when the former
    is not supplied, the stored [hostUrl] always starts with [https://]: a
    host given as [http:] or [https:] followed by slashes and [h] is stored
    as [https://h], and a host given without such a prefix is stored with
    [https://] put before it. *)
Theorem constructor_hostUrl_https (P : Platform) (settings : Settings) (w : World) :
  (truthy (authressLoginHostUrl settings) = false ->
   truthy (authenticationServiceUrl settings) = false ->
   fst (constructor P settings w) = Throw (PlainError missingHostUrl)) /\
  (forall s, configures settings s -> s <> "" ->
     starts_with "https://" (hostUrl (snd (constructor P settings w))) = true) /\
  (forall n h, leadingSlash h = false ->
     configures settings ("http:" ++ slashes (S n) ++ h) \/
     configures settings ("https:" ++ slashes (S n) ++ h) ->
     hostUrl (snd (constructor P settings w)) = ("https://" ++ h)%string) /\
  (forall s, configures settings s -> s <> "" -> starts_with "http" s = false ->
     hostUrl (snd (constructor P settings w)) = ("https://" ++ s)%string).
Proof.
  split; [|split; [|split]].
  - intros Ha Hb. unfold constructor, bind, modify, configuredHost, js_or.
    rewrite Ha, Hb. reflexivity.
  - intros s Hc Hs.
    rewrite (constructor_sets_hostUrl P settings w s
               (configures_configuredHost settings s Hc Hs) Hs).
    reflexivity.
  - intros n h Hh [Hc|Hc];
      rewrite (constructor_sets_hostUrl P settings w _
                 (configures_configuredHost settings _ Hc ltac:(discriminate))
                 ltac:(discriminate));
      destruct (strip_scheme_slashes n h Hh) as [H1 H2]; now rewrite ?H1, ?H2.
  - intros s Hc Hs Hplain.
    rewrite (constructor_sets_hostUrl P settings w s
               (configures_configuredHost settings s Hc Hs) Hs).
    now rewrite strip_scheme_no_scheme.
Qed.

(** An insecure provider URL given by [authenticationServiceUrl] alone is
    stored with the https scheme, as is a bare host given by
    [authressLoginHostUrl]; without a host the constructor throws. *)
Lemma constructor_hostUrl_https_witness :
  hostUrl (snd (constructor samplePlatform
                  (serviceUrlSettings (JStr "http://login.example.com"))
                  (sampleWorld [] NoItem [])))
  = "https://login.example.com" /\
  hostUrl (snd (constructor samplePlatform (sampleSettings (JStr "login.example.com"))
                  (sampleWorld [] NoItem [])))
  = "https://login.example.com" /\
  fst (constructor samplePlatform (sampleSettings JUndefined) (sampleWorld [] NoItem []))
  = Throw (PlainError missingHostUrl).
Proof.
  pose proof (constructor_hostUrl_https samplePlatform
                (serviceUrlSettings (JStr "http://login.example.com"))
                (sampleWorld [] NoItem []))
    as (_ & _ & H & _).
  pose proof (constructor_hostUrl_https samplePlatform
                (sampleSettings (JStr "login.example.com")) (sampleWorld [] NoItem []))
    as (_ & _ & _ & H1).
  pose proof (constructor_hostUrl_https samplePlatform
                (sampleSettings JUndefined) (sampleWorld [] NoItem []))
    as (H0 & _).
  split; [|split].
  - apply (H 1%nat "login.example.com" eq_refl).
    left. right. split; reflexivity.
  - apply H1; [left; reflexivity|discriminate|reflexivity].
  - exact (H0 eq_refl eq_refl).
Defined.

(** ** The continuation: what it leaves alone *)

Create HintDb frame.

Section Frame.
Context {B : Type} (f : World -> B).

(** [f] is a component that the writes of the continuation after line 164
    do not reach: the location, the cookies, the token store, the session
    signal, the clock and the transport. *)
Hypothesis f_window : forall x w, f (set_window x w) = f w.
Hypothesis f_cookies : forall x w, f (set_cookies x w) = f w.
Hypothesis f_tokenStore : forall x w, f (set_tokenStore x w) = f w.
Hypothesis f_resolved : forall x w, f (set_userSessionResolved x w) = f w.
Hypothesis f_clock : forall t x w, f (set_clock t x w) = f w.
Hypothesis f_transport : forall rq rs w, f (set_transport rq rs w) = f w.

Lemma keeps_ret {A : Type} (a : A) : keeps f (ret a).
Proof. now intros w. Qed.

Lemma keeps_throw {A : Type} (e : JsError) : keeps f (@throw A e).
Proof. now intros w. Qed.

Lemma keeps_lift {A : Type} (o : Outcome A) : keeps f (lift o).
Proof. now intros w. Qed.

Lemma keeps_gets {A C : Type} (g : World -> C) : keeps f (gets g).
Proof. now intros w. Qed.

Lemma keeps_bind {A C : Type} (m : M A) (k : A -> M C) :
  keeps f m -> (forall a, keeps f (k a)) -> keeps f (bind m k).
Proof.
  intros Hm Hk w. unfold bind. specialize (Hm w).
  destruct (m w) as [[a|e] w']; simpl in *; [|exact Hm].
  now rewrite Hk.
Qed.

Lemma keeps_try_catch {A : Type} (m : M A) (h : JsError -> M A) :
  keeps f m -> (forall e, keeps f (h e)) -> keeps f (try_catch m h).
Proof.
  intros Hm Hh w. unfold try_catch. specialize (Hm w).
  destruct (m w) as [[a|e] w']; simpl in *; [exact Hm|].
  now rewrite Hh.
Qed.

Lemma keeps_Date_now : keeps f Date_now.
Proof. intros w. apply f_clock. Qed.

Lemma keeps_getLocation : keeps f getLocation.
Proof. intros w. unfold getLocation. now destruct (window w). Qed.

Lemma keeps_replaceState q : keeps f (history_replaceState q).
Proof. intros w. apply f_window. Qed.

Lemma keeps_cookie_set n v e : keeps f (document_cookie_set n v e).
Proof. intros w. apply f_cookies. Qed.

Lemma keeps_TokenStore_get : keeps f TokenStore_get.
Proof. now intros w. Qed.

Lemma keeps_TokenStore_set t e : keeps f (TokenStore_set t e).
Proof. intros w. apply f_tokenStore. Qed.

Lemma keeps_resolver : keeps f userSessionResolver.
Proof. intros w. apply f_resolved. Qed.

Lemma keeps_httpClient m p c b h : keeps f (httpClient m p c b h).
Proof.
  intros w. unfold httpClient.
  destruct (responses w) as [|[d|e] rest]; apply f_transport.
Qed.

Hint Resolve keeps_ret keeps_throw keeps_lift keeps_gets keeps_Date_now
  keeps_getLocation keeps_replaceState keeps_cookie_set keeps_TokenStore_get
  keeps_TokenStore_set keeps_resolver keeps_httpClient : frame.

(** Walks a computation: binds and handlers by the two rules above, a
    conditional or a match by cases, a leaf by the hints. *)
Ltac frame :=
  repeat first
    [ solve [auto with frame]
    | apply keeps_bind; [|intros]
    | apply keeps_try_catch; [|intros]
    | match goal with
      | |- keeps _ (if ?c then _ else _) => destruct c
      | |- keeps _ (match ?x with _ => _ end) => destruct x
      end ].

Lemma keeps_getUserIdentity P : keeps f (getUserIdentity P).
Proof. unfold getUserIdentity. frame. Qed.

Lemma keeps_lifetimeExpiry P v : keeps f (lifetimeExpiry P v).
Proof. unfold lifetimeExpiry. frame. Qed.

Lemma keeps_claimExpiry P v : keeps f (claimExpiry P v).
Proof. unfold claimExpiry. frame. Qed.

Hint Resolve keeps_getUserIdentity keeps_lifetimeExpiry keeps_claimExpiry : frame.

Lemma keeps_storeSessionTokens P data : keeps f (storeSessionTokens P data).
Proof. unfold storeSessionTokens. frame. Qed.

Hint Resolve keeps_storeSessionTokens : frame.

Lemma keeps_codeExchange P q r n : keeps f (codeExchange P q r n).
Proof. unfold codeExchange. frame. Qed.

Lemma keeps_implicitFlow P q n : keeps f (implicitFlow P q n).
Proof. unfold implicitFlow. frame. Qed.

Lemma keeps_silentRefresh P : keeps f (silentRefresh P).
Proof. unfold silentRefresh. frame. Qed.

Hint Resolve keeps_codeExchange keeps_implicitFlow keeps_silentRefresh : frame.

Lemma keeps_existingSession P bg : keeps f (existingSession P bg).
Proof. unfold existingSession. frame. Qed.

Hint Resolve keeps_existingSession : frame.

(** After a continuation pass, [f] is what lines 157-164 made of it. *)
Lemma continuation_after_record (P : Platform) (bg : bool) (w : World) (loc : Location) :
  window w = Some loc ->
  f (snd (userSessionContinuation P bg w)) = f (snd (readPendingRecord w)).
Proof.
  intros Hw. unfold userSessionContinuation.
  unfold bind at 1. unfold getLocation at 1. rewrite Hw.
  unfold bind at 1.
  destruct (readPendingRecord w) as [[authRequest|e] w1] eqn:Hr.
  - cbn [snd].
    assert (H : keeps f
      (if andb (truthy (of_param (lookup "state" (search loc))))
               (is_str (of_param (lookup "flow" (search loc))) "oauthLogin")
       then ret false
       else nonce <- lift (getProp authRequest "nonce") ;;
            if andb (truthy nonce) (truthy (of_param (lookup "code" (search loc))))
            then codeExchange P (search loc) authRequest nonce
            else localHost <- gets isLocalHost ;;
                 landed <- (if localHost then implicitFlow P (search loc) nonce else ret None) ;;
                 match landed with
                 | Some established => ret established
                 | None => existingSession P bg
                 end)) by frame.
    apply H.
  - reflexivity.
Qed.

End Frame.

(** The credentialed-access flag is such a component. *)
Lemma continuation_flag (P : Platform) (bg : bool) (w : World) (loc : Location) :
  window w = Some loc ->
  enableCredentials (snd (userSessionContinuation P bg w))
  = enableCredentials (snd (readPendingRecord w)).
Proof. apply continuation_after_record; reflexivity. Qed.

(** The list of session promises is another, and lines 157-164 do not write
    it either. *)
Lemma continuation_sessionRuns (P : Platform) (bg : bool) (w : World) :
  sessionRuns (snd (userSessionContinuation P bg w)) = sessionRuns w.
Proof.
  destruct (window w) as [loc|] eqn:Hw.
  - rewrite (continuation_after_record sessionRuns) with (loc := loc);
      try reflexivity; try exact Hw.
    unfold readPendingRecord.
    destruct (localStorage w) as [|[|v|]]; cbn; try reflexivity.
    now destruct (getProp v "enableCredentials").
  - unfold userSessionContinuation, bind, getLocation. now rewrite Hw.
Qed.

(** ** C4: the credentialed-access flag *)

(** C4, counterexample.  DomainPolicy said [false] at construction and no
    pending record exists: after a continuation pass the flag is [true]. *)
Lemma flag_overwritten_without_record :
  enableCredentials (set_enableCredentials false (sampleWorld [] NoItem [])) = false /\
  enableCredentials
    (snd (userSessionContinuation samplePlatform false
            (set_enableCredentials false (sampleWorld [] NoItem [])))) = true /\
  enableCredentials
    (snd (userSessionContinuation samplePlatform false
            (set_enableCredentials false
               (sampleWorld [] (JsonItem (JObj [("nonce", JStr "N1")])) [])))) = true.
Proof. repeat split. Qed.

(** C4, amended.  On every continuation pass of a page, when the slot of
    the pending record is read ([localStorage] works and its text parses),
    the flag becomes [false] if the record carries [enableCredentials: false]
    and [true] otherwise, also when no record exists or the record lacks the
    field.  The flag keeps its value only when the slot cannot be read:
    [localStorage] throws, the text does not parse, or it parses to [null]. *)
Theorem continuation_sets_flag
  (P : Platform) (bg : bool) (w : World) (loc : Location) (Hw : window w = Some loc) :
  let flag' := enableCredentials (snd (userSessionContinuation P bg w)) in
  (localStorage w = StorageSlot NoItem -> flag' = true) /\
  (forall fields, localStorage w = StorageSlot (JsonItem (JObj fields)) ->
     (lookup "enableCredentials" fields = None -> flag' = true) /\
     (forall x, lookup "enableCredentials" fields = Some x ->
        flag' = negb (is_false x) /\ (flag' = false <-> x = JBool false))) /\
  (localStorage w = StorageBroken -> flag' = enableCredentials w) /\
  (localStorage w = StorageSlot GarbageItem -> flag' = enableCredentials w) /\
  (localStorage w = StorageSlot (JsonItem JNull) -> flag' = enableCredentials w).
Proof.
  intros flag'. subst flag'. rewrite (continuation_flag P bg w loc Hw).
  unfold readPendingRecord.
  split; [|split; [|split; [|split]]].
  - now intros ->.
  - intros fields ->. cbn [getProp]. split.
    + now intros ->.
    + intros x ->. cbn [snd]. split; [reflexivity|].
      change (enableCredentials _) with (negb (is_false x)).
      destruct x as [| |[|]| | |]; cbn; split; congruence.
  - now intros ->.
  - now intros ->.
  - now intros ->.
Qed.

(** With [enableCredentials: false] in the record the flag goes off; with a
    record that lacks the field it goes on. *)
Lemma continuation_sets_flag_witness :
  enableCredentials
    (snd (userSessionContinuation samplePlatform false
            (sampleWorld [] (JsonItem (JObj [("enableCredentials", JBool false)])) [])))
  = false /\
  enableCredentials
    (snd (userSessionContinuation samplePlatform false
            (set_enableCredentials false
               (sampleWorld [] (JsonItem (JObj [("nonce", JStr "N1")])) []))))
  = true.
Proof.
  split.
  - pose proof (continuation_sets_flag samplePlatform false
                  (sampleWorld [] (JsonItem (JObj [("enableCredentials", JBool false)])) [])
                  (appPage []) eq_refl) as (_ & H & _).
    destruct (H [("enableCredentials", JBool false)] eq_refl) as (_ & H').
    exact (proj1 (H' (JBool false) eq_refl)).
  - pose proof (continuation_sets_flag samplePlatform false
                  (set_enableCredentials false
                     (sampleWorld [] (JsonItem (JObj [("nonce", JStr "N1")])) []))
                  (appPage []) eq_refl) as (_ & H & _).
    destruct (H [("nonce", JStr "N1")] eq_refl) as (H' & _).
    exact (H' eq_refl).
Defined.

(** ** C1: nonce replay *)

(** C1, counterexample.  The record holds nonce [N1], the URL carries a
    [code] with nonce [BAD], and also [state] and [flow=oauthLogin]: the
    continuation reports no session and raises nothing. *)
Lemma nonce_mismatch_on_oauthLogin_landing_returns_false :
  fst (userSessionContinuation samplePlatform false
         (sampleWorld [("state", "s1"); ("flow", "oauthLogin"); ("code", "abc"); ("nonce", "BAD")]
                      (JsonItem (JObj [("nonce", JStr "N1")])) []))
  = Ok false.
Proof. reflexivity. Qed.

(** C1, amended.  On a continuation pass whose URL is not an [oauthLogin]
    landing, if the nonce of the pending record exists and the URL carries a
    non-empty [code] whose [nonce] parameter differs from it (or is absent),
    the continuation raises [InvalidNonce]; the token store, the cookies,
    the session signal and the transport are left as they were.  On an
    [oauthLogin] landing the continuation reports no session instead, with
    the same things left as they were. *)
Theorem nonce_mismatch_raises_InvalidNonce
  (P : Platform) (bg : bool) (w : World) (loc : Location) (authRequest nonce : JsVal)
  (Hw : window w = Some loc)
  (Hrecord : localStorage w = StorageSlot (JsonItem authRequest))
  (Hnonce : getProp authRequest "nonce" = Ok nonce)
  (Hexists : truthy nonce = true)
  (Hdiffers : strict_eq_param nonce (lookup "nonce" (search loc)) = false) :
  let w' := snd (readPendingRecord w) in
  (oauthLoginLanding (search loc) = false ->
   truthy (of_param (lookup "code" (search loc))) = true ->
   userSessionContinuation P bg w = (Throw invalidNonce, w')) /\
  (oauthLoginLanding (search loc) = true ->
   userSessionContinuation P bg w = (Ok false, w')) /\
  tokenStore w' = tokenStore w /\
  cookies w' = cookies w /\
  userSessionResolved w' = userSessionResolved w /\
  requests w' = requests w /\
  localStorage w' = StorageSlot NoItem.
Proof.
  assert (Hobj : exists fields, authRequest = JObj fields).
  { destruct authRequest; cbn in Hnonce; try discriminate;
      try (injection Hnonce as <-; discriminate). eauto. }
  destruct Hobj as [fields ->].
  assert (Hread : readPendingRecord w
                  = (Ok (JObj fields), snd (readPendingRecord w))).
  { unfold readPendingRecord. rewrite Hrecord. reflexivity. }
  intros w'. subst w'.
  split; [|split].
  - intros Hland Hcode.
    unfold userSessionContinuation, bind, getLocation. rewrite Hw, Hread.
    fold (oauthLoginLanding (search loc)). rewrite Hland.
    unfold lift. rewrite Hnonce, Hexists, Hcode. cbn [andb].
    unfold codeExchange. rewrite Hdiffers. reflexivity.
  - intros Hland.
    unfold userSessionContinuation, bind, getLocation. rewrite Hw, Hread.
    fold (oauthLoginLanding (search loc)). rewrite Hland. reflexivity.
  - unfold readPendingRecord. rewrite Hrecord. cbn. repeat split.
Qed.

(** The record holds nonce [N1] and the page lands with [code=abc] and
    [nonce=BAD]: [InvalidNonce], and an empty token store stays empty. *)
Lemma nonce_mismatch_raises_InvalidNonce_witness :
  fst (userSessionContinuation samplePlatform false
         (sampleWorld [("code", "abc"); ("nonce", "BAD")]
                      (JsonItem (JObj [("nonce", JStr "N1")])) []))
  = Throw invalidNonce /\
  tokenStore (snd (userSessionContinuation samplePlatform false
         (sampleWorld [("code", "abc"); ("nonce", "BAD")]
                      (JsonItem (JObj [("nonce", JStr "N1")])) [])))
  = None.
Proof.
  pose proof (nonce_mismatch_raises_InvalidNonce samplePlatform false
                (sampleWorld [("code", "abc"); ("nonce", "BAD")]
                             (JsonItem (JObj [("nonce", JStr "N1")])) [])
                (appPage [("code", "abc"); ("nonce", "BAD")])
                (JObj [("nonce", JStr "N1")]) (JStr "N1")
                eq_refl eq_refl eq_refl eq_refl eq_refl) as (H & _ & Hs & _).
  rewrite (H eq_refl eq_refl). split; [reflexivity|exact Hs].
Defined.

(** ** C5: the silent refresh without an access token *)

Lemma getUserIdentity_world (P : Platform) (w : World) : snd (getUserIdentity P w) = w.
Proof.
  unfold getUserIdentity, bind, TokenStore_get, lift, ret.
  destruct (truthy (heldToken w)).
  - destruct (decode P (heldToken w)) as [v|e]; [|reflexivity].
    destruct (truthy v); [|reflexivity]. cbn.
    destruct (getProp v "sub"); [|reflexivity].
    now destruct (setProp v "userId" a).
  - destruct (truthy (heldToken w)); [|reflexivity]. cbn.
    destruct (getProp (heldToken w) "sub"); [|reflexivity].
    now destruct (setProp (heldToken w) "userId" a).
Qed.

Lemma getUserIdentity_heldToken (P : Platform) (w1 w2 : World) :
  heldToken w1 = heldToken w2 ->
  fst (getUserIdentity P w1) = fst (getUserIdentity P w2).
Proof.
  intros H. unfold getUserIdentity, bind, TokenStore_get, lift, ret. rewrite H.
  destruct (truthy (heldToken w2)).
  - destruct (decode P (heldToken w2)) as [v|e]; [|reflexivity].
    destruct (truthy v); [|reflexivity]. cbn.
    destruct (getProp v "sub"); [|reflexivity].
    now destruct (setProp v "userId" a).
  - destruct (truthy (heldToken w2)); [|reflexivity]. cbn.
    destruct (getProp (heldToken w2) "sub"); [|reflexivity].
    now destruct (setProp (heldToken w2) "userId" a).
Qed.

Lemma getUserIdentity_eq (P : Platform) (w : World) :
  getUserIdentity P w = (fst (getUserIdentity P w), w).
Proof.
  rewrite <- (getUserIdentity_world P w) at 3. now destruct (getUserIdentity P w).
Qed.

(** Lines 157-164 touch the slot of the record and the flag, nothing else. *)
Lemma readPendingRecord_eq (w : World) :
  fst (readPendingRecord w) = Ok (pendingRecord w) /\
  window (snd (readPendingRecord w)) = window w /\
  tokenStore (snd (readPendingRecord w)) = tokenStore w /\
  now (snd (readPendingRecord w)) = now w /\
  ticks (snd (readPendingRecord w)) = ticks w /\
  cookies (snd (readPendingRecord w)) = cookies w /\
  requests (snd (readPendingRecord w)) = requests w /\
  responses (snd (readPendingRecord w)) = responses w /\
  userSessionResolved (snd (readPendingRecord w)) = userSessionResolved w.
Proof.
  unfold readPendingRecord, pendingRecord.
  destruct (localStorage w) as [|[|v|]]; cbn; try (repeat split; reflexivity).
  destruct (getProp v "enableCredentials"); cbn; repeat split; reflexivity.
Qed.

(** [new Date] on a time value inside and outside the range of Date. *)
Lemma new_Date_in_range (t : Z) : inDateRange t -> new_Date (Some t) = ValidDate t.
Proof.
  intros [Hlo Hhi]. unfold new_Date.
  destruct (Z.leb_spec (- maxDate) t); [|lia].
  destruct (Z.leb_spec t maxDate); [reflexivity|lia].
Qed.

Lemma new_Date_out_of_range (t : Z) : ~ inDateRange t -> new_Date (Some t) = InvalidDate.
Proof.
  intros Hout. unfold new_Date.
  destruct (Z.leb_spec (- maxDate) t); [|reflexivity].
  destruct (Z.leb_spec t maxDate); [|reflexivity].
  exfalso. apply Hout. split; assumption.
Qed.

(** The [else] branch of the silent refresh (lines 236-239). *)
Lemma silentRefresh_without_access_token
  (P : Platform) (w : World) (data access_token id_token expires_in : JsVal)
  (rest : list HttpResult) :
  responses w = HttpOk data :: rest ->
  getProp data "access_token" = Ok access_token -> truthy access_token = false ->
  getProp data "id_token" = Ok id_token ->
  getProp data "expires_in" = Ok expires_in ->
  let w' := snd (silentRefresh P w) in
  (truthy expires_in = true ->
   tokenStore w' = Some {| entryToken := id_token;
                           entryExpiry := new_Date (option_map (fun n => now w + n * 1000)%Z
                                                               (ToNumber P expires_in)) |}) /\
  (truthy expires_in = false -> truthy (cookie_parse (cookies w) "user") = false ->
   tokenStore w' = Some {| entryToken := id_token;
                           entryExpiry := new_Date (Some (now w + 86400000)%Z) |}) /\
  (truthy expires_in = true \/ truthy (cookie_parse (cookies w) "user") = false ->
   fst (silentRefresh P w) = Ok tt) /\
  cookies w' = cookies w /\
  window w' = window w /\
  userSessionResolved w' = userSessionResolved w /\
  requests w' = requests w ++ [sessionRequest (enableCredentials w)].
Proof.
  intros Hresp Hat Hfalsy Hit Hei w'. subst w'.
  unfold silentRefresh, bind, gets, httpClient. rewrite Hresp.
  unfold lift. rewrite Hat, Hfalsy. cbn [requests cookies set_transport].
  rewrite Hei.
  destruct (truthy expires_in) eqn:Hlife.
  - unfold lifetimeExpiry, bind, Date_now, ret. cbn -[new_Date]. rewrite Hit. cbn -[new_Date].
    repeat split; intros; try reflexivity; discriminate.
  - destruct (truthy (cookie_parse (cookies w) "user")) eqn:Hcookie.
    + unfold claimExpiry, bind, lift.
      destruct (getProp (cookie_parse (cookies w) "user") "exp") as [exp|e]; cbn -[new_Date].
      * rewrite Hit. cbn -[new_Date].
        repeat split; intros; try reflexivity; try discriminate.
      * repeat split; intros; try reflexivity; try discriminate.
        destruct H; discriminate.
    + unfold bind, Date_now, ret. cbn -[new_Date]. rewrite Hit. cbn -[new_Date].
      repeat split; intros; try reflexivity; discriminate.
Qed.

Lemma heldToken_readPendingRecord (w : World) :
  heldToken (snd (readPendingRecord w)) = heldToken w.
Proof.
  destruct (readPendingRecord_eq w) as (_ & _ & Hs & Hn & _).
  unfold heldToken. now rewrite Hs, Hn.
Qed.

Lemma isLocalHost_readPendingRecord (w : World) :
  isLocalHost (snd (readPendingRecord w)) = isLocalHost w.
Proof.
  destruct (readPendingRecord_eq w) as (_ & Hw & _).
  unfold isLocalHost. now rewrite Hw.
Qed.

(** With no stored identity, off loopback and not in the background, what
    lines 219-249 leave in the token store and the cookies is what the
    silent refresh left. *)
Lemma existingSession_after_refresh (P : Platform) (w : World) :
  fst (getUserIdentity P w) = Ok JNull -> isLocalHost w = false ->
  tokenStore (snd (existingSession P false w)) = tokenStore (snd (silentRefresh P w)) /\
  cookies (snd (existingSession P false w)) = cookies (snd (silentRefresh P w)).
Proof.
  intros Hid Hlocal. unfold existingSession, bind.
  rewrite (getUserIdentity_eq P w), Hid. cbn [truthy].
  unfold gets. rewrite Hlocal. cbn [negb andb]. unfold try_catch.
  destruct (silentRefresh P w) as [[[]|e] w2]; cbn [snd ret];
    rewrite (getUserIdentity_eq P w2);
    destruct (fst (getUserIdentity P w2)) as [v|e']; try (split; reflexivity);
    destruct (truthy v); split; reflexivity.
Qed.

(** A pass that is neither a landing nor a code exchange, off loopback, is
    lines 219-249 run after the record has been read. *)
Lemma continuation_existingSession
  (P : Platform) (bg : bool) (w : World) (loc : Location) (nonce : JsVal) :
  window w = Some loc ->
  oauthLoginLanding (search loc) = false ->
  getProp (pendingRecord w) "nonce" = Ok nonce ->
  andb (truthy nonce) (truthy (of_param (lookup "code" (search loc)))) = false ->
  isLocalHost w = false ->
  userSessionContinuation P bg w = existingSession P bg (snd (readPendingRecord w)).
Proof.
  intros Hw Hland Hnonce Hcode Hlocal.
  destruct (readPendingRecord_eq w) as (Hr & _).
  pose proof (isLocalHost_readPendingRecord w) as Hl.
  unfold userSessionContinuation, bind, getLocation. rewrite Hw.
  destruct (readPendingRecord w) as [o w1] eqn:E. cbn [fst snd] in *. subst o.
  fold (oauthLoginLanding (search loc)). rewrite Hland.
  unfold lift. rewrite Hnonce, Hcode. unfold gets.
  rewrite Hl, Hlocal. reflexivity.
Qed.

(** C5, counterexample.  The provider has set a [user] cookie and the
    refresh answers with a lifetime and no token: the token store receives
    the [id_token] field of the answer, here [undefined], not the identity
    token of the cookie. *)
Lemma refresh_does_not_store_the_cookie_token :
  cookie_parse (cookies cookieSessionWorld) "user" = JStr "header.claims-u1.sig" /\
  tokenStore (snd (userSessionContinuation samplePlatform false cookieSessionWorld))
  = Some {| entryToken := JUndefined; entryExpiry := ValidDate 3601000 |} /\
  option_map entryToken
    (tokenStore (snd (userSessionContinuation samplePlatform false cookieSessionWorld)))
  <> Some (JStr "header.claims-u1.sig").
Proof.
  split; [reflexivity|]. split; [reflexivity|]. discriminate.
Qed.

(** C5, amended.  When the silent refresh succeeds and its answer carries no
    access token, the continuation hands the [id_token] field of the answer
    to the token store, and writes no cookie.  The expiry is
    [new Date(now + expires_in * 1000)] if the answer provides a (non-zero)
    lifetime, and [new Date(now + 24 h)] if it provides none and no [user]
    cookie is present: the date of that instant when it lies within the range
    of Date, an Invalid Date beyond it. *)
Theorem refresh_without_access_token
  (P : Platform) (w : World) (loc : Location)
  (nonce data access_token id_token expires_in : JsVal) (rest : list HttpResult)
  (Hw : window w = Some loc)
  (Hland : oauthLoginLanding (search loc) = false)
  (Hnonce : getProp (pendingRecord w) "nonce" = Ok nonce)
  (Hcode : andb (truthy nonce) (truthy (of_param (lookup "code" (search loc)))) = false)
  (Hlocal : isLocalHost w = false)
  (Hid : fst (getUserIdentity P w) = Ok JNull)
  (Hresp : responses w = HttpOk data :: rest)
  (Hat : getProp data "access_token" = Ok access_token)
  (Hfalsy : truthy access_token = false)
  (Hit : getProp data "id_token" = Ok id_token)
  (Hei : getProp data "expires_in" = Ok expires_in) :
  let w' := snd (userSessionContinuation P false w) in
  let stored expiry := tokenStore w' = Some {| entryToken := id_token; entryExpiry := expiry |} in
  (truthy expires_in = true ->
   stored (new_Date (option_map (fun n => now w + n * 1000)%Z (ToNumber P expires_in)))) /\
  (forall n, expires_in = JNum n -> n <> 0%Z ->
     (inDateRange (now w + n * 1000) -> stored (ValidDate (now w + n * 1000)%Z)) /\
     (~ inDateRange (now w + n * 1000) -> stored InvalidDate)) /\
  (truthy expires_in = false -> truthy (cookie_parse (cookies w) "user") = false ->
     (inDateRange (now w + 86400000) -> stored (ValidDate (now w + 86400000)%Z)) /\
     (~ inDateRange (now w + 86400000) -> stored InvalidDate)) /\
  cookies w' = cookies w.
Proof.
  intros w' stored. subst w' stored. cbv beta.
  rewrite (continuation_existingSession P false w loc nonce Hw Hland Hnonce Hcode Hlocal).
  destruct (readPendingRecord_eq w) as (_ & _ & _ & Hn & _ & Hc & _ & Hr & _).
  destruct (existingSession_after_refresh P (snd (readPendingRecord w))) as [Hs Hk].
  - rewrite (getUserIdentity_heldToken P _ w (heldToken_readPendingRecord w)). exact Hid.
  - rewrite isLocalHost_readPendingRecord. exact Hlocal.
  - rewrite Hs, Hk.
    assert (Hresp' : responses (snd (readPendingRecord w)) = HttpOk data :: rest)
      by (rewrite Hr; exact Hresp).
    destruct (silentRefresh_without_access_token P (snd (readPendingRecord w))
                data access_token id_token expires_in rest Hresp' Hat Hfalsy Hit Hei)
      as (H1 & H2 & _ & H3 & _).
    rewrite Hn, Hc in *.
    split; [exact H1|]. split; [|split; [|exact H3]].
    + intros n -> Hnz.
      assert (Ht : truthy (JNum n) = true) by (cbn; now destruct (Z.eqb_spec n 0)).
      specialize (H1 Ht). cbn [ToNumber option_map] in H1. rewrite H1.
      split; intros Hrange.
      * now rewrite new_Date_in_range.
      * now rewrite new_Date_out_of_range.
    + intros Hf Hu. rewrite (H2 Hf Hu).
      split; intros Hrange.
      * now rewrite new_Date_in_range.
      * now rewrite new_Date_out_of_range.
Qed.

(** The refresh of the sample page answers with a lifetime of an hour and an
    identity token: the token of the answer is stored for an hour; with an
    empty answer and no cookie the expiry is a day away. *)
Lemma refresh_without_access_token_witness :
  tokenStore
    (snd (userSessionContinuation samplePlatform false
            (sampleWorld [] NoItem
               [HttpOk (JObj [("id_token", JStr "header.claims-u1.sig");
                              ("expires_in", JNum 3600)])])))
  = Some {| entryToken := JStr "header.claims-u1.sig";
            entryExpiry := ValidDate 3601000 |} /\
  tokenStore
    (snd (userSessionContinuation samplePlatform false
            (sampleWorld [] NoItem [HttpOk (JObj [])])))
  = Some {| entryToken := JUndefined; entryExpiry := ValidDate 86401000 |}.
Proof.
  split.
  - pose proof (refresh_without_access_token samplePlatform
      (sampleWorld [] NoItem
         [HttpOk (JObj [("id_token", JStr "header.claims-u1.sig"); ("expires_in", JNum 3600)])])
      (appPage []) JUndefined
      (JObj [("id_token", JStr "header.claims-u1.sig"); ("expires_in", JNum 3600)])
      JUndefined (JStr "header.claims-u1.sig") (JNum 3600) []
      eq_refl eq_refl eq_refl eq_refl eq_refl eq_refl eq_refl eq_refl eq_refl eq_refl eq_refl)
      as (_ & H & _).
    destruct (H 3600%Z eq_refl) as [Hv _]; [discriminate|].
    apply Hv. unfold inDateRange, maxDate. cbn. lia.
  - pose proof (refresh_without_access_token samplePlatform
      (sampleWorld [] NoItem [HttpOk (JObj [])])
      (appPage []) JUndefined (JObj []) JUndefined JUndefined JUndefined []
      eq_refl eq_refl eq_refl eq_refl eq_refl eq_refl eq_refl eq_refl eq_refl eq_refl eq_refl)
      as (_ & _ & H & _).
    destruct (H eq_refl eq_refl) as [Hv _].
    apply Hv. unfold inDateRange, maxDate. cbn. lia.
Defined.

(** ** C7: authenticate and its validation *)

Lemma responseLocation_test (v : JsVal) :
  andb (truthy v)
       (andb (negb (is_str v "cookie"))
             (andb (negb (is_str v "query")) (negb (is_str v "none"))))
  = negb (validResponseLocation v).
Proof.
  unfold validResponseLocation.
  destruct (truthy v), (is_str v "cookie"), (is_str v "query"), (is_str v "none");
    reflexivity.
Qed.

(** C7, counterexample.  With both [connectionId] and
    [tenantLookupIdentifier] supplied (and [force]), no [InvalidConnection]
    is raised: the authentication request goes out and the page navigates.
    With neither supplied and a session in place, the call returns [true]. *)
Lemma authenticate_without_exactly_one_identifier :
  fst (authenticate samplePlatform (sampleArgs (JStr "c1") (JStr "t1") (JBool true))
         (sampleWorld [] NoItem [authenticationAnswer])) = Ok false /\
  map reqPath
      (requests (snd (authenticate samplePlatform
                        (sampleArgs (JStr "c1") (JStr "t1") (JBool true))
                        (sampleWorld [] NoItem [authenticationAnswer]))))
  = ["/authentication"] /\
  fst (authenticate samplePlatform (sampleArgs JUndefined JUndefined JUndefined)
         (signedInWorld [])) = Ok true.
Proof. repeat split. Qed.

(** C7, amended.  For every call to [authenticate] with a valid
    [responseLocation] that supplies neither [connectionId] nor
    [tenantLookupIdentifier]: with [force] or [multiAccount] set,
    [InvalidConnection] is raised at once, before any network call and with
    the world untouched; otherwise the session check runs first (it may
    exchange a code or refresh the session), an established session returns
    [true], and in every other case the call ends with [InvalidConnection]
    or the failure of the check, the authentication request never being
    sent. *)
Theorem authenticate_requires_an_identifier
  (P : Platform) (a : AuthenticateArgs) (w : World)
  (Hvalid : validResponseLocation (responseLocation a) = true)
  (Hconnection : truthy (connectionId a) = false)
  (Htenant : truthy (tenantLookupIdentifier a) = false) :
  (orb (truthy (force a)) (truthy (multiAccount a)) = true ->
   authenticate P a w = (Throw invalidConnection, w)) /\
  (orb (truthy (force a)) (truthy (multiAccount a)) = false ->
   authenticate P a w
   = match checkSession P w with
     | (Ok true, w') => (Ok true, w')
     | (Ok false, w') => (Throw invalidConnection, w')
     | (Throw e, w') => (Throw e, w')
     end).
Proof.
  unfold authenticate. rewrite responseLocation_test, Hvalid, Hconnection, Htenant.
  cbn [negb andb]. split; intros H.
  - apply orb_true_iff in H.
    assert (E : andb (negb (truthy (force a))) (negb (truthy (multiAccount a))) = false).
    { destruct H as [-> | ->]; [reflexivity|]. now destruct (truthy (force a)). }
    rewrite E. reflexivity.
  - apply orb_false_iff in H. destruct H as [Hf Hm]. rewrite Hf, Hm. cbn [negb andb].
    unfold checkSession. unfold bind at 1.
    destruct ((p <- userSessionExists false ;; awaitRun P p) w) as [[[|]|e] w'];
      reflexivity.
Qed.

(** Forced and without an identifier: [InvalidConnection] and no request;
    not forced, without a session: the refresh is tried, then
    [InvalidConnection], and [/authentication] is not called. *)
Lemma authenticate_requires_an_identifier_witness :
  authenticate samplePlatform (sampleArgs JUndefined JUndefined (JBool true))
    (sampleWorld [] NoItem [authenticationAnswer])
  = (Throw invalidConnection, sampleWorld [] NoItem [authenticationAnswer]) /\
  fst (authenticate samplePlatform (sampleArgs JUndefined JUndefined JUndefined)
         (sampleWorld [] NoItem [])) = Throw invalidConnection /\
  map reqPath
      (requests (snd (authenticate samplePlatform
                        (sampleArgs JUndefined JUndefined JUndefined)
                        (sampleWorld [] NoItem []))))
  = ["/session"].
Proof.
  pose proof (authenticate_requires_an_identifier samplePlatform
                (sampleArgs JUndefined JUndefined (JBool true))
                (sampleWorld [] NoItem [authenticationAnswer])
                eq_refl eq_refl eq_refl) as (H & _).
  pose proof (authenticate_requires_an_identifier samplePlatform
                (sampleArgs JUndefined JUndefined JUndefined)
                (sampleWorld [] NoItem [])
                eq_refl eq_refl eq_refl) as (_ & H').
  split; [exact (H eq_refl)|].
  rewrite (H' eq_refl). split; reflexivity.
Defined.

(** ** C6: ensureToken *)

(** C6, counterexample.  The page lands with a replayed code: the session
    check inside [ensureToken] fails, the session signal never resolves,
    and [ensureToken] rejects with [InvalidNonce], not [TokenTimeout]. *)
Lemma ensureToken_rejects_with_the_failure_of_the_check :
  fst (ensureToken samplePlatform idlePage JUndefined replayWorld) = Throw invalidNonce /\
  userSessionResolved (snd (ensureToken samplePlatform idlePage JUndefined replayWorld))
  = false /\
  fst (ensureToken samplePlatform idlePage JUndefined replayWorld) <> Throw tokenTimeout.
Proof. split; [reflexivity|]. split; [reflexivity|discriminate]. Qed.

(** What line 483 gives for a cookie that is absent or holds the
    placeholder: [undefined] and [false]. *)
Example ensureToken_without_cookie :
  fst (ensureToken samplePlatform idlePage JUndefined (signedInWorld [])) = Ok JUndefined /\
  fst (ensureToken samplePlatform idlePage JUndefined
         (signedInWorld [{| cookieName := "authorization"; cookieValue := "undefined";
                            cookieExpires := ValidDate 5000 |}])) = Ok (JBool false).
Proof. split; reflexivity. Qed.

(** C6, amended.  [ensureToken] first awaits the session check and rejects
    with its error if it fails.  Otherwise it races the wait on the session
    signal against the configured timeout (5000 ms by default): if the
    signal is not resolved when the race settles, it rejects with
    [TokenTimeout]; if it is, it returns the access token read from the
    [authorization] cookie, when that cookie is present and is not the
    placeholder. *)
Theorem ensureToken_races_the_session_signal
  (P : Platform) (elsewhere : Z -> World -> World) (options : JsVal) (w : World) :
  let w1 := snd (checkSession P w) in
  let w2 := raceSettled elsewhere (timeoutDelay P options) w1 in
  (forall e, fst (checkSession P w) = Throw e ->
     ensureToken P elsewhere options w = (Throw e, w1)) /\
  (forall b, fst (checkSession P w) = Ok b ->
     (userSessionResolved w2 = false ->
      ensureToken P elsewhere options w = (Throw tokenTimeout, w2)) /\
     (userSessionResolved w2 = true ->
      forall token, cookie_parse (cookies w2) "authorization" = JStr token ->
                    token <> "undefined" ->
      ensureToken P elsewhere options w = (Ok (JStr token), w2))) /\
  timeoutDelay P JUndefined = 5000%Z /\
  timeoutDelay P (JObj []) = 5000%Z /\
  (forall n, n <> 0%Z -> timeoutDelay P (JObj [("timeoutInMillis", JNum n)]) = n).
Proof.
  intros w1 w2. subst w1 w2.
  unfold ensureToken, checkSession, raceSettled.
  split; [|split; [|split; [reflexivity|split; [reflexivity|]]]].
  - intros e He. unfold bind in *.
    destruct (userSessionExists false w) as [[p|e0] w0]; cbn [fst snd] in *.
    + destruct (awaitRun P p w0) as [[b|e1] w1]; cbn [fst snd] in *; congruence.
    + congruence.
  - intros b Hb. unfold bind in *.
    destruct (userSessionExists false w) as [[p|e0] w0]; cbn [fst snd] in *;
      [|discriminate].
    destruct (awaitRun P p w0) as [[b'|e1] w1]; cbn [fst snd] in *; [|discriminate].
    unfold try_catch, raceSessionAgainstTimeout.
    destruct (userSessionResolved w1) eqn:Hr1.
    + split; [congruence|]. intros _ token Hc Hp. unfold gets, ret. rewrite Hc.
      cbn [is_str]. destruct (String.eqb_spec token "undefined"); [contradiction|reflexivity].
    + split.
      * intros ->. reflexivity.
      * intros Hr2 token Hc Hp. rewrite Hr2. unfold gets, ret. rewrite Hc.
        cbn [is_str].
        destruct (String.eqb_spec token "undefined"); [contradiction|reflexivity].
  - intros n Hn. unfold timeoutDelay, js_or. cbn [lookup String.eqb Ascii.eqb Bool.eqb truthy].
    destruct (Z.eqb_spec n 0); [contradiction|reflexivity].
Qed.

(** With a session and a readable cookie the token comes back; with no
    session and an idle page the call times out. *)
Lemma ensureToken_races_the_session_signal_witness :
  fst (ensureToken samplePlatform idlePage JUndefined
         (signedInWorld [{| cookieName := "authorization"; cookieValue := "AT";
                            cookieExpires := ValidDate 5000 |}])) = Ok (JStr "AT") /\
  fst (ensureToken samplePlatform idlePage (JObj [("timeoutInMillis", JNum 10)])
         (sampleWorld [] NoItem [])) = Throw tokenTimeout.
Proof.
  split.
  - pose proof (ensureToken_races_the_session_signal samplePlatform idlePage JUndefined
                  (signedInWorld [{| cookieName := "authorization"; cookieValue := "AT";
                                     cookieExpires := ValidDate 5000 |}]))
      as (_ & H & _).
    destruct (H true eq_refl) as (_ & H').
    rewrite (H' eq_refl "AT" eq_refl); [reflexivity|discriminate].
  - pose proof (ensureToken_races_the_session_signal samplePlatform idlePage
                  (JObj [("timeoutInMillis", JNum 10)]) (sampleWorld [] NoItem []))
      as (_ & H & _).
    destruct (H false eq_refl) as (H' & _).
    rewrite (H' eq_refl). reflexivity.
Defined.

(** ** C2: overlapping session checks *)

Lemma settleRuns_app (P : Platform) (l1 l2 : list SessionRun) (i p : nat) (w : World) :
  (i + length l1 <= S p)%nat ->
  settleRuns P (l1 ++ l2) i p w
  = settleRuns P l2 (i + length l1) p (settleRuns P l1 i p w).
Proof.
  revert i w. induction l1 as [|r l1 IH]; intros i w Hle.
  - cbn. now rewrite Nat.add_0_r.
  - cbn [app settleRuns length] in *.
    destruct (Nat.leb_spec i p) as [_|Hlt]; [|lia].
    rewrite IH by lia. f_equal. lia.
Qed.

Lemma update_nth_app {A : Type} (g : A -> A) (pre : list A) (x : A) (l : list A) :
  update_nth (length pre) g (pre ++ x :: l) = pre ++ g x :: l.
Proof.
  induction pre as [|y pre IH]; cbn; [reflexivity|]. now rewrite IH.
Qed.

Lemma settleOne_runs (P : Platform) (pre l : list SessionRun) (r : SessionRun) (w : World) :
  sessionRuns w = pre ++ r :: l ->
  exists r', sessionRuns (settleOne P (length pre) r w) = pre ++ r' :: l /\
             settled r' = true /\ (settled r = true -> r' = r).
Proof.
  intros Hruns. unfold settleOne, settled.
  destruct (runOutcome r) as [o|] eqn:Hr.
  - exists r. rewrite Hr. auto.
  - pose proof (continuation_sessionRuns P (runBackground r) w) as Hk.
    destruct (userSessionContinuation P (runBackground r) w) as [o w1].
    cbn [snd] in Hk. cbn [sessionRuns set_sessionRuns].
    rewrite Hk, Hruns, update_nth_app.
    exists (set_runOutcome o r). split; [reflexivity|]. split; [reflexivity|discriminate].
Qed.

(** Settling up to [p] settles every run up to [p], keeps the list as long
    as it was and keeps the outcomes already there. *)
Lemma settleRuns_settles (P : Platform) (l pre : list SessionRun) (p : nat) (w : World) :
  sessionRuns w = pre ++ l ->
  exists l',
    sessionRuns (settleRuns P l (length pre) p w) = pre ++ l' /\
    length l' = length l /\
    (forall j r, nth_error l' j = Some r -> (length pre + j <= p)%nat -> settled r = true) /\
    (forall j r, nth_error l j = Some r -> settled r = true -> nth_error l' j = Some r).
Proof.
  revert pre w. induction l as [|r l IH]; intros pre w Hruns.
  - exists []. cbn. split; [exact Hruns|]. split; [reflexivity|].
    split; intros [|j] r'; discriminate.
  - cbn [settleRuns]. destruct (Nat.leb_spec (length pre) p) as [Hle|Hgt].
    + destruct (settleOne_runs P pre l r w Hruns) as (r' & Hone & Hset & Hsame).
      specialize (IH (pre ++ [r']) (settleOne P (length pre) r w)).
      rewrite <- app_assoc in IH. specialize (IH Hone).
      rewrite length_app, Nat.add_comm in IH. cbn [length Nat.add] in IH.
      destruct IH as (l' & H1 & H2 & H3 & H4).
      exists (r' :: l'). rewrite <- app_assoc in H1.
      split; [exact H1|]. split; [cbn; now rewrite H2|]. split.
      * intros [|j] r0 Hnth Hj; cbn in Hnth.
        -- now injection Hnth as <-.
        -- apply (H3 j r0 Hnth). lia.
      * intros [|j] r0 Hnth Hs; cbn in Hnth |- *.
        -- injection Hnth as <-. now rewrite Hsame.
        -- now apply H4.
    + exists (r :: l). split; [exact Hruns|]. split; [reflexivity|].
      split; [intros; lia|auto].
Qed.

Lemma settleRuns_settled (P : Platform) (l : list SessionRun) (i p : nat) (w : World) :
  (forall j r, nth_error l j = Some r -> (i + j <= p)%nat -> settled r = true) ->
  settleRuns P l i p w = w.
Proof.
  revert i. induction l as [|r l IH]; intros i H; [reflexivity|].
  cbn [settleRuns]. destruct (Nat.leb_spec i p) as [Hle|Hgt]; [|reflexivity].
  assert (Hr : settled r = true) by (apply (H 0 r); [reflexivity|lia]).
  unfold settleOne. unfold settled in Hr. destruct (runOutcome r); [|discriminate].
  apply IH. intros j r0 Hnth Hj. apply (H (S j) r0 Hnth). lia.
Qed.

(** A promise of the sequence settles once: awaiting it again gives the
    outcome it had and runs nothing. *)
Lemma awaitRun_again (P : Platform) (p : nat) (w : World) :
  awaitRun P p (snd (awaitRun P p w)) = awaitRun P p w.
Proof.
  assert (Hsnd : snd (awaitRun P p w) = settleRuns P (sessionRuns w) 0 p w).
  { unfold awaitRun.
    destruct (nth_error (sessionRuns (settleRuns P (sessionRuns w) 0 p w)) p)
      as [[bg [o|]]|]; reflexivity. }
  rewrite Hsnd.
  destruct (settleRuns_settles P (sessionRuns w) [] p w eq_refl) as (l' & H1 & _ & H3 & _).
  cbn [length app] in H1, H3.
  unfold awaitRun at 1.
  rewrite (settleRuns_settled P _ 0 p).
  - reflexivity.
  - rewrite H1. exact H3.
Qed.

(** Line 140 writes [lastSessionCheck] before line 142 reads it: the value
    the field had when the call was made, the time of the earlier check,
    has no part in what the call does. *)
Lemma earlier_check_is_not_looked_at (bg : bool) (w : World) (t : Z) :
  userSessionExists bg (set_lastSessionCheck t w) = userSessionExists bg w.
Proof. reflexivity. Qed.

(** C2, at the failing input.  The second check is made while the first is
    in flight, and the clock moves by 5 ms between the two readings of the
    second call (lines 140 and 142): a second continuation is chained, the
    two promises differ and so do their outcomes, and the provider is asked
    twice. *)
Theorem overlapping_checks_may_run_twice :
  fst (userSessionExists false racingWorld) = Ok 0 /\
  nth_error (sessionRuns afterFirstCall) 0
  = Some {| runBackground := false; runOutcome := None |} /\
  fst (userSessionExists false afterFirstCall) = Ok 1 /\
  fst (awaitRun samplePlatform 0 afterSecondCall) = Ok false /\
  fst (awaitRun samplePlatform 1 afterSecondCall) = Ok true /\
  map reqPath (requests (snd (awaitRun samplePlatform 1 afterSecondCall)))
  = ["/session"; "/session"].
Proof. repeat split. Qed.

(* ================================================================== *)
(** * Further properties of the code *)
(* ================================================================== *)

(** ** DomainPolicy on host names *)

Lemma getMatchingDomainInfo_domainsMatch
  (P : Platform) (url providerHost : string) (w : World) (loc : Location) :
  URL_host P url = Some providerHost -> securePage w loc ->
  getMatchingDomainInfo P url w = Ok (domainsMatch providerHost (host loc)).
Proof.
  intros Hurl (Hw & Hl & Hp). unfold getMatchingDomainInfo.
  rewrite Hurl, Hl, Hw, Hp. rewrite String.eqb_refl. cbn [negb].
  rewrite matchSegments_matchedLabels. unfold domainsMatch.
  set (m := matchedLabels _ _).
  destruct (andb (m =? _)%nat (m =? _)%nat); [reflexivity|].
  cbn [orb]. change (1 <? m)%nat with (2 <=? m)%nat.
  now destruct (2 <=? m)%nat.
Qed.

Lemma split_dot_app (a b : string) :
  split_dot (a ++ "." ++ b) = split_dot a ++ split_dot b.
Proof.
  induction a as [|c a IH]; [reflexivity|].
  cbn [String.append split_dot]. cbn [String.append] in IH. rewrite IH.
  destruct (Ascii.eqb c "."%char); [reflexivity|].
  pose proof (split_dot_nonempty a) as Hne.
  destruct (split_dot a) as [|hd tl]; [contradiction|reflexivity].
Qed.

Lemma toLowerCase_app (a b : string) :
  toLowerCase (a ++ b) = (toLowerCase a ++ toLowerCase b)%string.
Proof. induction a as [|c a IH]; cbn; [reflexivity|]. now rewrite IH. Qed.

Lemma reversedLabels_app (a b : string) :
  reversedLabels (a ++ "." ++ b) = reversedLabels b ++ reversedLabels a.
Proof.
  unfold reversedLabels. rewrite !toLowerCase_app.
  change (toLowerCase ".") with ".". rewrite split_dot_app. apply rev_app_distr.
Qed.

Lemma matchedLabels_app (l x y : list string) :
  matchedLabels (l ++ x) (l ++ y) = (length l + matchedLabels x y)%nat.
Proof.
  induction l as [|a l IH]; [reflexivity|].
  cbn. rewrite String.eqb_refl. now rewrite IH.
Qed.

Lemma matchedLabels_app_nil_l (l y : list string) :
  matchedLabels l (l ++ y) = length l.
Proof.
  rewrite <- (app_nil_r l) at 1. rewrite matchedLabels_app.
  destruct y; cbn; lia.
Qed.

Lemma matchedLabels_app_nil_r (l x : list string) :
  matchedLabels (l ++ x) l = length l.
Proof.
  rewrite <- (app_nil_r l) at 2. rewrite matchedLabels_app.
  destruct x; cbn; lia.
Qed.

Lemma matchedLabels_refl (l : list string) : matchedLabels l l = length l.
Proof. induction l as [|a l IH]; cbn; [reflexivity|]. now rewrite String.eqb_refl, IH. Qed.

Lemma reversedLabels_two (d t : string) :
  (2 <= length (reversedLabels (d ++ "." ++ t)))%nat.
Proof.
  rewrite reversedLabels_app, length_app.
  pose proof (reversedLabels_nonempty d). pose proof (reversedLabels_nonempty t).
  destruct (reversedLabels d), (reversedLabels t); try contradiction. cbn. lia.
Qed.

Lemma domainsMatch_under (suffix a b : string) :
  (2 <= length (reversedLabels suffix))%nat ->
  underDomain suffix a -> underDomain suffix b -> domainsMatch a b = true.
Proof.
  intros H2 Ha Hb. unfold domainsMatch.
  assert (Hm : (2 <= matchedLabels (reversedLabels a) (reversedLabels b))%nat).
  { destruct Ha as [->|[x ->]], Hb as [->|[y ->]]; rewrite ?reversedLabels_app.
    - now rewrite matchedLabels_refl.
    - now rewrite matchedLabels_app_nil_l.
    - now rewrite matchedLabels_app_nil_r.
    - rewrite matchedLabels_app. lia. }
  apply orb_true_iff. right. now apply Nat.leb_le.
Qed.

(** X1.  On a secure page that is not loopback, a provider host and a page
    host that lie under one domain of at least two labels ([d.t]), each
    being the domain itself or any subdomain of it, are accepted: credentialed
    access is on.  The labels are not looked up in a public-suffix list, so
    this holds for siblings under a two-label public suffix as well. *)
Theorem hosts_under_one_domain_are_accepted
  (P : Platform) (url providerHost d t : string) (w : World) (loc : Location)
  (Hurl : URL_host P url = Some providerHost)
  (Hpage : securePage w loc)
  (Hprovider : underDomain (d ++ "." ++ t) providerHost)
  (Hhost : underDomain (d ++ "." ++ t) (host loc)) :
  getMatchingDomainInfo P url w = Ok true.
Proof.
  rewrite (getMatchingDomainInfo_domainsMatch P url providerHost w loc Hurl Hpage).
  f_equal. apply (domainsMatch_under (d ++ "." ++ t)); try assumption.
  apply reversedLabels_two.
Qed.

(** The application at [app.example.com] and the provider at
    [login.example.com] lie under [example.com]. *)
Lemma hosts_under_one_domain_are_accepted_witness :
  getMatchingDomainInfo samplePlatform "https://login.example.com"
    (sampleWorld [] NoItem []) = Ok true.
Proof.
  apply (hosts_under_one_domain_are_accepted samplePlatform "https://login.example.com"
           "login.example.com" "example" "com" (sampleWorld [] NoItem []) (appPage [])).
  - reflexivity.
  - repeat split.
  - right. exists "login". reflexivity.
  - right. exists "app". reflexivity.
Defined.

Lemma matchedLabels_sym (x y : list string) : matchedLabels x y = matchedLabels y x.
Proof.
  revert y. induction x as [|a x IH]; intros [|b y]; cbn; try reflexivity.
  rewrite (String.eqb_sym a b). destruct (b =? a); [now rewrite IH|reflexivity].
Qed.

Lemma domainsMatch_sym (a b : string) : domainsMatch a b = domainsMatch b a.
Proof.
  unfold domainsMatch. rewrite (matchedLabels_sym (reversedLabels a)).
  f_equal. apply andb_comm.
Qed.

Lemma lower_ascii_idem (c : ascii) : lower_ascii (lower_ascii c) = lower_ascii c.
Proof. destruct c as [[] [] [] [] [] [] [] []]; reflexivity. Qed.

Lemma toLowerCase_idem (s : string) : toLowerCase (toLowerCase s) = toLowerCase s.
Proof. induction s as [|c s IH]; cbn; [reflexivity|]. now rewrite lower_ascii_idem, IH. Qed.

Lemma domainsMatch_lower (a b : string) :
  domainsMatch (toLowerCase a) (toLowerCase b) = domainsMatch a b.
Proof. unfold domainsMatch, reversedLabels. now rewrite !toLowerCase_idem. Qed.

(** X2.  On secure pages that are not loopback the decision does not depend
    on which of the two hosts is the provider and which the page, nor on the
    case of their letters. *)
Theorem decision_is_symmetric_and_ignores_case
  (P : Platform) (url1 url2 h1 h2 : string) (w1 w2 : World) (loc1 loc2 : Location)
  (Hurl1 : URL_host P url1 = Some h1) (Hpage1 : securePage w1 loc1)
  (Hurl2 : URL_host P url2 = Some h2) (Hpage2 : securePage w2 loc2) :
  (host loc1 = h2 -> host loc2 = h1 ->
   getMatchingDomainInfo P url1 w1 = getMatchingDomainInfo P url2 w2) /\
  (toLowerCase h1 = toLowerCase h2 -> toLowerCase (host loc1) = toLowerCase (host loc2) ->
   getMatchingDomainInfo P url1 w1 = getMatchingDomainInfo P url2 w2).
Proof.
  rewrite (getMatchingDomainInfo_domainsMatch P url1 h1 w1 loc1 Hurl1 Hpage1).
  rewrite (getMatchingDomainInfo_domainsMatch P url2 h2 w2 loc2 Hurl2 Hpage2).
  split.
  - intros -> ->. f_equal. apply domainsMatch_sym.
  - intros Hh Hl. f_equal.
    rewrite <- (domainsMatch_lower h1), <- (domainsMatch_lower h2). now rewrite Hh, Hl.
Qed.

(** The provider and the application swap places. *)
Lemma decision_is_symmetric_and_ignores_case_witness :
  getMatchingDomainInfo samplePlatform "https://login.example.com"
    (pageWorld "app.example.com")
  = getMatchingDomainInfo samplePlatform "https://app.example.com"
      (pageWorld "login.example.com") /\
  getMatchingDomainInfo samplePlatform "https://LOGIN.example.com"
    (pageWorld "app.example.com")
  = getMatchingDomainInfo samplePlatform "https://login.example.com"
      (pageWorld "App.Example.com").
Proof.
  split.
  - refine (proj1 (decision_is_symmetric_and_ignores_case samplePlatform
      "https://login.example.com" "https://app.example.com"
      "login.example.com" "app.example.com"
      (pageWorld "app.example.com") (pageWorld "login.example.com")
      (pageAt "app.example.com") (pageAt "login.example.com")
      eq_refl _ eq_refl _) eq_refl eq_refl); repeat split.
  - refine (proj2 (decision_is_symmetric_and_ignores_case samplePlatform
      "https://LOGIN.example.com" "https://login.example.com"
      "LOGIN.example.com" "login.example.com"
      (pageWorld "app.example.com") (pageWorld "App.Example.com")
      (pageAt "app.example.com") (pageAt "App.Example.com")
      eq_refl _ eq_refl _) eq_refl eq_refl); repeat split.
Defined.

(** ** Codec: which part of a token is read *)

Lemma split_dot_dotfree (s : string) : dotfree s = true -> split_dot s = [s].
Proof.
  induction s as [|c s IH]; [reflexivity|].
  cbn. destruct (Ascii.eqb c "."%char); [discriminate|].
  cbn. intros H. now rewrite IH.
Qed.

Lemma payload_segment (h p rest : string) :
  dotfree h = true -> dotfree p = true ->
  nth_error (split_dot (h ++ "." ++ p ++ "." ++ rest)) 1 = Some p.
Proof.
  intros Hh Hp. rewrite !split_dot_app, (split_dot_dotfree h Hh), (split_dot_dotfree p Hp).
  reflexivity.
Qed.

Lemma truthy_dotted (h rest : string) : truthy (JStr (h ++ "." ++ rest)) = true.
Proof. destruct h; reflexivity. Qed.

(** X3.  [decode] reads the payload segment and nothing else: whatever the
    header and the signature of a three-part token are, the result is the
    parsed payload, or [null] when the payload does not decode or parse.
    Two tokens with the same payload decode alike; no signature is
    checked. *)
Theorem decode_reads_only_the_payload
  (P : Platform) (header payload signature : string)
  (Hheader : dotfree header = true) (Hpayload : dotfree payload = true) :
  decode P (JStr (header ++ "." ++ payload ++ "." ++ signature))
  = Ok (claimsOf P payload) /\
  (forall header' signature', dotfree header' = true ->
     decode P (JStr (header' ++ "." ++ payload ++ "." ++ signature'))
     = decode P (JStr (header ++ "." ++ payload ++ "." ++ signature))).
Proof.
  assert (H : forall h s, dotfree h = true ->
              decode P (JStr (h ++ "." ++ payload ++ "." ++ s)) = Ok (claimsOf P payload)).
  { intros h s Hh. unfold decode. rewrite truthy_dotted. cbn [parseSegment].
    rewrite (payload_segment h payload s Hh Hpayload). unfold claimsOf.
    destruct (base64url_decode P (Some payload)) as [text|]; [|reflexivity].
    now destruct (JSON_parse P text). }
  split.
  - now apply H.
  - intros h' s' Hh'. now rewrite !H.
Qed.

(** A forged header and signature around the payload of the sample token
    give the claims of the sample token. *)
Lemma decode_reads_only_the_payload_witness :
  decode samplePlatform (JStr "forged.claims-u1.nothing")
  = decode samplePlatform (JStr "header.claims-u1.sig").
Proof.
  exact (proj2 (decode_reads_only_the_payload samplePlatform "header" "claims-u1" "sig"
                  eq_refl eq_refl) "forged" "nothing" eq_refl).
Defined.

(** X4.  [decodeFull] and [decode] agree on the payload: whenever
    [decodeFull] returns a header and a payload, [decode] returns that
    payload. *)
Theorem decodeFull_agrees_with_decode
  (P : Platform) (token header payload : JsVal)
  (Hfull : decodeFull P token = Ok (JObj [("header", header); ("payload", payload)])) :
  decode P token = Ok payload.
Proof.
  unfold decodeFull, decode in *.
  destruct (truthy token) eqn:Ht.
  - destruct (parseSegment P token 0) as [h|e]; [|discriminate].
    destruct (parseSegment P token 1) as [p|e]; [|discriminate].
    now injection Hfull as _ <-.
  - injection Hfull as ->. discriminate.
Qed.

Lemma decodeFull_agrees_with_decode_witness :
  decode samplePlatform (JStr "header.claims-u1.sig")
  = Ok (JObj [("sub", JStr "u1"); ("exp", JNum 2000)]).
Proof.
  exact (decodeFull_agrees_with_decode samplePlatform (JStr "header.claims-u1.sig")
           (JObj [("alg", JStr "EdDSA")]) (JObj [("sub", JStr "u1"); ("exp", JNum 2000)])
           eq_refl).
Defined.

(** ** constructor: where it runs and how the host is spelled *)

(** X5.  Outside a browser ([window] is not defined) the constructor of a
    client with a configured host that parses throws a ReferenceError,
    unless [skipBackgroundCredentialsCheck] is set: then it succeeds, with
    credentialed access off and no [onload] hook. *)
Theorem constructor_outside_a_browser
  (P : Platform) (settings : Settings) (w : World) (s h : string)
  (Hwindow : window w = None)
  (Hhost : configuredHost settings = JStr s) (Hs : s <> "")
  (Hurl : URL_host P ("https://" ++ strip_scheme s) = Some h) :
  (truthy (skipBackgroundCredentialsCheck settings) = false ->
   fst (constructor P settings w) = Throw ReferenceError) /\
  (truthy (skipBackgroundCredentialsCheck settings) = true ->
   fst (constructor P settings w) = Ok tt /\
   enableCredentials (snd (constructor P settings w)) = false /\
   onloadHook (snd (constructor P settings w)) = onloadHook w /\
   hostUrl (snd (constructor P settings w)) = ("https://" ++ strip_scheme s)%string).
Proof.
  unfold constructor, bind, modify. rewrite Hhost. cbn [truthy].
  destruct (String.eqb_spec s "") as [E|_]; [contradiction|]. cbn [negb].
  unfold getMatchingDomainInfo. rewrite Hurl.
  unfold isLocalHost. cbn [window set_lastSessionCheck set_hostUrl set_applicationId].
  rewrite Hwindow. cbn [fst snd].
  split; intros Hskip; rewrite Hskip; cbn [negb].
  - unfold getLocation. cbn. now rewrite Hwindow.
  - repeat split.
Qed.

Lemma constructor_outside_a_browser_witness :
  fst (constructor samplePlatform (settingsWith (JStr "login.example.com") JUndefined)
         serverWorld) = Throw ReferenceError /\
  fst (constructor samplePlatform (settingsWith (JStr "login.example.com") (JBool true))
         serverWorld) = Ok tt.
Proof.
  split.
  - refine (proj1 (constructor_outside_a_browser samplePlatform
              (settingsWith (JStr "login.example.com") JUndefined) serverWorld
              "login.example.com" "login.example.com" eq_refl eq_refl _ eq_refl) eq_refl).
    discriminate.
  - refine (proj1 (proj2 (constructor_outside_a_browser samplePlatform
              (settingsWith (JStr "login.example.com") (JBool true)) serverWorld
              "login.example.com" "login.example.com" eq_refl eq_refl _ eq_refl) eq_refl)).
    discriminate.
Defined.

(** X6.  The scheme the host is configured with does not matter: a host
    [h] given bare, as [http://h] or as [https://h] builds the same client,
    whose [hostUrl] is [https://h]. *)
Theorem constructor_ignores_the_scheme
  (P : Platform) (bare spelled : Settings) (w : World) (h : string)
  (Hbare : configuredHost bare = JStr h)
  (Hh : strip_scheme h = h) (Hslash : drop_slashes h = h) (Hne : h <> "")
  (Hspelled : configuredHost spelled = JStr ("http://" ++ h)
              \/ configuredHost spelled = JStr ("https://" ++ h))
  (Hid : settingsApplicationId spelled = settingsApplicationId bare)
  (Hskip : skipBackgroundCredentialsCheck spelled = skipBackgroundCredentialsCheck bare) :
  constructor P spelled w = constructor P bare w /\
  hostUrl (snd (constructor P bare w)) = ("https://" ++ h)%string.
Proof.
  split.
  - unfold constructor. rewrite Hid, Hskip, Hbare.
    cbn [truthy]. destruct (String.eqb_spec h "") as [E'|_]; [contradiction|].
    destruct Hspelled as [E|E]; rewrite E.
    + rewrite strip_scheme_http, Hslash, Hh. reflexivity.
    + rewrite strip_scheme_https, Hslash, Hh. reflexivity.
  - rewrite (constructor_sets_hostUrl P bare w h Hbare Hne). now rewrite Hh.
Qed.

Lemma constructor_ignores_the_scheme_witness :
  constructor samplePlatform (settingsWith (JStr "http://login.example.com") JUndefined)
    (sampleWorld [] NoItem [])
  = constructor samplePlatform (settingsWith (JStr "login.example.com") JUndefined)
      (sampleWorld [] NoItem []).
Proof.
  refine (proj1 (constructor_ignores_the_scheme samplePlatform
            (settingsWith (JStr "login.example.com") JUndefined)
            (settingsWith (JStr "http://login.example.com") JUndefined)
            (sampleWorld [] NoItem []) "login.example.com"
            eq_refl eq_refl eq_refl _ (or_introl eq_refl) eq_refl eq_refl)).
  discriminate.
Defined.

(** ** The sequence promise as a cache *)

(** A check made while a sequence promise exists, the clock moving by less
    than 5 ms between its two readings. *)
Lemma userSessionExists_debounced (bg : bool) (w : World) (p : nat) :
  userSessionSequencePromise w = Some p -> (hd 0 (ticks w) < 5)%Z ->
  exists w', userSessionExists bg w = (Ok p, w') /\
    sessionRuns w' = sessionRuns w /\ userSessionSequencePromise w' = Some p /\
    requests w' = requests w /\ responses w' = responses w /\
    tokenStore w' = tokenStore w /\ cookies w' = cookies w /\
    userSessionResolved w' = userSessionResolved w /\
    localStorage w' = localStorage w /\ enableCredentials w' = enableCredentials w /\
    navigations w' = navigations w /\ window w' = window w.
Proof.
  intros Hseq Htick.
  unfold userSessionExists, bind, Date_now, modify, gets. cbn. rewrite Hseq. cbn.
  replace (now w + hd 0%Z (ticks w) - now w)%Z with (hd 0%Z (ticks w)) by lia.
  destruct (Z.ltb_spec (hd 0%Z (ticks w)) 5) as [_|H']; [|lia].
  eexists. split; [reflexivity|]. cbn. repeat split. exact Hseq.
Qed.

(** Awaiting a promise whose run and all earlier runs have settled gives the
    recorded outcome and changes nothing. *)
Lemma awaitRun_settled (P : Platform) (w : World) (p : nat) (r : SessionRun) (o : Outcome bool) :
  nth_error (sessionRuns w) p = Some r -> runOutcome r = Some o ->
  settledUpTo p (sessionRuns w) ->
  awaitRun P p w = (o, w).
Proof.
  intros Hnth Ho Hall. unfold awaitRun.
  rewrite (settleRuns_settled P (sessionRuns w) 0 p w).
  - rewrite Hnth. destruct r as [bg out]. cbn in Ho. now rewrite Ho.
  - intros j r' Hj Hle. apply (Hall j r'); [lia|exact Hj].
Qed.

(** X7.  Once the promise of the sequence has settled, a later session
    check during which the clock moves by less than 5 ms between its two
    readings gives the recorded outcome again: no continuation runs, nothing
    is sent, and nothing the check would look at (token store, cookies,
    pending record) is read or written, whatever has become of it since. *)
Theorem settled_check_is_answered_from_the_sequence
  (P : Platform) (w : World) (p : nat) (r : SessionRun) (o : Outcome bool)
  (Hseq : userSessionSequencePromise w = Some p)
  (Hrun : nth_error (sessionRuns w) p = Some r)
  (Houtcome : runOutcome r = Some o)
  (Hsettled : settledUpTo p (sessionRuns w))
  (Htick : (hd 0 (ticks w) < 5)%Z) :
  fst (checkSession P w) = o /\
  requests (snd (checkSession P w)) = requests w /\
  sessionRuns (snd (checkSession P w)) = sessionRuns w /\
  tokenStore (snd (checkSession P w)) = tokenStore w /\
  cookies (snd (checkSession P w)) = cookies w /\
  localStorage (snd (checkSession P w)) = localStorage w /\
  userSessionResolved (snd (checkSession P w)) = userSessionResolved w.
Proof.
  destruct (userSessionExists_debounced false w p Hseq Htick)
    as (w' & Hcall & Hruns & _ & Hrq & _ & Hts & Hck & Hres & Hls & _).
  unfold checkSession, bind. rewrite Hcall.
  rewrite (awaitRun_settled P w' p r o); try (rewrite Hruns; assumption); try assumption.
  cbn [fst snd]. repeat split; assumption.
Qed.

(** The first check of the sample page found no session; an identity token
    is stored afterwards; the next check still answers [false]. *)
Lemma settled_check_is_answered_from_the_sequence_witness :
  fst (getUserIdentity samplePlatform checkedThenSignedIn)
  = Ok (JObj [("sub", JStr "u1"); ("exp", JNum 2000); ("userId", JStr "u1")]) /\
  fst (checkSession samplePlatform checkedThenSignedIn) = Ok false.
Proof.
  split; [reflexivity|].
  refine (proj1 (settled_check_is_answered_from_the_sequence samplePlatform
            checkedThenSignedIn 0 {| runBackground := false; runOutcome := Some (Ok false) |}
            (Ok false) eq_refl eq_refl eq_refl _ _)).
  - intros [|j] r' Hj Hnth; cbn in Hnth.
    + now injection Hnth as <-.
    + destruct j; discriminate.
  - cbn. lia.
Defined.

(** ** The continuation: the stored identity and the silent refresh *)

Lemma continuation_reaches_stored_identity
  (P : Platform) (bg : bool) (w : World) (loc : Location) :
  reachesStoredIdentity w loc ->
  userSessionContinuation P bg w = existingSession P bg (snd (readPendingRecord w)).
Proof.
  intros [(Hw & Hland & nonce & Hnonce & Hcode) Himplicit].
  destruct (readPendingRecord_eq w) as (Hr & _).
  pose proof (isLocalHost_readPendingRecord w) as Hl.
  unfold userSessionContinuation, bind, getLocation. rewrite Hw.
  destruct (readPendingRecord w) as [o w1] eqn:E. cbn [fst snd] in *. subst o.
  fold (oauthLoginLanding (search loc)). rewrite Hland.
  unfold lift. rewrite Hnonce, Hcode. unfold gets. rewrite Hl.
  destruct (isLocalHost w); [|reflexivity].
  cbn [andb] in Himplicit. unfold implicitFlow.
  fold (implicitLanding (search loc)). rewrite Himplicit. reflexivity.
Qed.

Lemma identityOf_readPendingRecord (P : Platform) (w : World) :
  identityOf P (snd (readPendingRecord w)) = identityOf P w.
Proof.
  unfold identityOf. apply getUserIdentity_heldToken, heldToken_readPendingRecord.
Qed.

Lemma existingSession_identity (P : Platform) (bg : bool) (w : World) (v : JsVal) :
  identityOf P w = Ok v -> truthy v = true ->
  existingSession P bg w = (Ok true, set_userSessionResolved true w).
Proof.
  intros Hid Ht. unfold existingSession, bind.
  rewrite (getUserIdentity_eq P w). fold (identityOf P w). rewrite Hid, Ht. reflexivity.
Qed.

Lemma existingSession_quiet (P : Platform) (bg : bool) (w : World) (v : JsVal) :
  identityOf P w = Ok v -> truthy v = false ->
  orb bg (isLocalHost w) = true ->
  existingSession P bg w = (Ok false, w).
Proof.
  intros Hid Ht Hq. unfold existingSession, bind.
  rewrite (getUserIdentity_eq P w). fold (identityOf P w). rewrite Hid, Ht.
  unfold gets.
  destruct bg, (isLocalHost w); try discriminate; reflexivity.
Qed.

(** X8.  A pass that reaches the stored identity and finds one reports a
    session, resolves the session signal and does nothing else: whatever the
    trigger, no request is sent, and the token store and the cookies are
    left as they were, also when the URL carries tokens (off loopback they
    are never consumed). *)
Theorem stored_identity_needs_no_network
  (P : Platform) (bg : bool) (w : World) (loc : Location) (identity : JsVal)
  (Hpass : reachesStoredIdentity w loc)
  (Hidentity : identityOf P w = Ok identity)
  (Htruthy : truthy identity = true) :
  userSessionContinuation P bg w
  = (Ok true, set_userSessionResolved true (snd (readPendingRecord w))) /\
  requests (snd (userSessionContinuation P bg w)) = requests w /\
  tokenStore (snd (userSessionContinuation P bg w)) = tokenStore w /\
  cookies (snd (userSessionContinuation P bg w)) = cookies w /\
  userSessionResolved (snd (userSessionContinuation P bg w)) = true.
Proof.
  rewrite (continuation_reaches_stored_identity P bg w loc Hpass).
  rewrite (existingSession_identity P bg _ identity);
    [|rewrite identityOf_readPendingRecord; exact Hidentity|exact Htruthy].
  destruct (readPendingRecord_eq w) as (_ & _ & Hts & _ & _ & Hck & Hrq & _).
  cbn [snd]. repeat split; assumption.
Qed.

(** A page that is not loopback, with a stored identity and tokens in its
    query: the tokens of the URL are not taken. *)
Lemma stored_identity_needs_no_network_witness :
  fst (userSessionContinuation samplePlatform false staleTokensWorld) = Ok true /\
  cookies (snd (userSessionContinuation samplePlatform false staleTokensWorld)) = [] /\
  requests (snd (userSessionContinuation samplePlatform false staleTokensWorld)) = [].
Proof.
  pose proof (stored_identity_needs_no_network samplePlatform false staleTokensWorld
    (appPage [("nonce", "N9"); ("access_token", "URL-AT"); ("id_token", "URL-ID")])
    (JObj [("sub", JStr "u1"); ("exp", JNum 2000); ("userId", JStr "u1")])) as H.
  destruct H as (H1 & H2 & _ & H4 & _).
  - split; [|reflexivity]. split; [reflexivity|]. split; [reflexivity|].
    exists JUndefined. split; reflexivity.
  - reflexivity.
  - reflexivity.
  - split; [now rewrite H1|]. split; [exact H4|exact H2].
Defined.

(** X9.  With no stored identity, a pass triggered in the background, or
    made on a loopback host, reports no session without asking the provider:
    no request is sent and nothing is written but the pending record (read
    and deleted) and the flag. *)
Theorem background_pass_never_calls_the_provider
  (P : Platform) (bg : bool) (w : World) (loc : Location) (identity : JsVal)
  (Hpass : reachesStoredIdentity w loc)
  (Hidentity : identityOf P w = Ok identity)
  (Hfalsy : truthy identity = false)
  (Hquiet : orb bg (isLocalHost w) = true) :
  userSessionContinuation P bg w = (Ok false, snd (readPendingRecord w)) /\
  requests (snd (userSessionContinuation P bg w)) = requests w /\
  tokenStore (snd (userSessionContinuation P bg w)) = tokenStore w /\
  cookies (snd (userSessionContinuation P bg w)) = cookies w /\
  userSessionResolved (snd (userSessionContinuation P bg w)) = userSessionResolved w.
Proof.
  rewrite (continuation_reaches_stored_identity P bg w loc Hpass).
  rewrite (existingSession_quiet P bg _ identity);
    [|rewrite identityOf_readPendingRecord; exact Hidentity|exact Hfalsy
     |rewrite isLocalHost_readPendingRecord; exact Hquiet].
  destruct (readPendingRecord_eq w) as (_ & _ & Hts & _ & _ & Hck & Hrq & _ & Hres).
  cbn [snd]. repeat split; assumption.
Qed.

(** The [onload] check of the sample page, the provider being ready to
    answer: it is not asked. *)
Lemma background_pass_never_calls_the_provider_witness :
  userSessionContinuation samplePlatform true (sampleWorld [] NoItem [authenticationAnswer])
  = (Ok false, snd (readPendingRecord (sampleWorld [] NoItem [authenticationAnswer]))) /\
  requests (snd (userSessionContinuation samplePlatform true
                   (sampleWorld [] NoItem [authenticationAnswer]))) = [].
Proof.
  pose proof (background_pass_never_calls_the_provider samplePlatform true
    (sampleWorld [] NoItem [authenticationAnswer]) (appPage []) JNull) as H.
  destruct H as (H1 & H2 & _).
  - split; [|reflexivity]. split; [reflexivity|]. split; [reflexivity|].
    exists JUndefined. split; reflexivity.
  - reflexivity.
  - reflexivity.
  - reflexivity.
  - split; [exact H1|exact H2].
Defined.

(** ** Storing the tokens of an answer *)

Lemma find_cookie_store (c : Cookie) (jar : list Cookie) :
  find_cookie (store_cookie c jar) (cookieName c) = Some c.
Proof.
  induction jar as [|c' jar IH]; cbn.
  - now rewrite String.eqb_refl.
  - destruct (String.eqb_spec (cookieName c') (cookieName c)) as [E|E]; cbn.
    + now rewrite String.eqb_refl.
    + destruct (String.eqb_spec (cookieName c') (cookieName c)); [contradiction|exact IH].
Qed.

(** Breaks the outcome of a computation made of binds into its cases. *)
Ltac run_cases :=
  repeat match goal with
         | |- context [match getProp ?v ?k with _ => _ end] => destruct (getProp v k) eqn:?
         | |- context [match decode ?P ?v with _ => _ end] => destruct (decode P v) eqn:?
         | |- context [if truthy ?v then _ else _] => destruct (truthy v) eqn:?
         | |- context [match responses ?w with _ => _ end] =>
           destruct (responses w) as [|[?data|?err] ?rest] eqn:?
         end.

Lemma find_cookie_remove (name : string) (jar : list Cookie) :
  find_cookie (remove_cookie name jar) name = None.
Proof.
  induction jar as [|c jar IH]; [reflexivity|].
  cbn. destruct (String.eqb_spec (cookieName c) name) as [E|E]; cbn; [exact IH|].
  destruct (String.eqb_spec (cookieName c) name); [contradiction|exact IH].
Qed.

(** The date cut to the second is still ahead of a clock that has moved on
    by no more than the lifetime less a second. *)
Lemma wholeSecond_ahead (t k tick : Z) :
  (tick <= (k - 1) * 1000)%Z -> (wholeSecond (t + k * 1000) <=? t + tick)%Z = false.
Proof.
  intros H. unfold wholeSecond.
  pose proof (Z.div_mod (t + k * 1000) 1000 ltac:(lia)) as Hd.
  pose proof (Z.mod_pos_bound (t + k * 1000) 1000 ltac:(lia)) as Hm.
  destruct (Z.leb_spec (1000 * ((t + k * 1000) / 1000)) (t + tick)); [lia|reflexivity].
Qed.

(** Line 187 (and 232): the expiry is computed without a writing, and a
    failure of it leaves the clock unread. *)
Lemma expiry_step (P : Platform) (expires_in idToken : JsVal) (w : World) :
  let r := (if truthy expires_in then lifetimeExpiry P expires_in
            else claimExpiry P idToken) w in
  tokenStore (snd r) = tokenStore w /\ cookies (snd r) = cookies w /\
  (forall e, fst r = Throw e -> snd r = w).
Proof.
  unfold lifetimeExpiry, claimExpiry, bind, lift, Date_now, ret.
  destruct (truthy expires_in); cbn -[new_Date].
  - repeat split. discriminate.
  - destruct (getProp idToken "exp"); cbn -[new_Date]; repeat split.
Qed.

(** X10.  The tokens of an answer are stored together or not at all.  When
    lines 186-189 (and 231-234) fail, neither the cookie jar nor the token
    store nor the clock has been touched.  When they succeed, the token
    store holds the [id_token] of the answer with the expiry computed, and
    the jar follows that expiry: the [authorization] cookie holds the access
    token (the empty text if the answer has none) and expires at the expiry
    cut to the whole second; when that second is not ahead of the clock, no
    [authorization] cookie is left in the jar, although the identity token
    is stored; for an expiry that is an Invalid Date the cookie is kept
    without a date. *)
Theorem tokens_are_stored_together (P : Platform) (data : JsVal) (w : World) :
  let r := storeSessionTokens P data w in
  (forall e, fst r = Throw e ->
     tokenStore (snd r) = tokenStore w /\ cookies (snd r) = cookies w /\
     now (snd r) = now w) /\
  (fst r = Ok tt ->
     exists id_token access_token expiry,
       getProp data "id_token" = Ok id_token /\
       getProp data "access_token" = Ok access_token /\
       tokenStore (snd r) = Some {| entryToken := id_token; entryExpiry := expiry |} /\
       find_cookie (cookies (snd r)) "authorization"
       = match expiry with
         | ValidDate ms =>
           if (wholeSecond ms <=? now (snd r))%Z then None
           else Some (authorizationCookie P access_token (ValidDate (wholeSecond ms)))
         | InvalidDate => Some (authorizationCookie P access_token InvalidDate)
         end).
Proof.
  intros r. subst r.
  destruct (storeSessionTokens P data w) as [o w'] eqn:E. cbn [fst snd]. revert E.
  unfold storeSessionTokens, bind at 1. unfold lift at 1.
  destruct (getProp data "id_token") as [id_token|e0] eqn:Hid;
    [|intros [= <- <-]; split; [intros e _; repeat split|discriminate]].
  unfold bind at 1. unfold lift at 1.
  destruct (decode_never_raises P id_token) as [idToken ->].
  unfold bind at 1. unfold lift at 1.
  destruct (getProp data "expires_in") as [expires_in|e0] eqn:Hexp;
    [|intros [= <- <-]; split; [intros e _; repeat split|discriminate]].
  unfold bind at 1.
  destruct (expiry_step P expires_in idToken w) as (Hts & Hck & Hfail).
  destruct ((if truthy expires_in then lifetimeExpiry P expires_in
             else claimExpiry P idToken) w) as [[expiry|e0] w1] eqn:Hexpiry;
    cbn [fst snd] in Hts, Hck, Hfail;
    [|intros [= <- <-]; split;
      [intros e _; rewrite (Hfail e0 eq_refl); repeat split|discriminate]].
  unfold bind at 1. unfold lift at 1.
  destruct (getProp data "access_token") as [access_token|e0] eqn:Hat;
    [|destruct data; discriminate].
  unfold bind, document_cookie_set, TokenStore_set, modify.
  intros [= <- <-].
  cbn [fst snd tokenStore cookies now set_tokenStore set_cookies].
  split; [discriminate|]. intros _.
  exists id_token, access_token, expiry.
  split; [reflexivity|]. split; [reflexivity|]. split; [reflexivity|].
  unfold authorizationCookie. destruct expiry as [ms|].
  - destruct (wholeSecond ms <=? now w1)%Z.
    + apply find_cookie_remove.
    + exact (find_cookie_store
               {| cookieName := "authorization"; cookieValue := _; cookieExpires := _ |} _).
  - exact (find_cookie_store
             {| cookieName := "authorization"; cookieValue := _; cookieExpires := _ |} _).
Qed.

(** An answer with tokens and a lifetime of an hour, received at 1234 ms:
    the token expires at 3601234 ms and the cookie at 3601000 ms.  An answer
    without tokens stores nothing. *)
Lemma tokens_are_stored_together_witness :
  tokenStore (snd (storeSessionTokens samplePlatform sampleTokens oddClockWorld))
  = Some {| entryToken := JStr "header.claims-u1.sig"; entryExpiry := ValidDate 3601234 |} /\
  find_cookie (cookies (snd (storeSessionTokens samplePlatform sampleTokens oddClockWorld)))
              "authorization"
  = Some {| cookieName := "authorization"; cookieValue := "AT";
            cookieExpires := ValidDate 3601000 |} /\
  tokenStore (snd (storeSessionTokens samplePlatform (JObj []) oddClockWorld)) = None.
Proof.
  destruct (proj2 (tokens_are_stored_together samplePlatform sampleTokens oddClockWorld)
              eq_refl) as (id_token & access_token & expiry & Hid & Hat & Hts & Hck).
  destruct (proj1 (tokens_are_stored_together samplePlatform (JObj []) oddClockWorld)
              TypeError eq_refl) as (Hnone & _).
  injection Hid as <-. injection Hat as <-.
  split; [reflexivity|]. split; [|exact Hnone].
  rewrite Hck. vm_compute in Hts. injection Hts as <-. reflexivity.
Defined.

(** A silent refresh that fails has written neither token nor cookie, and
    has not read the clock. *)
Lemma silentRefresh_failure_writes_nothing (P : Platform) (w : World) (e : JsError) :
  fst (silentRefresh P w) = Throw e ->
  tokenStore (snd (silentRefresh P w)) = tokenStore w /\
  cookies (snd (silentRefresh P w)) = cookies w /\
  now (snd (silentRefresh P w)) = now w /\
  userSessionResolved (snd (silentRefresh P w)) = userSessionResolved w /\
  isLocalHost (snd (silentRefresh P w)) = isLocalHost w /\
  requests (snd (silentRefresh P w)) = requests w ++ [sessionRequest (enableCredentials w)].
Proof.
  unfold silentRefresh, storeSessionTokens, bind, lift, gets, httpClient,
    lifetimeExpiry, claimExpiry, bind, lift, Date_now, ret, document_cookie_set,
    TokenStore_set, modify.
  destruct (responses w) as [|[data|err] rest].
  - cbn. intros _. repeat split.
  - destruct data; cbn [getProp]; run_cases; cbn; intros H; try discriminate;
      repeat split.
  - cbn. intros _. repeat split.
Qed.

(** X11.  A silent refresh that fails, because the transport rejects, the
    provider refuses or the answer cannot be used, is not an error of the
    continuation: the pass reports no session, and the token store, the
    cookies and the session signal are as they were; the one request sent
    is the refresh. *)
Theorem failed_refresh_is_swallowed
  (P : Platform) (w : World) (loc : Location) (identity : JsVal) (e : JsError)
  (Hpass : reachesStoredIdentity w loc)
  (Hlocal : isLocalHost w = false)
  (Hidentity : identityOf P w = Ok identity)
  (Hfalsy : truthy identity = false)
  (Hfails : fst (silentRefresh P (snd (readPendingRecord w))) = Throw e) :
  fst (userSessionContinuation P false w) = Ok false /\
  tokenStore (snd (userSessionContinuation P false w)) = tokenStore w /\
  cookies (snd (userSessionContinuation P false w)) = cookies w /\
  userSessionResolved (snd (userSessionContinuation P false w)) = userSessionResolved w /\
  requests (snd (userSessionContinuation P false w))
  = requests w ++ [sessionRequest (enableCredentials (snd (readPendingRecord w)))].
Proof.
  rewrite (continuation_reaches_stored_identity P false w loc Hpass).
  set (w1 := snd (readPendingRecord w)) in *.
  destruct (silentRefresh_failure_writes_nothing P w1 e Hfails)
    as (Hts & Hck & Hnow & Hres & _ & Hrq).
  assert (Hid1 : identityOf P w1 = Ok identity)
    by (unfold w1; rewrite identityOf_readPendingRecord; exact Hidentity).
  assert (Hid2 : identityOf P (snd (silentRefresh P w1)) = Ok identity).
  { rewrite <- Hid1. unfold identityOf. apply getUserIdentity_heldToken.
    unfold heldToken. now rewrite Hts, Hnow. }
  assert (Hl1 : isLocalHost w1 = false)
    by (unfold w1; rewrite isLocalHost_readPendingRecord; exact Hlocal).
  assert (Hex : existingSession P false w1 = (Ok false, snd (silentRefresh P w1))).
  { unfold existingSession, bind.
    rewrite (getUserIdentity_eq P w1). fold (identityOf P w1). rewrite Hid1, Hfalsy.
    unfold gets. rewrite Hl1. cbn [negb andb]. unfold try_catch.
    destruct (silentRefresh P w1) as [[[]|e'] w2] eqn:E; cbn [fst snd] in *;
      [discriminate|].
    unfold ret. rewrite (getUserIdentity_eq P w2). fold (identityOf P w2).
    now rewrite Hid2, Hfalsy. }
  rewrite Hex. cbn [fst snd].
  destruct (readPendingRecord_eq w) as (_ & _ & Hts' & _ & _ & Hck' & Hrq' & _ & Hres').
  fold w1 in Hts', Hck', Hrq', Hres'.
  repeat split; congruence.
Qed.

(** The provider refuses the refresh of the sample page with a 401. *)
Lemma failed_refresh_is_swallowed_witness :
  fst (userSessionContinuation samplePlatform false
         (sampleWorld [] NoItem [HttpFail (JObj [("status", JNum 401)])])) = Ok false /\
  tokenStore (snd (userSessionContinuation samplePlatform false
         (sampleWorld [] NoItem [HttpFail (JObj [("status", JNum 401)])]))) = None.
Proof.
  pose proof (failed_refresh_is_swallowed samplePlatform
    (sampleWorld [] NoItem [HttpFail (JObj [("status", JNum 401)])]) (appPage []) JNull
    (Rejection (JObj [("status", JNum 401)]))) as H.
  destruct H as (H1 & H2 & _).
  - split; [|reflexivity]. split; [reflexivity|]. split; [reflexivity|].
    exists JUndefined. split; reflexivity.
  - reflexivity.
  - reflexivity.
  - reflexivity.
  - reflexivity.
  - split; [exact H1|exact H2].
Defined.

(** ** The continuation: the code exchange *)

Lemma storeSessionTokens_lifetime
  (P : Platform) (data id_token expires_in access_token : JsVal) (k : Z) (w : World) :
  getProp data "id_token" = Ok id_token ->
  getProp data "expires_in" = Ok expires_in -> truthy expires_in = true ->
  ToNumber P expires_in = Some k ->
  getProp data "access_token" = Ok access_token ->
  lifetimeHolds w k ->
  storeSessionTokens P data w
  = (Ok tt,
     set_tokenStore (Some {| entryToken := id_token;
                             entryExpiry := ValidDate (now w + k * 1000)%Z |})
       (set_cookies
          (store_cookie
             (authorizationCookie P access_token
                (ValidDate (wholeSecond (now w + k * 1000)%Z))) (cookies w))
          (set_clock (now w + hd 0%Z (ticks w))%Z (tl (ticks w)) w))).
Proof.
  intros Hit Hei Ht Hk Hat [Hrange Hclock].
  unfold storeSessionTokens, bind, lift. rewrite Hit.
  destruct (decode_never_raises P id_token) as [idToken ->].
  rewrite Hei, Ht. unfold lifetimeExpiry, bind, Date_now, ret. rewrite Hk, Hat.
  cbn [option_map]. rewrite (new_Date_in_range _ Hrange).
  unfold document_cookie_set, TokenStore_set, modify.
  cbn [now cookies set_clock]. rewrite (wholeSecond_ahead _ _ _ Hclock).
  reflexivity.
Qed.

(** Up to the request: the record is consumed, the URL stripped and the
    request sent. *)
Lemma continuation_code_exchange
  (P : Platform) (bg : bool) (w : World) (loc : Location)
  (fields : list (string * JsVal)) (n c : string) :
  codeLanding w loc fields n c ->
  let w1 := set_enableCredentials (negb (is_false (fieldOf fields "enableCredentials")))
              (set_localStorage (StorageSlot NoItem) w) in
  let w2 := set_window (Some (with_search (strippedQuery (search loc)) loc)) w1 in
  let sent := requests w ++ [tokenRequest w fields n c] in
  userSessionContinuation P bg w
  = match responses w with
    | [] => (Throw (Rejection (JObj [])), set_transport sent [] w2)
    | HttpFail error :: rest => (Throw (Rejection error), set_transport sent rest w2)
    | HttpOk data :: rest =>
      (storeSessionTokens P data ;; userSessionResolver ;; ret true)
        (set_transport sent rest w2)
    end.
Proof.
  intros (Hw & Hland & Hrecord & Hnonce & Hn & Hurl & Hcode & Hc) w1 w2 sent.
  subst w1 w2 sent.
  unfold userSessionContinuation, bind at 1. unfold getLocation at 1. rewrite Hw.
  unfold bind at 1. unfold readPendingRecord. rewrite Hrecord. cbn [getProp].
  fold (fieldOf fields "enableCredentials").
  fold (oauthLoginLanding (search loc)). rewrite Hland.
  unfold bind at 1. unfold lift at 1. rewrite Hnonce, Hcode.
  cbn [truthy of_param]. 
  destruct (String.eqb_spec n "") as [E|_]; [contradiction|].
  destruct (String.eqb_spec c "") as [E|_]; [contradiction|].
  cbn [negb andb]. unfold codeExchange. rewrite Hurl. cbn [strict_eq_param].
  rewrite String.eqb_refl. cbn [negb].
  unfold bind at 1. unfold history_replaceState, modify. cbn [window set_window
    set_enableCredentials set_localStorage]. rewrite Hw. cbn [option_map].
  fold (strippedQuery (search loc)).
  unfold bind at 1. unfold gets at 1.
  unfold bind at 1. unfold lift at 1. cbn [getProp].
  unfold bind at 1. unfold gets at 1.
  unfold bind at 1. unfold lift at 1.
  unfold bind at 1. unfold gets at 1.
  unfold bind at 1. unfold httpClient.
  cbn [responses requests cookies applicationId enableCredentials set_window
       set_enableCredentials set_localStorage is_str of_param ToString].
  unfold tokenRequest, fieldOf. rewrite Hcode. cbn [is_str of_param].
  destruct (responses w) as [|[data|error] rest]; reflexivity.
Qed.

Lemma lookup_remove_key {A : Type} (k : string) (l : list (string * A)) :
  lookup k (remove_key k l) = None.
Proof.
  induction l as [|[k' v] l IH]; cbn; [reflexivity|].
  destruct (String.eqb_spec k' k) as [E|E]; [exact IH|].
  cbn. destruct (String.eqb_spec k' k); [contradiction|exact IH].
Qed.

Lemma lookup_remove_other {A : Type} (k k0 : string) (l : list (string * A)) :
  k0 <> k -> lookup k0 (remove_key k l) = lookup k0 l.
Proof.
  intros Hk. induction l as [|[k' v] l IH]; cbn; [reflexivity|].
  destruct (String.eqb_spec k' k) as [E|E].
  - subst k'. destruct (String.eqb_spec k k0); [congruence|exact IH].
  - cbn. destruct (String.eqb_spec k' k0); [reflexivity|exact IH].
Qed.

Lemma strippedQuery_lookup (q : list (string * string)) :
  lookup "code" (strippedQuery q) = None /\
  lookup "nonce" (strippedQuery q) = None /\
  lookup "iss" (strippedQuery q) = None /\
  (forall k, k <> "code" -> k <> "nonce" -> k <> "iss" ->
     lookup k (strippedQuery q) = lookup k q).
Proof.
  unfold strippedQuery. repeat split.
  - apply lookup_remove_key.
  - rewrite lookup_remove_other by discriminate.
    rewrite lookup_remove_other by discriminate. apply lookup_remove_key.
  - rewrite lookup_remove_other by discriminate. apply lookup_remove_key.
  - intros k H1 H2 H3. now rewrite !lookup_remove_other by assumption.
Qed.

(** X12.  A page that lands with a code for the pending record, the
    provider answering the exchange with tokens and a lifetime of [k]
    seconds that ends within the range of Date and is not used up while the
    answer is stored: the continuation sends one request, to
    [/authentication/{nonce}/tokens] with the code and the verifier and
    redirect URL of the record, stores the identity token in the token store,
    expiring [k] seconds after now, and the access token in the
    [authorization] cookie, expiring at that date cut to the whole second,
    resolves the session signal and reports a session.  The record is
    deleted and [code], [nonce] and [iss] are gone from the visible URL, the
    other parameters staying. *)
Theorem code_exchange_establishes_the_session
  (P : Platform) (bg : bool) (w : World) (loc : Location)
  (fields : list (string * JsVal)) (n c : string)
  (data id_token expires_in access_token : JsVal) (k : Z) (rest : list HttpResult)
  (Hlanding : codeLanding w loc fields n c)
  (Hanswer : responses w = HttpOk data :: rest)
  (Hid : getProp data "id_token" = Ok id_token)
  (Hexpires : getProp data "expires_in" = Ok expires_in)
  (Hlifetime : truthy expires_in = true)
  (Hseconds : ToNumber P expires_in = Some k)
  (Hholds : lifetimeHolds w k)
  (Haccess : getProp data "access_token" = Ok access_token) :
  let w' := snd (userSessionContinuation P bg w) in
  fst (userSessionContinuation P bg w) = Ok true /\
  requests w' = requests w ++ [tokenRequest w fields n c] /\
  tokenStore w' = Some {| entryToken := id_token;
                          entryExpiry := ValidDate (now w + k * 1000)%Z |} /\
  find_cookie (cookies w') "authorization"
  = Some {| cookieName := "authorization";
            cookieValue := ToString P (js_or access_token (JStr ""));
            cookieExpires := ValidDate (wholeSecond (now w + k * 1000)%Z) |} /\
  userSessionResolved w' = true /\
  localStorage w' = StorageSlot NoItem /\
  (exists loc', window w' = Some loc' /\
     lookup "code" (search loc') = None /\ lookup "nonce" (search loc') = None /\
     lookup "iss" (search loc') = None /\
     (forall k, k <> "code" -> k <> "nonce" -> k <> "iss" ->
        lookup k (search loc') = lookup k (search loc))).
Proof.
  intros w'. subst w'.
  rewrite (continuation_code_exchange P bg w loc fields n c Hlanding), Hanswer.
  unfold bind.
  match goal with
  | |- context [storeSessionTokens P data ?w0] =>
    rewrite (storeSessionTokens_lifetime P data id_token expires_in access_token k w0
               Hid Hexpires Hlifetime Hseconds Haccess Hholds)
  end.
  unfold userSessionResolver, modify, ret, authorizationCookie. cbn [fst snd].
  cbn [requests tokenStore cookies userSessionResolved localStorage window now
       set_transport set_window set_enableCredentials set_localStorage set_tokenStore
       set_cookies set_clock set_userSessionResolved].
  split; [reflexivity|]. split; [reflexivity|]. split; [reflexivity|].
  split; [exact (find_cookie_store
                   {| cookieName := "authorization"; cookieValue := _; cookieExpires := _ |} _)|].
  split; [reflexivity|]. split; [reflexivity|].
  eexists. split; [reflexivity|]. cbn [search with_search].
  apply strippedQuery_lookup.
Qed.

(** The landing of the sample page at 1234 ms: the token is stored until
    3601234 ms, the cookie until 3601000 ms. *)
Lemma code_exchange_establishes_the_session_witness :
  fst (userSessionContinuation samplePlatform false
         (set_clock 1234%Z [] (landingWorld [HttpOk sampleTokens])))
  = Ok true /\
  tokenStore (snd (userSessionContinuation samplePlatform false
                     (set_clock 1234%Z [] (landingWorld [HttpOk sampleTokens]))))
  = Some {| entryToken := JStr "header.claims-u1.sig"; entryExpiry := ValidDate 3601234 |} /\
  find_cookie (cookies (snd (userSessionContinuation samplePlatform false
                               (set_clock 1234%Z [] (landingWorld [HttpOk sampleTokens])))))
              "authorization"
  = Some {| cookieName := "authorization"; cookieValue := "AT";
            cookieExpires := ValidDate 3601000 |} /\
  map reqPath (requests (snd (userSessionContinuation samplePlatform false
                                (set_clock 1234%Z [] (landingWorld [HttpOk sampleTokens])))))
  = ["/authentication/N1/tokens"].
Proof.
  pose proof (code_exchange_establishes_the_session samplePlatform false
    (set_clock 1234%Z [] (landingWorld [HttpOk sampleTokens]))
    (appPage [("code", "abc"); ("nonce", "N1"); ("iss", "https://login.example.com")])
    sampleRecord "N1" "abc" sampleTokens (JStr "header.claims-u1.sig") (JNum 3600)
    (JStr "AT") 3600%Z []) as H.
  destruct H as (H1 & H2 & H3 & H4 & _); try reflexivity.
  - repeat split; discriminate.
  - split; [unfold inDateRange, maxDate|]; cbn; lia.
  - split; [exact H1|]. split; [exact H3|]. split; [exact H4|]. now rewrite H2.
Defined.

(** X13.  When the exchange fails (the transport rejects or the provider
    refuses), the continuation rejects with that failure: unlike the silent
    refresh it is not swallowed.  No token and no cookie is stored and the
    session signal is not resolved, but the pending record is already
    deleted and the code and nonce already stripped from the URL: the same
    page cannot try the exchange again. *)
Theorem failed_code_exchange_is_final
  (P : Platform) (bg : bool) (w : World) (loc : Location)
  (fields : list (string * JsVal)) (n c : string)
  (error : JsVal) (rest : list HttpResult)
  (Hlanding : codeLanding w loc fields n c)
  (Hanswer : responses w = HttpFail error :: rest) :
  let w' := snd (userSessionContinuation P bg w) in
  fst (userSessionContinuation P bg w) = Throw (Rejection error) /\
  tokenStore w' = tokenStore w /\
  cookies w' = cookies w /\
  userSessionResolved w' = userSessionResolved w /\
  localStorage w' = StorageSlot NoItem /\
  getProp (pendingRecord w') "nonce" = Ok JUndefined /\
  (exists loc', window w' = Some loc' /\
     lookup "code" (search loc') = None /\ lookup "nonce" (search loc') = None).
Proof.
  intros w'. subst w'.
  rewrite (continuation_code_exchange P bg w loc fields n c Hlanding), Hanswer.
  cbn [fst snd tokenStore cookies userSessionResolved localStorage window pendingRecord
       set_transport set_window set_enableCredentials set_localStorage].
  repeat (split; [reflexivity|]).
  eexists. split; [reflexivity|]. cbn [search with_search].
  destruct (strippedQuery_lookup (search loc)) as (H1 & H2 & _). now split.
Qed.

(** The provider answers the exchange of the sample page with a 400. *)
Lemma failed_code_exchange_is_final_witness :
  fst (userSessionContinuation samplePlatform false
         (landingWorld [HttpFail (JObj [("status", JNum 400)])]))
  = Throw (Rejection (JObj [("status", JNum 400)])) /\
  tokenStore (snd (userSessionContinuation samplePlatform false
                     (landingWorld [HttpFail (JObj [("status", JNum 400)])]))) = None.
Proof.
  pose proof (failed_code_exchange_is_final samplePlatform false
    (landingWorld [HttpFail (JObj [("status", JNum 400)])])
    (appPage [("code", "abc"); ("nonce", "N1"); ("iss", "https://login.example.com")])
    sampleRecord "N1" "abc" (JObj [("status", JNum 400)]) []) as H.
  destruct H as (H1 & H2 & _); try reflexivity.
  - repeat split; discriminate.
  - split; [exact H1|exact H2].
Defined.

(** ** The pending record *)

(** X14.  The pending record is read once: after any continuation pass of
    a page whose storage works and holds a text that parses (or nothing),
    the slot is empty, so that no later pass finds a nonce to exchange a
    code with.  A text that does not parse is never deleted, and a storage
    that throws is left alone. *)
Theorem pending_record_is_read_once
  (P : Platform) (bg : bool) (w : World) (loc : Location) (Hw : window w = Some loc) :
  let w' := snd (userSessionContinuation P bg w) in
  (forall item, localStorage w = StorageSlot item -> item <> GarbageItem ->
     localStorage w' = StorageSlot NoItem /\
     getProp (pendingRecord w') "nonce" = Ok JUndefined) /\
  (localStorage w = StorageSlot GarbageItem -> localStorage w' = StorageSlot GarbageItem) /\
  (localStorage w = StorageBroken -> localStorage w' = StorageBroken).
Proof.
  intros w'. subst w'.
  assert (H : localStorage (snd (userSessionContinuation P bg w))
              = localStorage (snd (readPendingRecord w)))
    by (apply (continuation_after_record localStorage) with (loc := loc);
        try reflexivity; exact Hw).
  unfold pendingRecord. rewrite H. unfold readPendingRecord.
  split; [|split].
  - intros item -> Hitem. destruct item as [|v|]; [| |contradiction]; cbn.
    + split; reflexivity.
    + destruct (getProp v "enableCredentials"); split; reflexivity.
  - intros Hg. rewrite Hg. cbn. exact Hg.
  - intros Hg. rewrite Hg. cbn. exact Hg.
Qed.

(** After the failed exchange of the sample page no record is left. *)
Lemma pending_record_is_read_once_witness :
  localStorage (snd (userSessionContinuation samplePlatform false replayWorld))
  = StorageSlot NoItem.
Proof.
  pose proof (pending_record_is_read_once samplePlatform false replayWorld
                (appPage [("code", "abc"); ("nonce", "BAD")]) eq_refl) as (H & _).
  refine (proj1 (H (JsonItem (JObj [("nonce", JStr "N1")])) eq_refl _)). discriminate.
Defined.

(** ** The silent refresh that brings tokens *)

(** Lines 228-234: an answer with an access token is handed to the same
    storing code as the answer of a code exchange. *)
Lemma silentRefresh_with_tokens
  (P : Platform) (w : World) (data access_token : JsVal) (rest : list HttpResult) :
  responses w = HttpOk data :: rest ->
  getProp data "access_token" = Ok access_token -> truthy access_token = true ->
  silentRefresh P w
  = storeSessionTokens P data
      (set_transport (requests w ++ [sessionRequest (enableCredentials w)]) rest w).
Proof.
  intros Hanswer Haccess Htoken.
  unfold silentRefresh, bind, gets, httpClient, lift. rewrite Hanswer, Haccess, Htoken.
  reflexivity.
Qed.

(** X15.  With no stored identity, off loopback and not in the background,
    a refresh that the provider answers with an access token, an identity
    token that decodes to claims and a lifetime of [k] seconds that ends
    within the range of Date and is not used up while the answer is stored
    establishes the session: one request ([PATCH /session]) is sent, the
    identity token goes to the token store, expiring [k] seconds after now,
    and the access token to the [authorization] cookie, expiring at that
    date cut to the whole second, the session signal is resolved and the
    pass reports a session. *)
Theorem refresh_with_tokens_establishes_the_session
  (P : Platform) (w : World) (loc : Location) (identity : JsVal)
  (data id_token expires_in access_token : JsVal) (claims : list (string * JsVal))
  (k : Z) (rest : list HttpResult)
  (Hpass : reachesStoredIdentity w loc)
  (Hlocal : isLocalHost w = false)
  (Hidentity : identityOf P w = Ok identity)
  (Hfalsy : truthy identity = false)
  (Hanswer : responses w = HttpOk data :: rest)
  (Haccess : getProp data "access_token" = Ok access_token)
  (Htoken : truthy access_token = true)
  (Hid : getProp data "id_token" = Ok id_token)
  (Hreal : truthy id_token = true)
  (Hclaims : decode P id_token = Ok (JObj claims))
  (Hexpires : getProp data "expires_in" = Ok expires_in)
  (Hlifetime : truthy expires_in = true)
  (Hseconds : ToNumber P expires_in = Some k)
  (Hholds : lifetimeHolds w k) :
  let w' := snd (userSessionContinuation P false w) in
  fst (userSessionContinuation P false w) = Ok true /\
  requests w' = requests w ++ [sessionRequest (enableCredentials (snd (readPendingRecord w)))] /\
  tokenStore w' = Some {| entryToken := id_token;
                          entryExpiry := ValidDate (now w + k * 1000)%Z |} /\
  find_cookie (cookies w') "authorization"
  = Some {| cookieName := "authorization";
            cookieValue := ToString P (js_or access_token (JStr ""));
            cookieExpires := ValidDate (wholeSecond (now w + k * 1000)%Z) |} /\
  userSessionResolved w' = true.
Proof.
  intros w'. subst w'.
  rewrite (continuation_reaches_stored_identity P false w loc Hpass).
  set (w1 := snd (readPendingRecord w)) in *.
  destruct (readPendingRecord_eq w)
    as (_ & _ & Hts' & Hnow' & Htk' & Hck' & Hrq' & Hrs' & Hres').
  fold w1 in Hts', Hnow', Htk', Hck', Hrq', Hrs', Hres'.
  assert (Hid1 : identityOf P w1 = Ok identity)
    by (unfold w1; rewrite identityOf_readPendingRecord; exact Hidentity).
  assert (Hl1 : isLocalHost w1 = false)
    by (unfold w1; rewrite isLocalHost_readPendingRecord; exact Hlocal).
  rewrite Hanswer in Hrs'.
  pose proof (silentRefresh_with_tokens P w1 data access_token rest Hrs' Haccess Htoken) as Hs.
  assert (Hholds1 : lifetimeHolds
            (set_transport (requests w1 ++ [sessionRequest (enableCredentials w1)]) rest w1) k).
  { unfold lifetimeHolds. cbn [now ticks set_transport]. rewrite Hnow', Htk'. exact Hholds. }
  rewrite (storeSessionTokens_lifetime P data id_token expires_in access_token k _
             Hid Hexpires Hlifetime Hseconds Haccess Hholds1) in Hs.
  cbn [now ticks cookies set_transport] in Hs.
  rewrite Hnow', Htk', Hck', Hrq' in Hs.
  destruct Hholds as [_ Hclock].
  remember (snd (silentRefresh P w1)) as w3 eqn:E3.
  rewrite Hs in E3. cbn [snd] in E3.
  assert (Hheld : heldToken w3 = id_token).
  { subst w3. unfold heldToken.
    cbn [tokenStore now set_tokenStore set_cookies set_clock set_transport
         entryExpiry entryToken expiryPassed].
    destruct (Z.leb_spec (now w + k * 1000)%Z (now w + hd 0%Z (ticks w))%Z) as [H|_];
      [lia|reflexivity]. }
  assert (Hnew : exists v, fst (getUserIdentity P w3) = Ok v /\ truthy v = true).
  { unfold getUserIdentity, bind, TokenStore_get. rewrite Hheld, Hreal.
    unfold lift. rewrite Hclaims. cbn [truthy negb getProp setProp fst].
    eexists. split; reflexivity. }
  destruct Hnew as (v & Hv & Htv).
  assert (Hex : existingSession P false w1 = (Ok true, set_userSessionResolved true w3)).
  { unfold existingSession, bind.
    rewrite (getUserIdentity_eq P w1). fold (identityOf P w1). rewrite Hid1, Hfalsy.
    unfold gets. rewrite Hl1. cbn [negb andb]. unfold try_catch.
    rewrite Hs. unfold ret. rewrite <- E3.
    rewrite (getUserIdentity_eq P w3), Hv, Htv. reflexivity. }
  rewrite Hex. cbn [fst snd]. subst w3. unfold authorizationCookie.
  cbn [requests tokenStore cookies userSessionResolved set_userSessionResolved
       set_tokenStore set_cookies set_clock set_transport].
  split; [reflexivity|]. split; [reflexivity|]. split; [reflexivity|].
  split; [|reflexivity].
  exact (find_cookie_store
           {| cookieName := "authorization";
              cookieValue := ToString P (js_or access_token (JStr ""));
              cookieExpires := ValidDate (wholeSecond (now w + k * 1000)%Z) |} _).
Qed.

(** The refresh of the sample page at 1234 ms, answered with tokens for an
    hour. *)
Lemma refresh_with_tokens_establishes_the_session_witness :
  fst (userSessionContinuation samplePlatform false
         (set_transport [] [HttpOk sampleTokens] oddClockWorld)) = Ok true /\
  find_cookie (cookies (snd (userSessionContinuation samplePlatform false
                 (set_transport [] [HttpOk sampleTokens] oddClockWorld)))) "authorization"
  = Some {| cookieName := "authorization"; cookieValue := "AT";
            cookieExpires := ValidDate 3601000 |} /\
  userSessionResolved (snd (userSessionContinuation samplePlatform false
         (set_transport [] [HttpOk sampleTokens] oddClockWorld))) = true.
Proof.
  pose proof (refresh_with_tokens_establishes_the_session samplePlatform
    (set_transport [] [HttpOk sampleTokens] oddClockWorld) (appPage []) JNull
    sampleTokens (JStr "header.claims-u1.sig") (JNum 3600) (JStr "AT")
    [("sub", JStr "u1"); ("exp", JNum 2000)] 3600%Z []) as H.
  destruct H as (H1 & _ & _ & H4 & H5); try reflexivity.
  - split; [|reflexivity]. split; [reflexivity|]. split; [reflexivity|].
    exists JUndefined. split; reflexivity.
  - split; [unfold inDateRange, maxDate|]; cbn; lia.
  - split; [exact H1|]. split; [exact H4|exact H5].
Defined.

(** ** [logout] *)

(** X16.  With credentialed access, [logout] never fails, whatever the
    provider answers: the token store is emptied, the session signal is
    unresolved again, exactly one request ([DELETE /session], credentialed)
    is sent, the page does not navigate and the cookies are not touched. *)
Theorem logout_with_credentials
  (P : Platform) (documentReferrer : JsVal)
  (logoutHref : string -> string -> string -> option string)
  (redirect : JsVal) (w : World)
  (Hcredentials : enableCredentials w = true) :
  let r := logout P documentReferrer logoutHref redirect w in
  fst r = Ok tt /\
  tokenStore (snd r) = None /\
  userSessionResolved (snd r) = false /\
  requests (snd r) = requests w ++ [logoutRequest] /\
  navigations (snd r) = navigations w /\
  cookies (snd r) = cookies w.
Proof.
  intros r. subst r.
  unfold logout, bind, TokenStore_clear, modify, gets, try_catch, httpClient, ret.
  cbn [snd fst enableCredentials set_tokenStore set_userSessionResolved].
  rewrite Hcredentials. cbn [negb].
  cbn [responses requests enableCredentials set_tokenStore set_userSessionResolved].
  rewrite Hcredentials.
  destruct (responses w) as [|[data|err] rest]; cbn; repeat split.
Qed.

Lemma logout_with_credentials_witness :
  fst (logout samplePlatform JUndefined sampleLogoutHref JUndefined
         (sessionWorld [HttpFail (JObj [("status", JNum 500)])])) = Ok tt /\
  userSessionResolved (snd (logout samplePlatform JUndefined sampleLogoutHref JUndefined
         (sessionWorld [HttpFail (JObj [("status", JNum 500)])]))) = false.
Proof.
  pose proof (logout_with_credentials samplePlatform JUndefined sampleLogoutHref JUndefined
                (sessionWorld [HttpFail (JObj [("status", JNum 500)])]) eq_refl)
    as (H1 & _ & H3 & _).
  split; [exact H1|exact H3].
Defined.

(** X17.  Without credentialed access, [logout] sends nothing: the token
    store is emptied, and the session signal and the cookies are left
    alone.  In a browser it navigates to the logout URL of the login host,
    built from the application id and from the redirect URL given, or, when
    none is given, from the normalised referrer of the document, or, when
    there is no referrer either, from the text [undefined]; it returns only
    by navigating.  A referrer that [new URL] refuses makes it fail with a
    TypeError also when a redirect URL is given, the token store being empty
    by then. *)
Theorem logout_without_credentials
  (P : Platform) (documentReferrer : JsVal)
  (logoutHref : string -> string -> string -> option string)
  (redirect : JsVal) (w : World)
  (Hcredentials : enableCredentials w = false) :
  let r := logout P documentReferrer logoutHref redirect w in
  let leaves_for target :=
    forall loc href, window w = Some loc ->
      logoutHref (hostUrl w) target (ToString P (applicationId w)) = Some href ->
      fst r = Ok tt /\ navigations (snd r) = navigations w ++ [(JStr href, false)] in
  requests (snd r) = requests w /\
  tokenStore (snd r) = None /\
  userSessionResolved (snd r) = userSessionResolved w /\
  cookies (snd r) = cookies w /\
  (forall u, truthy documentReferrer = true ->
     URL_normalize P (ToString P documentReferrer) = Some u ->
     (truthy redirect = true -> leaves_for (ToString P redirect)) /\
     (truthy redirect = false -> leaves_for u)) /\
  (truthy documentReferrer = false ->
     (truthy redirect = true -> leaves_for (ToString P redirect)) /\
     (truthy redirect = false -> leaves_for "undefined")) /\
  (fst r = Ok tt ->
   exists href, navigations (snd r) = navigations w ++ [(JStr href, false)]) /\
  (truthy documentReferrer = true ->
   URL_normalize P (ToString P documentReferrer) = None ->
   fst r = Throw TypeError /\ navigations (snd r) = navigations w).
Proof.
  intros r leaves_for. subst r leaves_for. cbv beta.
  assert (Hrun : logout P documentReferrer logoutHref redirect w
    = match (if truthy documentReferrer
             then match URL_normalize P (ToString P documentReferrer) with
                  | Some u => Some (JStr u)
                  | None => None
                  end
             else Some JUndefined) with
      | None => (Throw TypeError, set_tokenStore None w)
      | Some referrer =>
        match logoutHref (hostUrl w) (ToString P (js_or redirect referrer))
                         (ToString P (applicationId w)) with
        | None => (Throw TypeError, set_tokenStore None w)
        | Some href =>
          match window w with
          | None => (Throw ReferenceError, set_tokenStore None w)
          | Some _ =>
            (Ok tt, set_navigations (navigations w ++ [(JStr href, false)])
                      (set_tokenStore None w))
          end
        end
      end).
  { unfold logout, location_assign, bind, TokenStore_clear, modify, gets, ret, throw,
      getLocation.
    cbn [snd fst enableCredentials set_tokenStore]. rewrite Hcredentials. cbn [negb].
    destruct (truthy documentReferrer).
    - destruct (URL_normalize P (ToString P documentReferrer)) as [u|]; [|reflexivity].
      cbn [fst snd applicationId hostUrl set_tokenStore].
      destruct (logoutHref _ _ _) as [href|]; [|reflexivity].
      cbn [window set_tokenStore]. now destruct (window w).
    - cbn [fst snd applicationId hostUrl set_tokenStore].
      destruct (logoutHref _ _ _) as [href|]; [|reflexivity].
      cbn [window set_tokenStore]. now destruct (window w). }
  rewrite Hrun. clear Hrun. unfold js_or.
  destruct (truthy documentReferrer).
  - destruct (URL_normalize P (ToString P documentReferrer)) as [u|].
    + destruct (truthy redirect);
        destruct (logoutHref _ _ _) as [href|] eqn:Hhref;
        destruct (window w) as [loc|]; cbn;
        repeat match goal with
               | |- _ /\ _ => split
               | |- _ = _ => reflexivity
               | |- _ -> _ => intro
               | H : Some _ = Some _ |- _ => injection H as <-
               end; cbn [ToString] in *; try discriminate; try congruence;
        try (eexists; reflexivity).
    + cbn. repeat match goal with
                  | |- _ /\ _ => split
                  | |- _ = _ => reflexivity
                  | |- _ -> _ => intro
                  end; discriminate.
  - destruct (truthy redirect);
      destruct (logoutHref _ _ _) as [href|] eqn:Hhref;
      destruct (window w) as [loc|]; cbn;
      repeat match goal with
             | |- _ /\ _ => split
             | |- _ = _ => reflexivity
             | |- _ -> _ => intro
             end; cbn [ToString] in *; try discriminate; try congruence;
      try (eexists; reflexivity).
Qed.

(** On the sample page without credentialed access and with a stored
    identity: with no redirect URL the page leaves for the logout URL built
    from the referrer; a referrer that is no URL throws. *)
Lemma logout_without_credentials_witness :
  navigations (snd (logout samplePlatform (JStr "https://app.example.com/from")
                      sampleLogoutHref JUndefined
                      (set_enableCredentials false (signedInWorld []))))
  = [(JStr ("https://login.example.com/logout?redirect_uri=https://app.example.com/from"
            ++ "&client_id=app_1"), false)] /\
  tokenStore (snd (logout samplePlatform (JStr "not a url") sampleLogoutHref
                     (JStr "https://app.example.com/bye")
                     (set_enableCredentials false (signedInWorld [])))) = None /\
  fst (logout samplePlatform (JStr "not a url") sampleLogoutHref
         (JStr "https://app.example.com/bye")
         (set_enableCredentials false (signedInWorld []))) = Throw TypeError.
Proof.
  pose proof (logout_without_credentials samplePlatform (JStr "https://app.example.com/from")
                sampleLogoutHref JUndefined
                (set_enableCredentials false (signedInWorld [])) eq_refl)
    as (_ & _ & _ & _ & H5 & _).
  pose proof (logout_without_credentials samplePlatform (JStr "not a url") sampleLogoutHref
                (JStr "https://app.example.com/bye")
                (set_enableCredentials false (signedInWorld [])) eq_refl)
    as (_ & H2 & _ & _ & _ & _ & _ & H8).
  split; [|split; [exact H2|exact (proj1 (H8 eq_refl eq_refl))]].
  exact (proj2 (proj2 (H5 "https://app.example.com/from" eq_refl eq_refl) eq_refl
                  (appPage []) _ eq_refl eq_refl)).
Defined.

(** ** The [catch] blocks of the requests *)

(** X18.  The [catch] block shared by [authenticate], [linkIdentity],
    [unlinkIdentity] and [updateExtensionAuthenticationRequest] never
    returns normally and changes nothing: it throws the error it caught
    when the status is outside 400..499, and for a status inside an error
    whose code is [data.errorCode] and whose message is [data.title], or
    [data.errorCode] when the title is falsy. *)
Theorem translateError_always_throws (P : Platform) (error : JsError) (w : World) :
  exists raised,
    translateError P error w = (Throw raised, w) /\
    (forall status, error_prop error "status" = Ok status ->
       in_range P status 400 500 = false -> raised = error) /\
    (forall status fields, error_prop error "status" = Ok status ->
       in_range P status 400 500 = true ->
       error_prop error "data" = Ok (JObj fields) ->
       raised = CodedError (fieldOf fields "errorCode")
                  (js_or (fieldOf fields "title") (fieldOf fields "errorCode"))).
Proof.
  unfold translateError, bind, lift, throw.
  destruct (error_prop error "status") as [status|e] eqn:Hs.
  - destruct (in_range P status 400 500) eqn:Hr.
    + destruct (error_prop error "data") as [data|e] eqn:Hd.
      * destruct (getProp data "title") as [title|e] eqn:Ht.
        -- destruct (getProp data "errorCode") as [errorCode|e] eqn:Hc.
           ++ eexists. split; [reflexivity|]. split.
              ** intros s [= <-] H. congruence.
              ** intros s fields [= <-] _ [= ->]. cbn in Ht, Hc.
                 unfold fieldOf. congruence.
           ++ eexists. split; [reflexivity|]. split.
              ** intros s [= <-] H. congruence.
              ** intros s fields [= <-] _ [= ->]. cbn in Hc. discriminate.
        -- eexists. split; [reflexivity|]. split.
           ++ intros s [= <-] H. congruence.
           ++ intros s fields [= <-] _ [= ->]. cbn in Ht. discriminate.
      * eexists. split; [reflexivity|]. split.
        -- intros s [= <-] H. congruence.
        -- intros s fields _ _ [=].
    + eexists. split; [reflexivity|]. split.
      * reflexivity.
      * intros s fields [= <-] H. congruence.
  - eexists. split; [reflexivity|]. split; intros; discriminate.
Qed.

(** A 409 of the provider becomes an error with the provider's code. *)
Lemma translateError_always_throws_witness :
  translateError samplePlatform
    (Rejection (JObj [("status", JNum 409);
                      ("data", JObj [("errorCode", JStr "Conflict")])]))
    (sampleWorld [] NoItem [])
  = (Throw (CodedError (JStr "Conflict") (JStr "Conflict")), sampleWorld [] NoItem []).
Proof.
  destruct (translateError_always_throws samplePlatform
              (Rejection (JObj [("status", JNum 409);
                                ("data", JObj [("errorCode", JStr "Conflict")])]))
              (sampleWorld [] NoItem [])) as (raised & Heq & _ & H4).
  rewrite Heq.
  now rewrite (H4 (JNum 409) [("errorCode", JStr "Conflict")] eq_refl eq_refl eq_refl).
Defined.

(** ** Linking and unlinking *)

(** X19.  [unlinkIdentity] and [linkIdentity] refuse before anything
    happens: without a connection (for [linkIdentity]: without a connection
    and without a tenant) the error is [InvalidConnection]; with one and no
    stored identity it is [NotLoggedIn].  In both cases the world is
    untouched: no session check is started and nothing is sent. *)
Theorem identity_operations_refuse_early
  (P : Platform) (encodeURIComponent : string -> string)
  (elsewhere : Z -> World -> World) (w : World) :
  (forall connection, truthy connection = false ->
     unlinkIdentity P encodeURIComponent elsewhere connection w
     = (Throw invalidConnectionId, w)) /\
  (forall connection identity, truthy connection = true ->
     identityOf P w = Ok identity -> truthy identity = false ->
     unlinkIdentity P encodeURIComponent elsewhere connection w
     = (Throw (notLoggedIn loginBeforeUnlinking), w)) /\
  (forall a, truthy (connectionId a) = false -> truthy (tenantLookupIdentifier a) = false ->
     linkIdentity P elsewhere a w = (Throw invalidConnection, w)) /\
  (forall a identity,
     orb (truthy (connectionId a)) (truthy (tenantLookupIdentifier a)) = true ->
     identityOf P w = Ok identity -> truthy identity = false ->
     linkIdentity P elsewhere a w = (Throw (notLoggedIn loginBeforeLinking), w)).
Proof.
  split; [|split; [|split]].
  - intros connection Hc. unfold unlinkIdentity. now rewrite Hc.
  - intros connection identity Hc Hid Hf. unfold unlinkIdentity, bind. rewrite Hc.
    cbn [negb]. rewrite (getUserIdentity_eq P w). fold (identityOf P w).
    now rewrite Hid, Hf.
  - intros a Hc Ht. unfold linkIdentity. now rewrite Hc, Ht.
  - intros a identity Hc Hid Hf. unfold linkIdentity, bind.
    rewrite <- negb_orb, Hc. cbn [negb].
    rewrite (getUserIdentity_eq P w). fold (identityOf P w).
    now rewrite Hid, Hf.
Qed.

Lemma identity_operations_refuse_early_witness :
  unlinkIdentity samplePlatform sampleEncode idlePage (JStr "google")
    (sampleWorld [] NoItem [])
  = (Throw (notLoggedIn loginBeforeUnlinking), sampleWorld [] NoItem []).
Proof.
  exact (proj1 (proj2 (identity_operations_refuse_early samplePlatform sampleEncode idlePage
                         (sampleWorld [] NoItem [])))
           (JStr "google") JNull eq_refl eq_refl eq_refl).
Defined.

(** A session check that the sequence promise answers. *)
Lemma userSessionExists_afterCheck (bg : bool) (w : World) (p : nat) :
  userSessionSequencePromise w = Some p -> (hd 0 (ticks w) < 5)%Z ->
  userSessionExists bg w = (Ok p, afterCheck w).
Proof.
  intros Hseq Htick.
  unfold userSessionExists, bind, Date_now, modify, gets. cbn. rewrite Hseq. cbn.
  replace (now w + hd 0%Z (ticks w) - now w)%Z with (hd 0%Z (ticks w)) by lia.
  destruct (Z.ltb_spec (hd 0%Z (ticks w)) 5) as [_|H']; [|lia].
  reflexivity.
Qed.

Lemma checkSession_settled (P : Platform) (w : World) (o : Outcome bool) :
  checkSettled w o -> checkSession P w = (o, afterCheck w).
Proof.
  intros (p & r & Hseq & Hnth & Ho & Hall & Htick).
  unfold checkSession, bind. rewrite (userSessionExists_afterCheck false w p Hseq Htick).
  exact (awaitRun_settled P (afterCheck w) p r o Hnth Ho Hall).
Qed.

(** With a settled check and a resolved session signal, [ensureToken] is a
    reading of the [authorization] cookie. *)
Lemma ensureToken_settled
  (P : Platform) (elsewhere : Z -> World -> World) (options : JsVal) (w : World) (b : bool) :
  checkSettled w (Ok b) -> userSessionResolved w = true ->
  ensureToken P elsewhere options w = (Ok (sessionToken w), afterCheck w).
Proof.
  intros Hc Hres. pose proof (checkSession_settled P w (Ok b) Hc) as H.
  unfold checkSession, bind in H. unfold ensureToken, bind. 
  destruct (userSessionExists false w) as [[p|e] w1]; [|discriminate].
  rewrite H. unfold try_catch, raceSessionAgainstTimeout.
  cbn [userSessionResolved afterCheck checkStarted set_clock set_lastSessionCheck].
  rewrite Hres. reflexivity.
Qed.

Lemma isLocalHost_afterCheck (w : World) : isLocalHost (afterCheck w) = isLocalHost w.
Proof. reflexivity. Qed.

(** The [catch] block leaves the world as it is. *)
Lemma translateError_eq (P : Platform) (error : JsError) (w : World) :
  translateError P error w = (fst (translateError P error w), w).
Proof.
  unfold translateError, bind, lift, throw.
  destruct (error_prop error "status") as [status|e]; [|reflexivity].
  destruct (in_range P status 400 500); [|reflexivity].
  destruct (error_prop error "data") as [data|e]; [|reflexivity].
  destruct (getProp data "title"); [|reflexivity].
  now destruct (getProp data "errorCode").
Qed.

Lemma translateError_rethrows (P : Platform) (error : JsError) (w : World) (status : JsVal) :
  error_prop error "status" = Ok status -> in_range P status 400 500 = false ->
  fst (translateError P error w) = Throw error.
Proof.
  intros Hs Hr. unfold translateError, bind, lift, throw. now rewrite Hs, Hr.
Qed.

(** X20.  With a stored identity, a settled session check and a resolved
    session signal, [unlinkIdentity] sends exactly one request:
    [DELETE /identities/<connection>] with the connection URI-encoded, with
    the credentialed-access flag, and with no header when the flag is set
    off loopback, else with the [authorization] cookie as bearer token
    (the text [undefined] when there is no such cookie).  Nothing is stored
    or cleared: the identity token stays as it is.  A success returns; a
    failure whose status is outside 400..499 is thrown on as it came. *)
Theorem identity_removal_request
  (P : Platform) (encodeURIComponent : string -> string) (elsewhere : Z -> World -> World)
  (connection identity : JsVal) (w : World) (b : bool)
  (Hconnection : truthy connection = true)
  (Hidentity : identityOf P w = Ok identity)
  (Hsigned : truthy identity = true)
  (Hcheck : checkSettled w (Ok b))
  (Hresolved : userSessionResolved w = true) :
  let r := unlinkIdentity P encodeURIComponent elsewhere connection w in
  requests (snd r) = requests w ++ [unlinkRequest P encodeURIComponent w connection] /\
  tokenStore (snd r) = tokenStore w /\
  cookies (snd r) = cookies w /\
  navigations (snd r) = navigations w /\
  (forall data rest, responses w = HttpOk data :: rest -> fst r = Ok tt) /\
  (forall error rest status, responses w = HttpFail error :: rest ->
     getProp error "status" = Ok status -> in_range P status 400 500 = false ->
     fst r = Throw (Rejection error)).
Proof.
  intros r. subst r.
  unfold unlinkIdentity, bind, linkingToken, try_catch. rewrite Hconnection. cbn [negb].
  rewrite (getUserIdentity_eq P w). fold (identityOf P w). rewrite Hidentity, Hsigned.
  cbn [negb].
  rewrite (ensureToken_settled P elsewhere _ w b Hcheck Hresolved).
  unfold identityHeaders, bind, gets, ret, httpClient.
  rewrite isLocalHost_afterCheck.
  change (enableCredentials (afterCheck w)) with (enableCredentials w).
  change (responses (afterCheck w)) with (responses w).
  change (requests (afterCheck w)) with (requests w).
  fold (bearerHeaders P w (sessionToken w)).
  fold (unlinkRequest P encodeURIComponent w connection).
  destruct (responses w) as [|[data|error] rest];
    try rewrite translateError_eq; cbn [fst snd requests tokenStore cookies navigations
      set_transport afterCheck checkStarted set_clock set_lastSessionCheck];
    (split; [reflexivity|]); (split; [reflexivity|]); (split; [reflexivity|]);
    (split; [reflexivity|]); (split; [intros data' rest' [=]; try reflexivity|]);
    intros error' rest' status [=] Hs Hr; subst.
  exact (translateError_rethrows P (Rejection error') _ status Hs Hr).
Qed.

(** The sample page with a session and without credentialed access: the
    cookie is sent as bearer token. *)
Lemma identity_removal_request_witness :
  requests (snd (unlinkIdentity samplePlatform sampleEncode idlePage (JStr "google")
                   (set_enableCredentials false (sessionWorld [HttpOk JUndefined]))))
  = [{| reqMethod := "DELETE"; reqPath := "/identities/google"; reqCredentials := false;
        reqBody := JUndefined; reqHeaders := [("Authorization", JStr "Bearer AT")] |}].
Proof.
  refine (proj1 (identity_removal_request samplePlatform sampleEncode idlePage (JStr "google")
            (JObj [("sub", JStr "u1"); ("exp", JNum 2000); ("userId", JStr "u1")])
            (set_enableCredentials false (sessionWorld [HttpOk JUndefined])) true
            eq_refl eq_refl eq_refl _ eq_refl)).
  exists 0%nat, {| runBackground := false; runOutcome := Some (Ok true) |}.
  split; [reflexivity|]. split; [reflexivity|]. split; [reflexivity|].
  split; [|reflexivity].
  intros [|j] r' Hj Hnth; cbn in Hnth.
  - now injection Hnth as <-.
  - destruct j; discriminate.
Defined.

(** The check of [sessionWorld] has settled. *)
Lemma sessionWorld_checkSettled (f : World -> World) (answers : list HttpResult) :
  userSessionSequencePromise (f (sessionWorld answers)) = Some 0%nat ->
  sessionRuns (f (sessionWorld answers)) = [sampleRun] ->
  ticks (f (sessionWorld answers)) = [] ->
  checkSettled (f (sessionWorld answers)) (Ok true).
Proof.
  intros Hseq Hruns Hticks. exists 0%nat, sampleRun.
  rewrite Hseq, Hruns, Hticks.
  split; [reflexivity|]. split; [reflexivity|]. split; [reflexivity|].
  split; [|reflexivity].
  intros [|j] r' Hj Hnth; cbn in Hnth.
  - now injection Hnth as <-.
  - destruct j; discriminate.
Qed.

(** X21.  With a stored identity, a settled session check and a resolved
    session signal, [linkIdentity] sends exactly one request,
    [POST /authentication] with [linkIdentity: true], the code challenge,
    the redirect URL (the normalised argument, else the address of the
    page) and the same flag and headers as [unlinkIdentity]; on an answer
    with an [authenticationUrl] the page navigates there.  Unlike
    [authenticate] it neither empties the token store nor writes a pending
    record, and after a failed request the page stays where it is. *)
Theorem identity_link_request
  (P : Platform) (elsewhere : Z -> World -> World) (a : AuthenticateArgs)
  (identity target : JsVal) (w : World) (loc : Location) (b : bool)
  (Hidentifier : orb (truthy (connectionId a)) (truthy (tenantLookupIdentifier a)) = true)
  (Hidentity : identityOf P w = Ok identity)
  (Hsigned : truthy identity = true)
  (Hcheck : checkSettled w (Ok b))
  (Hresolved : userSessionResolved w = true)
  (Hwindow : window w = Some loc)
  (Hredirect : redirectsTo P a loc target) :
  let r := linkIdentity P elsewhere a w in
  requests (snd r) = requests w ++ [linkRequest P w a target] /\
  tokenStore (snd r) = tokenStore w /\
  localStorage (snd r) = localStorage w /\
  (forall data rest url, responses w = HttpOk data :: rest ->
     getProp data "authenticationUrl" = Ok url ->
     fst r = Ok tt /\ navigations (snd r) = navigations w ++ [(url, false)]) /\
  (forall error rest, responses w = HttpFail error :: rest ->
     navigations (snd r) = navigations w).
Proof.
  intros r. subst r.
  assert (Hselect : forall (K : JsVal -> M unit) w',
    window w' = Some loc ->
    bind (if truthy (redirectUrl a)
          then match URL_normalize P (ToString P (redirectUrl a)) with
               | Some u => ret (JStr u)
               | None => throw TypeError
               end
          else ret (redirectUrl a))
         (fun normalizedRedirectUrl =>
            bind (if truthy normalizedRedirectUrl then ret normalizedRedirectUrl
                  else bind getLocation (fun loc => ret (JStr (Location_href P loc)))) K) w'
    = K target w').
  { intros K w' Hw'. unfold bind, ret, throw, getLocation.
    destruct Hredirect as [[Hf ->]|(Ht & u & Hu & Hne & ->)].
    - rewrite Hf, Hf, Hw'. reflexivity.
    - rewrite Ht, Hu. cbn [truthy].
      destruct (String.eqb_spec u ""); [contradiction|reflexivity]. }
  assert (Hlink : linkIdentity P elsewhere a w
                  = try_catch (requestLink P a (sessionToken w) (snd (authCodes w)))
                              (translateError P) (afterCheck w)).
  { unfold linkIdentity. rewrite <- negb_orb, Hidentifier. cbn [negb].
    unfold bind, linkingToken, try_catch.
    rewrite (getUserIdentity_eq P w). fold (identityOf P w).
    rewrite Hidentity, Hsigned. cbn [negb].
    rewrite (ensureToken_settled P elsewhere _ w b Hcheck Hresolved).
    reflexivity. }
  rewrite Hlink. unfold try_catch, requestLink.
  rewrite (Hselect _ (afterCheck w) Hwindow).
  unfold identityHeaders, location_assign, bind, gets, ret, httpClient, lift, getLocation,
    modify.
  rewrite isLocalHost_afterCheck.
  change (enableCredentials (afterCheck w)) with (enableCredentials w).
  change (responses (afterCheck w)) with (responses w).
  change (requests (afterCheck w)) with (requests w).
  change (applicationId (afterCheck w)) with (applicationId w).
  change (authCodes (afterCheck w)) with (authCodes w).
  fold (bearerHeaders P w (sessionToken w)).
  fold (linkRequest P w a target).
  destruct (responses w) as [|[data|error] rest].
  - rewrite translateError_eq. cbn.
    split; [reflexivity|]. split; [reflexivity|]. split; [reflexivity|].
    split; [intros ? ? ? [=]|intros ? ? [=]].
  - destruct (getProp data "authenticationUrl") as [url|e] eqn:Hurl.
    + cbn [window set_transport]. change (window (afterCheck w)) with (window w).
      rewrite Hwindow. cbn.
      split; [reflexivity|]. split; [reflexivity|]. split; [reflexivity|].
      split; [|intros ? ? [=]].
      intros data' rest' url' [= <- <-] Hu. rewrite Hurl in Hu. injection Hu as <-.
      split; reflexivity.
    + rewrite translateError_eq. cbn.
      split; [reflexivity|]. split; [reflexivity|]. split; [reflexivity|].
      split; [|intros ? ? [=]].
      intros data' rest' url' [= <- <-] Hu. congruence.
  - rewrite translateError_eq. cbn.
    split; [reflexivity|]. split; [reflexivity|]. split; [reflexivity|].
    split; [intros ? ? ? [=]|reflexivity].
Qed.

Lemma identity_link_request_witness :
  fst (linkIdentity samplePlatform idlePage (sampleArgs (JStr "google") JUndefined JUndefined)
         (sessionWorld [authenticationAnswer])) = Ok tt /\
  navigations (snd (linkIdentity samplePlatform idlePage
                      (sampleArgs (JStr "google") JUndefined JUndefined)
                      (sessionWorld [authenticationAnswer])))
  = [(JStr "https://login.example.com/go", false)].
Proof.
  pose proof (identity_link_request samplePlatform idlePage
    (sampleArgs (JStr "google") JUndefined JUndefined)
    (JObj [("sub", JStr "u1"); ("exp", JNum 2000); ("userId", JStr "u1")])
    (JStr "https://app.example.com/") (sessionWorld [authenticationAnswer]) (appPage []) true
    eq_refl eq_refl eq_refl
    (sessionWorld_checkSettled (fun w => w) [authenticationAnswer] eq_refl eq_refl eq_refl)
    eq_refl eq_refl (or_introl (conj eq_refl eq_refl))) as (_ & _ & _ & H & _).
  exact (H _ [] (JStr "https://login.example.com/go") eq_refl eq_refl).
Defined.

(** ** [getConnectionCredentials] *)

(** X22.  [getConnectionCredentials] never rejects: whenever it settles
    it gives a value, [null] standing for every failure, that of the
    session check included.  While the session signal is unresolved it
    settles nothing and sends nothing.  With the signal resolved and the
    check settled it sends one request, [GET /session/credentials], whose
    [Authorization] header is the bearer text of the [authorization]
    cookie, or the falsy token itself when there is none, and gives the body
    of the answer. *)
Theorem getConnectionCredentials_never_rejects
  (P : Platform) (later : World -> option World) (elsewhere : Z -> World -> World)
  (w : World) :
  (forall r, getConnectionCredentials P later elsewhere w = Some r ->
     exists v, fst r = Ok v) /\
  (userSessionResolved w = false -> later w = None ->
     getConnectionCredentials P later elsewhere w = None) /\
  (forall b, userSessionResolved w = true -> checkSettled w (Ok b) ->
     exists result w',
       getConnectionCredentials P later elsewhere w = Some (Ok result, w') /\
       requests w' = requests w ++ [credentialsRequest P w] /\
       (forall data rest, responses w = HttpOk data :: rest -> result = data) /\
       (forall error rest, responses w = HttpFail error :: rest -> result = JNull)).
Proof.
  split; [|split].
  - intros r. unfold getConnectionCredentials.
    destruct (waitForUserSession later w) as [[o w1]|]; [|discriminate].
    intros [= <-]. unfold fetchCredentials, try_catch.
    match goal with |- context [let (_, _) := ?m in _] => destruct m as [[v|e] w2] end;
      eexists; reflexivity.
  - intros Hres Hlater. unfold getConnectionCredentials, waitForUserSession.
    now rewrite Hres, Hlater.
  - intros b Hres Hcheck. unfold getConnectionCredentials, waitForUserSession.
    rewrite Hres. unfold fetchCredentials, try_catch, bind.
    rewrite (ensureToken_settled P elsewhere _ w b Hcheck Hres).
    unfold gets, httpClient, ret.
    change (enableCredentials (afterCheck w)) with (enableCredentials w).
    change (responses (afterCheck w)) with (responses w).
    change (requests (afterCheck w)) with (requests w).
    fold (credentialsRequest P w).
    destruct (responses w) as [|[data|error] rest]; eexists; eexists;
      (split; [reflexivity|]); (split; [reflexivity|]); split; intros ? ? [=]; congruence.
Qed.

(** The sample page without a session waits; with one, the body of the
    provider's answer is returned. *)
Lemma getConnectionCredentials_never_rejects_witness :
  getConnectionCredentials samplePlatform neverLater idlePage (sampleWorld [] NoItem []) = None /\
  exists result w',
    getConnectionCredentials samplePlatform neverLater idlePage (sessionWorld [HttpOk (JStr "creds")])
    = Some (Ok result, w') /\ result = JStr "creds".
Proof.
  pose proof (getConnectionCredentials_never_rejects samplePlatform neverLater idlePage
                (sampleWorld [] NoItem [])) as (_ & H2 & _).
  pose proof (getConnectionCredentials_never_rejects samplePlatform neverLater idlePage
                (sessionWorld [HttpOk (JStr "creds")])) as (_ & _ & H3).
  split; [exact (H2 eq_refl eq_refl)|].
  destruct (H3 true eq_refl
              (sessionWorld_checkSettled (fun w => w) _ eq_refl eq_refl eq_refl))
    as (result & w' & Heq & _ & Hdata & _).
  exists result, w'. split; [exact Heq|exact (Hdata _ [] eq_refl)].
Defined.

(** ** [updateExtensionAuthenticationRequest] *)

(** X23.  [updateExtensionAuthenticationRequest] refuses before anything
    is sent: without a connection and a tenant with [InvalidConnection],
    and with one of them but no [state], neither as argument nor in the URL,
    with [InvalidAuthenticationRequest].  The world is untouched in both
    cases. *)
Theorem extension_request_refuses_early
  (P : Platform) (state : JsVal) (a : AuthenticateArgs) (w : World) :
  (truthy (connectionId a) = false -> truthy (tenantLookupIdentifier a) = false ->
   updateExtensionAuthenticationRequest P state a w = (Throw invalidConnection, w)) /\
  (forall loc,
     orb (truthy (connectionId a)) (truthy (tenantLookupIdentifier a)) = true ->
     window w = Some loc -> truthy (extensionRequestId state loc) = false ->
     updateExtensionAuthenticationRequest P state a w
     = (Throw invalidAuthenticationRequest, w)).
Proof.
  split.
  - intros Hc Ht. unfold updateExtensionAuthenticationRequest. now rewrite Hc, Ht.
  - intros loc Hid Hw Hstate. unfold updateExtensionAuthenticationRequest, bind, getLocation.
    rewrite <- negb_orb, Hid. cbn [negb]. rewrite Hw.
    fold (extensionRequestId state loc). now rewrite Hstate.
Qed.

Lemma extension_request_refuses_early_witness :
  updateExtensionAuthenticationRequest samplePlatform JUndefined
    (sampleArgs (JStr "google") JUndefined JUndefined) (sampleWorld [] NoItem [])
  = (Throw invalidAuthenticationRequest, sampleWorld [] NoItem []).
Proof.
  exact (proj2 (extension_request_refuses_early samplePlatform JUndefined
                  (sampleArgs (JStr "google") JUndefined JUndefined)
                  (sampleWorld [] NoItem []))
           (appPage []) eq_refl eq_refl eq_refl).
Defined.

(** X24.  With a connection or a tenant and a [state],
    [updateExtensionAuthenticationRequest] sends exactly one request,
    [PATCH /authentication/<state>], always credentialed whatever the flag
    of the client, the [state] argument having precedence over the one of
    the URL.  It starts no session check and leaves the token store and the
    pending record alone; on an answer with an [authenticationUrl] the page
    navigates there. *)
Theorem extension_request_is_credentialed
  (P : Platform) (state : JsVal) (a : AuthenticateArgs) (w : World) (loc : Location)
  (Hidentifier : orb (truthy (connectionId a)) (truthy (tenantLookupIdentifier a)) = true)
  (Hwindow : window w = Some loc)
  (Hstate : truthy (extensionRequestId state loc) = true) :
  let r := updateExtensionAuthenticationRequest P state a w in
  requests (snd r) = requests w ++ [extensionRequest P (extensionRequestId state loc) a] /\
  sessionRuns (snd r) = sessionRuns w /\
  tokenStore (snd r) = tokenStore w /\
  localStorage (snd r) = localStorage w /\
  (truthy state = true -> extensionRequestId state loc = state) /\
  (forall data rest url, responses w = HttpOk data :: rest ->
     getProp data "authenticationUrl" = Ok url ->
     fst r = Ok tt /\ navigations (snd r) = navigations w ++ [(url, false)]).
Proof.
  intros r. subst r.
  unfold updateExtensionAuthenticationRequest, location_assign, bind, getLocation, try_catch,
    httpClient, lift, modify.
  rewrite <- negb_orb, Hidentifier. cbn [negb]. rewrite Hwindow.
  fold (extensionRequestId state loc). rewrite Hstate. cbn [negb].
  fold (extensionRequest P (extensionRequestId state loc) a).
  assert (Hprecedence : truthy state = true -> extensionRequestId state loc = state)
    by (intros H; unfold extensionRequestId, js_or; now rewrite H).
  destruct (responses w) as [|[data|error] rest].
  - rewrite translateError_eq. cbn.
    split; [reflexivity|]. split; [reflexivity|]. split; [reflexivity|].
    split; [reflexivity|]. split; [exact Hprecedence|intros ? ? ? [=]].
  - destruct (getProp data "authenticationUrl") as [url|e] eqn:Hurl.
    + cbn [window set_transport]. rewrite Hwindow. cbn.
      split; [reflexivity|]. split; [reflexivity|]. split; [reflexivity|].
      split; [reflexivity|]. split; [exact Hprecedence|].
      intros data' rest' url' [= <- <-] Hu. rewrite Hurl in Hu. injection Hu as <-.
      split; reflexivity.
    + rewrite translateError_eq. cbn.
      split; [reflexivity|]. split; [reflexivity|]. split; [reflexivity|].
      split; [reflexivity|]. split; [exact Hprecedence|].
      intros data' rest' url' [= <- <-] Hu. congruence.
  - rewrite translateError_eq. cbn.
    split; [reflexivity|]. split; [reflexivity|]. split; [reflexivity|].
    split; [reflexivity|]. split; [exact Hprecedence|intros ? ? ? [=]].
Qed.

Lemma extension_request_is_credentialed_witness :
  requests (snd (updateExtensionAuthenticationRequest samplePlatform (JStr "S1")
                   (sampleArgs (JStr "google") JUndefined JUndefined)
                   (set_enableCredentials false
                      (sampleWorld [("state", "S0")] NoItem [authenticationAnswer]))))
  = [extensionRequest samplePlatform (JStr "S1")
       (sampleArgs (JStr "google") JUndefined JUndefined)].
Proof.
  exact (proj1 (extension_request_is_credentialed samplePlatform (JStr "S1")
                  (sampleArgs (JStr "google") JUndefined JUndefined)
                  (set_enableCredentials false
                     (sampleWorld [("state", "S0")] NoItem [authenticationAnswer]))
                  (appPage [("state", "S0")]) eq_refl eq_refl eq_refl)).
Defined.

(** ** [authenticate] *)

(** X25.  A [responseLocation] other than [cookie], [query] and [none] is
    refused before anything else: [InvalidResponseLocation] is raised with
    the world untouched, whether or not a session exists, a connection is
    named or [force] is set. *)
Theorem authenticate_checks_the_response_location_first
  (P : Platform) (a : AuthenticateArgs) (w : World)
  (Hinvalid : validResponseLocation (responseLocation a) = false) :
  authenticate P a w = (Throw invalidResponseLocation, w).
Proof.
  unfold authenticate. rewrite responseLocation_test, Hinvalid. reflexivity.
Qed.

Lemma authenticate_checks_the_response_location_first_witness :
  authenticate samplePlatform
    {| connectionId := JStr "google"; tenantLookupIdentifier := JUndefined;
       redirectUrl := JUndefined; force := JBool true; responseLocation := JStr "header";
       flowType := JUndefined; connectionProperties := JUndefined;
       openType := JUndefined; multiAccount := JUndefined |}
    (signedInWorld [])
  = (Throw invalidResponseLocation, signedInWorld []).
Proof.
  apply authenticate_checks_the_response_location_first. reflexivity.
Defined.

(** Lines 431-432 give the redirect URL of the request. *)
Lemma redirect_selected
  {A : Type} (P : Platform) (a : AuthenticateArgs) (loc : Location) (target : JsVal)
  (K : JsVal -> M A) (w : World) :
  redirectsTo P a loc target -> window w = Some loc ->
  bind (if truthy (redirectUrl a)
        then match URL_normalize P (ToString P (redirectUrl a)) with
             | Some u => ret (JStr u)
             | None => throw TypeError
             end
        else ret (redirectUrl a))
       (fun normalizedRedirectUrl =>
          bind (if truthy normalizedRedirectUrl then ret normalizedRedirectUrl
                else bind getLocation (fun loc => ret (JStr (Location_href P loc)))) K) w
  = K target w.
Proof.
  intros Hredirect Hw. unfold bind, ret, throw, getLocation.
  destruct Hredirect as [[Hf ->]|(Ht & u & Hu & Hne & ->)].
  - rewrite Hf, Hf, Hw. reflexivity.
  - rewrite Ht, Hu. cbn [truthy].
    destruct (String.eqb_spec u ""); [contradiction|reflexivity].
Qed.

(** A forced login is the authentication request and nothing before it. *)
Lemma authenticate_forced (P : Platform) (a : AuthenticateArgs) (w : World) :
  forcedLogin a ->
  authenticate P a w
  = bind (try_catch (requestAuthentication P a (fst (authCodes w)) (snd (authCodes w)))
                    (translateError P))
         (fun _ => ret false) w.
Proof.
  intros (Hvalid & Hforce & Hid).
  unfold authenticate. rewrite responseLocation_test, Hvalid. cbn [negb].
  rewrite <- negb_orb, Hforce. cbn [negb]. unfold bind at 1. unfold ret at 1.
  rewrite <- negb_orb, Hid. cbn [negb]. reflexivity.
Qed.

(** The authentication request up to the answer of the provider. *)
Lemma requestAuthentication_sent
  (P : Platform) (a : AuthenticateArgs) (w : World) (loc : Location) (target : JsVal) :
  window w = Some loc -> redirectsTo P a loc target ->
  let sent := requests w ++ [authenticationRequest w a target] in
  requestAuthentication P a (fst (authCodes w)) (snd (authCodes w)) w
  = match responses w with
    | [] => (Throw (Rejection (JObj [])), set_transport sent [] (set_tokenStore None w))
    | HttpFail error :: rest =>
      (Throw (Rejection error), set_transport sent rest (set_tokenStore None w))
    | HttpOk data :: rest =>
      (authenticationRequestId <- lift (getProp data "authenticationRequestId") ;;
       serverCredentials <- lift (getProp data "enableCredentials") ;;
       storage <- gets localStorage ;;
       match storage with
       | StorageBroken => throw ForeignError
       | StorageSlot _ =>
         modify (set_localStorage (StorageSlot (JsonItem (JObj (stringify_fields
           [("nonce", authenticationRequestId); ("codeVerifier", JStr (fst (authCodes w)));
            ("lastConnectionId", connectionId a);
            ("tenantLookupIdentifier", tenantLookupIdentifier a);
            ("redirectUrl", target); ("enableCredentials", serverCredentials);
            ("multiAccount", multiAccount a)])))))
       end ;;
       authenticationUrl <- lift (getProp data "authenticationUrl") ;;
       _ <- getLocation ;;
       modify (fun w => set_navigations
                          (navigations w ++ [(authenticationUrl, is_str (openType a) "tab")]) w))%js
        (set_transport sent rest (set_tokenStore None w))
    end.
Proof.
  intros Hw Hredirect sent. subst sent.
  unfold requestAuthentication.
  rewrite (redirect_selected P a loc target _ w Hredirect Hw).
  unfold bind at 1. unfold TokenStore_clear, modify at 1.
  unfold bind at 1. unfold gets at 1.
  unfold bind at 1. unfold httpClient.
  cbn [responses requests applicationId set_tokenStore].
  unfold authenticationRequest.
  destruct (responses w) as [|[data|error] rest]; reflexivity.
Qed.

Lemma translateError_throws (P : Platform) (error : JsError) (w : World) :
  exists raised, fst (translateError P error w) = Throw raised.
Proof.
  unfold translateError, bind, lift, throw.
  destruct (error_prop error "status") as [status|e]; [|eexists; reflexivity].
  destruct (in_range P status 400 500); [|eexists; reflexivity].
  destruct (error_prop error "data") as [data|e]; [|eexists; reflexivity].
  destruct (getProp data "title"); [|eexists; reflexivity].
  destruct (getProp data "errorCode"); eexists; reflexivity.
Qed.

(** What a forced login that the provider answers makes of the world. *)
Lemma forced_login_world
  (P : Platform) (a : AuthenticateArgs) (w : World) (loc : Location) (target : JsVal)
  (fields : list (string * JsVal)) (rest : list HttpResult) (item : SlotItem) :
  forcedLogin a -> window w = Some loc -> redirectsTo P a loc target ->
  localStorage w = StorageSlot item -> responses w = HttpOk (JObj fields) :: rest ->
  authenticate P a w
  = (Ok false,
     set_navigations
       (navigations w ++ [(fieldOf fields "authenticationUrl", is_str (openType a) "tab")])
       (set_localStorage (StorageSlot (JsonItem (JObj (writtenRecord w a target fields))))
          (set_transport (requests w ++ [authenticationRequest w a target]) rest
             (set_tokenStore None w)))).
Proof.
  intros Hforced Hw Hredirect Hstorage Hanswer.
  rewrite (authenticate_forced P a w Hforced). unfold bind at 1. unfold try_catch.
  rewrite (requestAuthentication_sent P a w loc target Hw Hredirect), Hanswer.
  unfold bind, lift, gets, modify, getLocation, ret. cbn [getProp].
  cbn [localStorage window set_transport set_tokenStore set_localStorage].
  rewrite Hstorage. cbn [window set_localStorage set_transport set_tokenStore].
  rewrite Hw. reflexivity.
Qed.

(** X26.  A forced login (or a multi-account one) with a connection or a
    tenant, on a page whose storage works and whose provider answers: no
    session check is made; one request is sent, [POST /authentication]
    without credentials whatever the flag of the client; the token store is
    emptied; the pending record is written with the provider's request id
    as nonce and the code verifier; the page navigates to the provider's
    URL, in a new tab when [openType] is [tab]; and the call returns
    [false].  The cookies are not touched. *)
Theorem forced_login_leaves_for_the_provider
  (P : Platform) (a : AuthenticateArgs) (w : World) (loc : Location) (target : JsVal)
  (fields : list (string * JsVal)) (rest : list HttpResult) (item : SlotItem)
  (Hforced : forcedLogin a)
  (Hwindow : window w = Some loc)
  (Hredirect : redirectsTo P a loc target)
  (Hstorage : localStorage w = StorageSlot item)
  (Hanswer : responses w = HttpOk (JObj fields) :: rest) :
  let r := authenticate P a w in
  fst r = Ok false /\
  requests (snd r) = requests w ++ [authenticationRequest w a target] /\
  tokenStore (snd r) = None /\
  localStorage (snd r) = StorageSlot (JsonItem (JObj (writtenRecord w a target fields))) /\
  navigations (snd r)
  = navigations w ++ [(fieldOf fields "authenticationUrl", is_str (openType a) "tab")] /\
  sessionRuns (snd r) = sessionRuns w /\
  cookies (snd r) = cookies w.
Proof.
  intros r. subst r.
  rewrite (forced_login_world P a w loc target fields rest item
             Hforced Hwindow Hredirect Hstorage Hanswer).
  repeat split.
Qed.

Lemma forced_login_leaves_for_the_provider_witness :
  fst (authenticate samplePlatform (sampleArgs (JStr "google") JUndefined (JBool true))
         (set_transport [] [authenticationAnswer] (signedInWorld []))) = Ok false /\
  navigations (snd (authenticate samplePlatform
                      (sampleArgs (JStr "google") JUndefined (JBool true))
                      (set_transport [] [authenticationAnswer] (signedInWorld []))))
  = [(JStr "https://login.example.com/go", false)].
Proof.
  pose proof (forced_login_leaves_for_the_provider samplePlatform
    (sampleArgs (JStr "google") JUndefined (JBool true))
    (set_transport [] [authenticationAnswer] (signedInWorld [])) (appPage [])
    (JStr "https://app.example.com/")
    [("authenticationRequestId", JStr "N1");
     ("authenticationUrl", JStr "https://login.example.com/go");
     ("enableCredentials", JBool true)] [] NoItem
    (conj eq_refl (conj eq_refl eq_refl)) eq_refl (or_introl (conj eq_refl eq_refl))
    eq_refl eq_refl) as (H1 & _ & _ & _ & H5 & _).
  split; [exact H1|exact H5].
Defined.

(** The [catch] block has run: it threw, in the world it was entered in. *)
Ltac caught P :=
  rewrite translateError_eq;
  match goal with
  | |- context [fst (translateError P ?e ?w0)] =>
    let raised := fresh "raised" in
    let H := fresh "Hraised" in
    destruct (translateError_throws P e w0) as (raised & H); rewrite H
  end;
  cbn.

(** X27.  A forced login empties the token store before the request is
    sent: whatever the provider answers, and also when the request fails,
    the stored identity is gone and exactly one request has been sent.  When
    the request fails the call throws, no pending record is written and the
    page stays where it is. *)
Theorem failed_login_still_empties_the_token_store
  (P : Platform) (a : AuthenticateArgs) (w : World) (loc : Location) (target : JsVal)
  (Hforced : forcedLogin a)
  (Hwindow : window w = Some loc)
  (Hredirect : redirectsTo P a loc target) :
  let r := authenticate P a w in
  tokenStore (snd r) = None /\
  requests (snd r) = requests w ++ [authenticationRequest w a target] /\
  (forall error rest, responses w = HttpFail error :: rest ->
     (exists raised, fst r = Throw raised) /\
     localStorage (snd r) = localStorage w /\
     navigations (snd r) = navigations w).
Proof.
  intros r. subst r.
  rewrite (authenticate_forced P a w Hforced). unfold bind, try_catch.
  rewrite (requestAuthentication_sent P a w loc target Hwindow Hredirect).
  destruct (responses w) as [|[data|error] rest].
  - caught P. split; [reflexivity|]. split; [reflexivity|]. intros ? ? [=].
  - unfold bind, lift, gets, modify, getLocation, throw, ret.
    cbn [localStorage window set_transport set_tokenStore set_localStorage].
    destruct (getProp data "authenticationRequestId");
      [|caught P; split; [reflexivity|]; split; [reflexivity|]; intros ? ? [=]].
    destruct (getProp data "enableCredentials");
      [|caught P; split; [reflexivity|]; split; [reflexivity|]; intros ? ? [=]].
    destruct (localStorage w);
      [caught P; split; [reflexivity|]; split; [reflexivity|]; intros ? ? [=]|].
    destruct (getProp data "authenticationUrl");
      [|caught P; split; [reflexivity|]; split; [reflexivity|]; intros ? ? [=]].
    cbn [window set_transport set_tokenStore set_localStorage]. rewrite Hwindow.
    cbn. split; [reflexivity|]. split; [reflexivity|]. intros ? ? [=].
  - caught P. split; [reflexivity|]. split; [reflexivity|].
    intros error' rest' _. split; [eexists; reflexivity|]. split; reflexivity.
Qed.

(** A login refused by the provider on a page with a stored identity. *)
Lemma failed_login_still_empties_the_token_store_witness :
  identityOf samplePlatform (signedInWorld [])
  = Ok (JObj [("sub", JStr "u1"); ("exp", JNum 2000); ("userId", JStr "u1")]) /\
  tokenStore (snd (authenticate samplePlatform
                     (sampleArgs (JStr "google") JUndefined (JBool true))
                     (set_transport [] [HttpFail (JObj [("status", JNum 503)])]
                        (signedInWorld [])))) = None.
Proof.
  split; [reflexivity|].
  exact (proj1 (failed_login_still_empties_the_token_store samplePlatform
                  (sampleArgs (JStr "google") JUndefined (JBool true))
                  (set_transport [] [HttpFail (JObj [("status", JNum 503)])] (signedInWorld []))
                  (appPage []) (JStr "https://app.example.com/")
                  (conj eq_refl (conj eq_refl eq_refl)) eq_refl
                  (or_introl (conj eq_refl eq_refl)))).
Defined.

(** Storing the tokens sends nothing. *)
Lemma storeSessionTokens_requests (P : Platform) (data : JsVal) (w : World) :
  requests (snd (storeSessionTokens P data w)) = requests w.
Proof.
  unfold storeSessionTokens, bind, lift, lifetimeExpiry, claimExpiry, bind, lift, Date_now,
    ret, document_cookie_set, TokenStore_set, modify.
  destruct (getProp data "id_token") as [id_token|]; [|reflexivity].
  destruct (decode P id_token) as [idToken|]; [|reflexivity].
  destruct (getProp data "expires_in") as [expires_in|]; [|reflexivity].
  destruct (truthy expires_in).
  - destruct (getProp data "access_token"); reflexivity.
  - destruct (getProp idToken "exp"); [|reflexivity].
    destruct (getProp data "access_token"); reflexivity.
Qed.

(** The fields of the record [authenticate] writes that the code exchange
    reads. *)
Lemma writtenRecord_fields
  (w : World) (a : AuthenticateArgs) (t n : string) (fields : list (string * JsVal)) :
  lookup "authenticationRequestId" fields = Some (JStr n) ->
  lookup "nonce" (writtenRecord w a (JStr t) fields) = Some (JStr n) /\
  fieldOf (writtenRecord w a (JStr t) fields) "codeVerifier" = JStr (fst (authCodes w)) /\
  fieldOf (writtenRecord w a (JStr t) fields) "redirectUrl" = JStr t /\
  fieldOf (writtenRecord w a (JStr t) fields) "enableCredentials"
  = fieldOf fields "enableCredentials".
Proof.
  intros Hn. unfold writtenRecord, stringify_fields.
  unfold fieldOf at 1 4 7 10. rewrite Hn. cbn [filter snd].
  split; [reflexivity|]. split; [reflexivity|].
  destruct (connectionId a), (tenantLookupIdentifier a);
    (split; [reflexivity|]);
    destruct (fieldOf fields "enableCredentials"), (multiAccount a); reflexivity.
Qed.

(** X28.  The round trip of a login.  A forced login the provider answers
    with the request id [n] writes a pending record; when the provider
    sends the browser back with [nonce=n] and a [code], on any page that
    still has that record, the continuation accepts the nonce and sends the
    code exchange for [n] with the code verifier generated by [authenticate]
    and the redirect URL [authenticate] asked for, credentialed unless the
    provider's answer said [enableCredentials: false]. *)
Theorem login_round_trip
  (P : Platform) (a : AuthenticateArgs) (w : World) (loc : Location) (target : JsVal)
  (fields : list (string * JsVal)) (rest : list HttpResult) (item : SlotItem)
  (n c : string) (bg : bool) (w2 : World) (loc2 : Location)
  (Hforced : forcedLogin a)
  (Hwindow : window w = Some loc)
  (Hredirect : redirectsTo P a loc target)
  (Hstorage : localStorage w = StorageSlot item)
  (Hanswer : responses w = HttpOk (JObj fields) :: rest)
  (Hid : lookup "authenticationRequestId" fields = Some (JStr n))
  (Hn : n <> "")
  (Hrecord : localStorage w2 = localStorage (snd (authenticate P a w)))
  (Hback : window w2 = Some loc2)
  (Hplain : oauthLoginLanding (search loc2) = false)
  (Hnonce : lookup "nonce" (search loc2) = Some n)
  (Hcode : lookup "code" (search loc2) = Some c)
  (Hc : c <> "") :
  requests (snd (userSessionContinuation P bg w2))
  = requests w2 ++ [exchangeRequest w w2 target (fieldOf fields "enableCredentials") n c].
Proof.
  rewrite (forced_login_world P a w loc target fields rest item
             Hforced Hwindow Hredirect Hstorage Hanswer) in Hrecord.
  cbn [snd localStorage set_navigations set_localStorage] in Hrecord.
  assert (Htarget : exists t, target = JStr t).
  { destruct Hredirect as [[_ ->]|(_ & u & _ & _ & ->)]; eexists; reflexivity. }
  destruct Htarget as (t & ->).
  destruct (writtenRecord_fields w a t n fields Hid) as (Hrn & Hverifier & Hurl & Hcred).
  assert (Hlanding : codeLanding w2 loc2 (writtenRecord w a (JStr t) fields) n c).
  { split; [exact Hback|]. split; [exact Hplain|]. split; [exact Hrecord|].
    split; [exact Hrn|]. split; [exact Hn|]. split; [exact Hnonce|].
    split; [exact Hcode|exact Hc]. }
  rewrite (continuation_code_exchange P bg w2 loc2 _ n c Hlanding).
  assert (Hrequest : tokenRequest w2 (writtenRecord w a (JStr t) fields) n c
                     = exchangeRequest w w2 (JStr t) (fieldOf fields "enableCredentials") n c).
  { unfold tokenRequest, exchangeRequest. now rewrite Hverifier, Hurl, Hcred. }
  rewrite Hrequest.
  destruct (responses w2) as [|[data|error] rest2]; try reflexivity.
  unfold bind.
  match goal with
  | |- context [storeSessionTokens P data ?w0] =>
    pose proof (storeSessionTokens_requests P data w0) as Hsent;
    destruct (storeSessionTokens P data w0) as [[[]|e] w3]
  end; exact Hsent.
Qed.

(** The sample login, and the landing of the provider's redirect on the page
    it left. *)
Lemma login_round_trip_witness :
  map reqPath
    (requests (snd (userSessionContinuation samplePlatform false
       (set_window (Some (appPage [("code", "abc"); ("nonce", "N1")]))
          (snd (authenticate samplePlatform
                  (sampleArgs (JStr "google") JUndefined (JBool true))
                  (sampleWorld [] NoItem [authenticationAnswer; HttpOk sampleTokens])))))))
  = ["/authentication"; "/authentication/N1/tokens"].
Proof.
  rewrite (login_round_trip samplePlatform
    (sampleArgs (JStr "google") JUndefined (JBool true))
    (sampleWorld [] NoItem [authenticationAnswer; HttpOk sampleTokens]) (appPage [])
    (JStr "https://app.example.com/")
    [("authenticationRequestId", JStr "N1");
     ("authenticationUrl", JStr "https://login.example.com/go");
     ("enableCredentials", JBool true)] [HttpOk sampleTokens] NoItem "N1" "abc" false _
    (appPage [("code", "abc"); ("nonce", "N1")])
    (conj eq_refl (conj eq_refl eq_refl)) eq_refl (or_introl (conj eq_refl eq_refl))
    eq_refl eq_refl eq_refl); try reflexivity; discriminate.
Defined.

(** ** The session signal *)

Lemma resolvedWhen_bind {A B : Type} (good : B -> bool) (m : M A) (k : A -> M B) :
  (forall x, resolvedWhen good (k x)) -> resolvedWhen good (bind m k).
Proof.
  intros H w b. unfold bind. destruct (m w) as [[x|e] w1]; [apply H|discriminate].
Qed.

Lemma resolvedWhen_throw {A : Type} (good : A -> bool) (e : JsError) :
  resolvedWhen good (throw e).
Proof. intros w a. discriminate. Qed.

Lemma resolvedWhen_ret {A : Type} (good : A -> bool) (a : A) :
  good a = false -> resolvedWhen good (ret a).
Proof. intros H w a' [= <-]. congruence. Qed.

(** Lines 190-191, 213-214 and 223-224. *)
Lemma resolvedWhen_resolver {A : Type} (good : A -> bool) (a : A) :
  resolvedWhen good (bind userSessionResolver (fun _ => ret a)).
Proof. intros w a' _ _. reflexivity. Qed.

Ltac resolves :=
  repeat first [ apply resolvedWhen_resolver
               | apply resolvedWhen_throw
               | apply resolvedWhen_bind; intros ? ].

Lemma codeExchange_resolves
  (P : Platform) (q : list (string * string)) (authRequest nonce : JsVal) :
  resolvedWhen (fun b => b) (codeExchange P q authRequest nonce).
Proof.
  unfold codeExchange.
  destruct (negb (strict_eq_param nonce (lookup "nonce" q))); resolves.
Qed.

Lemma implicitFlow_resolves (P : Platform) (q : list (string * string)) (nonce : JsVal) :
  resolvedWhen landedTrue (implicitFlow P q nonce).
Proof.
  unfold implicitFlow.
  destruct (andb (truthy (of_param (lookup "nonce" q)))
                 (truthy (of_param (lookup "access_token" q))));
    [|now apply resolvedWhen_ret].
  destruct (andb (truthy nonce) (negb (strict_eq_param nonce (lookup "nonce" q))));
    resolves.
Qed.

Lemma existingSession_resolves (P : Platform) (bg : bool) :
  resolvedWhen (fun b => b) (existingSession P bg).
Proof.
  unfold existingSession.
  apply resolvedWhen_bind; intros userData.
  destruct (truthy userData); [resolves|].
  apply resolvedWhen_bind; intros localHost.
  destruct (andb (negb localHost) (negb bg)); [|now apply resolvedWhen_ret].
  apply resolvedWhen_bind; intros _. apply resolvedWhen_bind; intros newUserData.
  destruct (truthy newUserData); [resolves|now apply resolvedWhen_ret].
Qed.

Lemma continuation_resolves (P : Platform) (bg : bool) :
  resolvedWhen (fun b => b) (userSessionContinuation P bg).
Proof.
  unfold userSessionContinuation.
  apply resolvedWhen_bind; intros loc. apply resolvedWhen_bind; intros authRequest.
  destruct (andb (truthy (of_param (lookup "state" (search loc))))
                 (is_str (of_param (lookup "flow" (search loc))) "oauthLogin"));
    [now apply resolvedWhen_ret|].
  apply resolvedWhen_bind; intros nonce.
  destruct (andb (truthy nonce) (truthy (of_param (lookup "code" (search loc)))));
    [apply codeExchange_resolves|].
  apply resolvedWhen_bind; intros localHost.
  intros w b. unfold bind.
  destruct localHost.
  - pose proof (implicitFlow_resolves P (search loc) nonce w) as Hflow.
    destruct (implicitFlow P (search loc) nonce w) as [[[established|]|e] w1];
      cbn [fst snd] in *.
    + unfold ret. cbn [fst snd]. intros [= ->] Hb. exact (Hflow _ eq_refl Hb).
    + apply existingSession_resolves.
    + discriminate.
  - unfold ret at 1. apply existingSession_resolves.
Qed.

(** X29.  Whenever a continuation pass reports a session, the session
    signal is resolved when it ends: no path of lines 153-250 returns [true]
    without having called the resolver, so that a caller told of a session
    never waits for it. *)
Theorem reported_session_resolves_the_signal
  (P : Platform) (bg : bool) (w : World)
  (Hreported : fst (userSessionContinuation P bg w) = Ok true) :
  userSessionResolved (snd (userSessionContinuation P bg w)) = true.
Proof.
  exact (continuation_resolves P bg w true Hreported eq_refl).
Qed.

Lemma reported_session_resolves_the_signal_witness :
  userSessionResolved (landingWorld [HttpOk sampleTokens]) = false /\
  userSessionResolved
    (snd (userSessionContinuation samplePlatform false (landingWorld [HttpOk sampleTokens])))
  = true.
Proof.
  split; [reflexivity|].
  exact (reported_session_resolves_the_signal samplePlatform false
           (landingWorld [HttpOk sampleTokens]) eq_refl).
Defined.

(** ** The implicit flow of a loopback page *)

Lemma continuation_implicit_flow
  (P : Platform) (bg : bool) (w : World) (loc : Location) (n t : string) (k : Z) :
  tokenLanding P w loc n t k -> lifetimeHolds w k ->
  let w1 := snd (readPendingRecord w) in
  userSessionContinuation P bg w
  = (Ok true,
     set_userSessionResolved true
       (set_tokenStore
          (Some {| entryToken := of_param (lookup "id_token" (search loc));
                   entryExpiry := ValidDate (now w + k * 1000)%Z |})
          (set_cookies
             (store_cookie {| cookieName := "authorization"; cookieValue := t;
                              cookieExpires := ValidDate (wholeSecond (now w + k * 1000)%Z) |}
                           (cookies w1))
             (set_clock (now w1 + hd 0%Z (ticks w1))%Z (tl (ticks w1))
                (set_window (Some (with_search (tokensStripped (search loc)) loc)) w1))))).
Proof.
  intros (Hw & Hlocal & Hland & Hn & Hne & Ht & Hte & Hk & Hk0 & nonce & Hnonce & Hcode & Hmatch)
         [Hrange Hclock] w1.
  subst w1.
  destruct (readPendingRecord_eq w) as (Hr & Hw1 & _ & Hnow & Htk & _).
  pose proof (isLocalHost_readPendingRecord w) as Hl.
  unfold userSessionContinuation, bind at 1. unfold getLocation at 1. rewrite Hw.
  unfold bind at 1.
  destruct (readPendingRecord w) as [o w1] eqn:E. cbn [fst snd] in *. subst o.
  fold (oauthLoginLanding (search loc)). rewrite Hland.
  unfold bind at 1. unfold lift at 1. rewrite Hnonce, Hcode.
  unfold bind at 1. unfold gets at 1. rewrite Hl, Hlocal.
  unfold bind at 1. unfold implicitFlow. rewrite Hn, Ht. cbn [of_param truthy].
  destruct (String.eqb_spec n "") as [|_]; [contradiction|].
  destruct (String.eqb_spec t "") as [|_]; [contradiction|].
  cbn [negb andb]. rewrite Hmatch.
  unfold bind at 1. unfold history_replaceState, modify at 1.
  rewrite Hw1, Hw. cbn [option_map]. fold (tokensStripped (search loc)).
  unfold bind at 1. unfold lift at 1.
  destruct (decode_never_raises P (of_param (lookup "id_token" (search loc))))
    as [idToken ->].
  rewrite Hk. destruct (Z.eqb_spec k 0) as [|_]; [contradiction|].
  unfold bind at 1. unfold lifetimeExpiry, bind at 1. unfold Date_now at 1.
  unfold ret at 1. rewrite Hk. cbn [option_map now ticks set_window].
  rewrite Hnow, Htk. rewrite (new_Date_in_range _ Hrange).
  unfold bind, document_cookie_set, TokenStore_set, userSessionResolver, modify, ret.
  cbn [now cookies set_clock set_window]. rewrite (wholeSecond_ahead _ _ _ Hclock).
  unfold js_or. cbn [truthy].
  destruct (String.eqb_spec t "") as [|_]; [contradiction|].
  rewrite <- Hnow, <- Htk. reflexivity.
Qed.

(** X30.  On a loopback page whose URL carries [nonce], [access_token]
    and a lifetime of [k] seconds that ends within the range of Date and is
    not used up while the tokens are stored, the pending record having no
    nonce or the same one, the tokens of the URL are taken as they are:
    nothing is sent to the provider, the [id_token] parameter goes to the
    token store, expiring [k] seconds after now, and the access token to the
    [authorization] cookie, expiring at that date cut to the whole second,
    the session signal is resolved, the pass reports a session, and the five
    token parameters are gone from the visible URL, the others staying. *)
Theorem implicit_flow_takes_the_tokens_of_the_url
  (P : Platform) (bg : bool) (w : World) (loc : Location) (n t : string) (k : Z)
  (Hlanding : tokenLanding P w loc n t k)
  (Hholds : lifetimeHolds w k) :
  let w' := snd (userSessionContinuation P bg w) in
  fst (userSessionContinuation P bg w) = Ok true /\
  requests w' = requests w /\
  tokenStore w'
  = Some {| entryToken := of_param (lookup "id_token" (search loc));
            entryExpiry := ValidDate (now w + k * 1000)%Z |} /\
  find_cookie (cookies w') "authorization"
  = Some {| cookieName := "authorization"; cookieValue := t;
            cookieExpires := ValidDate (wholeSecond (now w + k * 1000)%Z) |} /\
  userSessionResolved w' = true /\
  (exists loc', window w' = Some loc' /\
     lookup "nonce" (search loc') = None /\ lookup "access_token" (search loc') = None /\
     lookup "id_token" (search loc') = None /\ lookup "expires_in" (search loc') = None /\
     lookup "iss" (search loc') = None /\
     (forall key, key <> "nonce" -> key <> "access_token" -> key <> "id_token" ->
        key <> "expires_in" -> key <> "iss" ->
        lookup key (search loc') = lookup key (search loc))).
Proof.
  intros w'. subst w'.
  rewrite (continuation_implicit_flow P bg w loc n t k Hlanding Hholds).
  destruct (readPendingRecord_eq w) as (_ & _ & _ & Hnow & _ & Hck & Hrq & _).
  cbn [fst snd requests tokenStore cookies userSessionResolved window
       set_userSessionResolved set_tokenStore set_cookies set_clock set_window].
  rewrite Hrq.
  split; [reflexivity|]. split; [reflexivity|]. split; [reflexivity|].
  split; [exact (find_cookie_store
                   {| cookieName := "authorization"; cookieValue := t;
                      cookieExpires := ValidDate (wholeSecond (now w + k * 1000)%Z) |} _)|].
  split; [reflexivity|].
  eexists. split; [reflexivity|]. cbn [search with_search]. unfold tokensStripped.
  split; [now rewrite !lookup_remove_other by discriminate; apply lookup_remove_key|].
  split; [now rewrite !lookup_remove_other by discriminate; apply lookup_remove_key|].
  split; [apply lookup_remove_key|].
  split; [now rewrite !lookup_remove_other by discriminate; apply lookup_remove_key|].
  split; [now rewrite !lookup_remove_other by discriminate; apply lookup_remove_key|].
  intros key H1 H2 H3 H4 H5. now rewrite !lookup_remove_other by assumption.
Qed.

(** A URL with tokens opened on a loopback page where no login was started
    signs the user in. *)
Lemma implicit_flow_takes_the_tokens_of_the_url_witness :
  identityOf numberPlatform loopbackWorld = Ok JNull /\
  fst (userSessionContinuation numberPlatform false loopbackWorld) = Ok true /\
  requests (snd (userSessionContinuation numberPlatform false loopbackWorld)) = [].
Proof.
  split; [reflexivity|].
  assert (H : tokenLanding numberPlatform loopbackWorld
                {| protocol := "http:"; host := "localhost:8080"; hostname := "localhost";
                   pathname := "/";
                   search := [("nonce", "anything"); ("access_token", "URL-AT");
                              ("id_token", "header.claims-u1.sig"); ("expires_in", "3600")] |}
                "anything" "URL-AT" 3600%Z).
  { split; [reflexivity|]. split; [reflexivity|]. split; [reflexivity|].
    split; [reflexivity|]. split; [discriminate|]. split; [reflexivity|].
    split; [discriminate|]. split; [reflexivity|]. split; [discriminate|].
    exists JUndefined. split; [reflexivity|]. split; reflexivity. }
  assert (Hholds : lifetimeHolds loopbackWorld 3600).
  { split; [unfold inDateRange, maxDate|]; cbn; lia. }
  destruct (implicit_flow_takes_the_tokens_of_the_url numberPlatform false loopbackWorld
              _ "anything" "URL-AT" 3600%Z H Hholds) as (H1 & H2 & _).
  split; [exact H1|exact H2].
Defined.
